(** * tg-etl/transform.py: the geolocation cascade

    A shallow embedding of [src/tg-etl/transform.py].  Python [str] values
    are lists of Unicode code points, [float] is IEEE binary64 (the
    primitive floats of the Standard Library), the remote geocoding
    endpoint is a function of the number of requests issued so far, and
    side effects (requests, sleeps, log lines, raised exceptions) are
    threaded through a small monad that records them in emission order. *)

From Stdlib Require Import ZArith NArith List String Ascii Bool Floats Lia.
Import ListNotations.

Set Implicit Arguments.
Set Warnings "-register-all,-inexact-float".

(** ** Text *)

(** A Python [str]: a sequence of code points. *)
Definition char := N.
Definition text := list char.

(** An ASCII literal of the source, as code points. *)
Definition str (s : string) : text :=
  List.map N_of_ascii (list_ascii_of_string s).

Fixpoint text_eqb (a b : text) : bool :=
  match a, b with
  | [], [] => true
  | x :: a', y :: b' => N.eqb x y && text_eqb a' b'
  | _, _ => false
  end.

Fixpoint starts_with (needle hay : text) : bool :=
  match needle, hay with
  | [], _ => true
  | x :: n', y :: h' => N.eqb x y && starts_with n' h'
  | _ :: _, [] => false
  end.

(** [needle in hay] on two strings. *)
Fixpoint contains (needle hay : text) : bool :=
  starts_with needle hay ||
  match hay with
  | [] => false
  | _ :: h' => contains needle h'
  end.

(** [x in l] on a list (or the keys of a dict) of strings. *)
Definition mem_text (x : text) (l : list text) : bool :=
  existsb (text_eqb x) l.

(** A dict with string keys, in insertion order. *)
Fixpoint dict_get {V : Type} (d : list (text * V)) (k : text) : option V :=
  match d with
  | [] => None
  | (k', v) :: d' => if text_eqb k k' then Some v else dict_get d' k
  end.

(** ** Values decoded from JSON *)

Inductive json :=
| JNull
| JBool (b : bool)
| JNum (x : float)
| JStr (s : text)
| JArr (l : list json)
| JObj (fields : list (text * json)).

(** ** Exceptions and effects *)

Inductive exn :=
| ValueError
| OverflowError
| TypeError
| AttributeError
| ZeroDivisionError
| UnicodeDecodeError
| UnicodeEncodeError.

Inductive outcome (A : Type) :=
| Returned (a : A)
| Raised (e : exn).
Arguments Returned {A} a.
Arguments Raised {A} e.

(** ** The result record *)

Record GeolocationResult := mkResult {
  lat : option float;
  lon : option float;
  country_code : option text;
  confidence : float;
  source : string;
  place_name : option text;
  geocoding_attempts : list text
}.

(** [GeolocationResult()]: the defaults of the dataclass, the attempts
    list made fresh by [__post_init__]. *)
Definition new_result : GeolocationResult :=
  mkResult None None None 0%float "none" None [].

(** [result.__dict__]: the fields in the order of the dataclass. *)
Definition result_dict (r : GeolocationResult) : json :=
  let number o := match o with Some x => JNum x | None => JNull end in
  let string o := match o with Some t => JStr t | None => JNull end in
  JObj [(str "lat", number (lat r));
        (str "lon", number (lon r));
        (str "country_code", string (country_code r));
        (str "confidence", JNum (confidence r));
        (str "source", JStr (str (source r)));
        (str "place_name", string (place_name r));
        (str "geocoding_attempts", JArr (List.map JStr (geocoding_attempts r)))].

(** [d[k] = v]: the value is replaced where the key sits, a new key
    goes to the end. *)
Fixpoint dict_set (d : list (text * json)) (k : text) (v : json)
  : list (text * json) :=
  match d with
  | [] => [(k, v)]
  | (k', v') :: d' =>
      if text_eqb k k' then (k', v) :: d' else (k', v') :: dict_set d' k v
  end.

(** The dict [process_file] dumps: the decoded message with the three
    keys it sets, over whatever the message held under them. *)
Definition enhanced (message : list (text * json)) (geolocation : GeolocationResult)
           (processed_at : text) : json :=
  JObj (dict_set
          (dict_set (dict_set message (str "geolocation") (result_dict geolocation))
                    (str "processed_at") (JStr processed_at))
          (str "processing_version") (JStr (str "enhanced_v1"))).

(** A UTF-8 file takes every code point but the surrogates, which a
    decoded [\ud800] escape leaves alone in a string; with
    [ensure_ascii=False] the dump keeps them as they are. *)
Definition is_surrogate (c : char) : bool := N.leb 55296 c && N.leb c 57343.

Definition utf8_encodable (t : text) : bool :=
  forallb (fun c => negb (is_surrogate c)) t.

Fixpoint json_encodable (v : json) : bool :=
  match v with
  | JStr t => utf8_encodable t
  | JArr l => forallb json_encodable l
  | JObj fields =>
      forallb (fun kv => let '(k, x) := kv in utf8_encodable k && json_encodable x)
              fields
  | _ => true
  end.

(** What iterating over an input file opened as UTF-8 comes to: the
    lines it yields, and whether it then ends or raises
    UnicodeDecodeError on bytes that are not UTF-8.  Files are taken
    to open, and the output to take whatever text can be encoded. *)
Record infile := mkInfile {
  file_lines : list text;
  file_undecodable : bool
}.

Inductive event :=
| Request (query : text)          (* requests.get on the geocoding endpoint *)
| Sleep (seconds : float)         (* time.sleep *)
| Write (line : json)             (* outfile.write of the dump of a dict *)
| LogWarning (what : string)
| LogError (what : string)
| LogInfo (what : string).

(** A computation reads the number of requests issued so far and yields
    its outcome, the new number of requests and the events it emitted. *)
Definition Py (A : Type) : Type := nat -> outcome A * nat * list event.

Definition ret {A} (a : A) : Py A := fun n => (Returned a, n, []).

Definition raise {A} (e : exn) : Py A := fun n => (Raised e, n, []).

Definition bind {A B} (c : Py A) (k : A -> Py B) : Py B :=
  fun n =>
    match c n with
    | (Returned a, n1, ev1) =>
        let '(r, n2, ev2) := k a n1 in (r, n2, ev1 ++ ev2)
    | (Raised e, n1, ev1) => (Raised e, n1, ev1)
    end.

Definition emit (e : event) : Py unit := fun n => (Returned tt, n, [e]).

Definition lift {A} (o : outcome A) : Py A := fun n => (o, n, []).

Notation "x <- c ;; k" := (bind c (fun x => k))
  (at level 61, c at next level, right associativity).
Notation "c ;;; k" := (bind c (fun _ => k))
  (at level 61, right associativity).

(** The value a reply holds under [relevance], as the product with a
    float takes it.  [geocode] hands it on unread. *)
Inductive relevance :=
| RelFloat (x : float)   (* a number written with a fraction or an exponent *)
| RelInt (z : Z)         (* an integer of any size; true and false are the
                            integers 1 and 0 *)
| RelOther.              (* null, a string, a list or an object *)

(** What one request to the geocoding endpoint comes to, as far as
    [MapboxGeocoder.geocode] looks at it.  The coordinates and the
    place name of a match are numbers and a string; the relevance is
    whatever the reply holds. *)
Inductive mapbox_response :=
| Failed        (* the request, raise_for_status, the decoding of the body
                   or the reading of the first feature raised *)
| NoFeatures    (* the body has no features *)
| Feature (coord_lon coord_lat : float)   (* geometry.coordinates *)
          (f_place_name : option text)
          (f_relevance : option relevance)
          (f_place_type : list text).

(** ** The Python runtime and the outside world

    What the interpreter, its libraries and the network decide and the
    module does not: the Unicode database behind [\d], [\s], [\b],
    [float] and [int]; the [repr] of a float; the JSON decoder, and
    for a text it raises on whether the exception is JSONDecodeError
    or another one (ValueError for an integer of more digits than
    [int] converts, RecursionError for a nesting too deep); the
    iteration order of a [set] (each element once, in whatever
    order); the limit on the digits [int] accepts; the clock; the
    answer of the geocoding endpoint to the request number [n]. *)
Class PyRuntime := {
  decimal_value : char -> option N;
  is_space : char -> bool;
  is_word : char -> bool;
  float_repr : float -> text;
  json_loads : text -> option json;
  json_syntax_error : text -> bool;
  set_order : list text -> list text;
  set_order_In : forall l x, In x (set_order l) <-> In x l;
  set_order_NoDup : forall l, NoDup (set_order l);
  int_max_str_digits : option nat;
  utcnow_isoformat : nat -> text;
  mapbox_get : nat -> text -> mapbox_response
}.

(** The mappings loaded from [countries.yml] when the module is
    imported, as dicts in insertion order. *)
Class CountryData := {
  FLAG_TO_COUNTRY : list (text * text);
  COUNTRY_CENTROIDS : list (text * (float * float))
}.

(** ** Floats from digits *)

(** The binary64 nearest to [n / d] (ties to even, overflow to infinity),
    with the sign [neg]: the quotient is taken with more than 1100 bits
    below the binary point and a sticky bit, then rounded once. *)
Definition round_ratio (neg : bool) (n : N) (d : positive) : float :=
  let s := (1100 + Z.log2 (Zpos d))%Z in
  let num := (Z.of_N n * 2 ^ s)%Z in
  let q := (num / Zpos d)%Z in
  let sticky := (if (num mod Zpos d =? 0)%Z then 0 else 1)%Z in
  let m := (2 * q + sticky)%Z in
  SF2Prim (binary_normalize prec emax (if neg then (- m)%Z else m) (- s - 1)%Z neg).

Definition is_finite (x : float) : bool :=
  negb (is_nan x || is_infinity x).

(** Conversion of an [int] operand to [float], as [int + float] and
    [float / int] perform it. *)
Definition float_of_int (z : Z) : outcome float :=
  let x := round_ratio (z <? 0)%Z (Z.abs_N z) 1 in
  if is_finite x then Returned x else Raised OverflowError.

(** [a / b] on two ints, [b] positive. *)
Definition int_truediv (a : Z) (b : positive) : outcome float :=
  let x := round_ratio (a <? 0)%Z (Z.abs_N a) b in
  if is_finite x then Returned x else Raised OverflowError.

Fixpoint pow10 (k : nat) : positive :=
  match k with
  | O => 1%positive
  | S k' => (10 * pow10 k')%positive
  end.

Section Digits.
Context {R : PyRuntime}.

(** The value of a run of decimal digits, most significant first; a
    character without a decimal value counts as zero (the patterns
    only hand over characters that matched [\d]). *)
Definition digit_of (c : char) : N :=
  match decimal_value c with Some d => d | None => 0%N end.

Definition digits_value (ds : text) : N :=
  fold_left (fun acc c => (10 * acc + digit_of c)%N) ds 0%N.

(** Splits [s] at the first occurrence of [c]. *)
Fixpoint split_at (c : char) (s : text) : text * option text :=
  match s with
  | [] => ([], None)
  | x :: s' =>
      if N.eqb x c then ([], Some s')
      else let '(a, b) := split_at c s' in (x :: a, b)
  end.

(** [float(s)] for [s] made of an optional minus sign, digits and an
    optional point followed by digits. *)
Definition float_of_text (s : text) : float :=
  let '(neg, body) :=
    match s with
    | 45%N :: s' => (true, s')
    | _ => (false, s)
    end in
  let '(ip, fp) := split_at 46%N body in
  let fp := match fp with Some f => f | None => [] end in
  round_ratio neg (digits_value (ip ++ fp)) (pow10 (List.length fp)).

(** [int(s)] for [s] made of digits. *)
Definition int_of_text (s : text) : outcome Z :=
  match int_max_str_digits with
  | Some lim =>
      if Nat.ltb lim (List.length s) then Raised ValueError
      else Returned (Z.of_N (digits_value s))
  | None => Returned (Z.of_N (digits_value s))
  end.
End Digits.

(** ** Regular expressions

    The fragment of Python's [re] the module uses, matched the way [re]
    matches: leftmost, by backtracking, greedy quantifiers trying the
    longer alternative first and the lazy one the shorter. *)
Module Re.

Inductive cls :=
| Digit                         (* \d *)
| Space                         (* \s *)
| AnyChar                       (* . : anything but a newline *)
| Range (lo hi : char)          (* [A-Z] *)
| OneOf (cs : list char).       (* [NS] *)

Inductive regex :=
| Eps                           (* the empty pattern *)
| Lit (c : char)
| Cls (c : cls)
| WordB                         (* \b *)
| Cat (r1 r2 : regex)
| Opt (r : regex)               (* r? *)
| Star (r : regex)              (* r* *)
| Plus (r : regex)              (* r+ *)
| LazyStar (r : regex)          (* r*? *)
| Group (i : nat) (r : regex).  (* the i-th capturing group *)

(** A position in the subject: the character just before it, what is
    left of the subject, and the groups captured on the way. *)
Record pos := mkPos {
  prev : option char;
  rest : text;
  caps : list (nat * text)
}.

Definition cont := pos -> option pos.

Section Matcher.
Context {R : PyRuntime}.

Definition in_cls (c : cls) (x : char) : bool :=
  match c with
  | Digit => match decimal_value x with Some _ => true | None => false end
  | Space => is_space x
  | AnyChar => negb (N.eqb x 10)
  | Range lo hi => N.leb lo x && N.leb x hi
  | OneOf cs => existsb (N.eqb x) cs
  end.

Definition word_at (o : option char) : bool :=
  match o with Some x => is_word x | None => false end.

Definition step (p : char -> bool) (s : pos) (k : cont) : option pos :=
  match rest s with
  | x :: xs => if p x then k (mkPos (Some x) xs (caps s)) else None
  | [] => None
  end.

(** The text consumed between two positions of one subject. *)
Definition consumed (s s' : pos) : text :=
  firstn (List.length (rest s) - List.length (rest s')) (rest s).

(** Greedy repetition of [body]: one more iteration first, and only
    then the continuation. An iteration that consumes nothing is not
    repeated. *)
Fixpoint greedy (body : pos -> cont -> option pos) (fuel : nat)
         (s : pos) (k : cont) : option pos :=
  match fuel with
  | O => k s
  | S fuel' =>
      match body s (fun s' =>
                      if Nat.ltb (List.length (rest s')) (List.length (rest s))
                      then greedy body fuel' s' k else None) with
      | Some r => Some r
      | None => k s
      end
  end.

(** Lazy repetition: the continuation first. *)
Fixpoint lazy (body : pos -> cont -> option pos) (fuel : nat)
         (s : pos) (k : cont) : option pos :=
  match k s with
  | Some r => Some r
  | None =>
      match fuel with
      | O => None
      | S fuel' =>
          body s (fun s' =>
                    if Nat.ltb (List.length (rest s')) (List.length (rest s))
                    then lazy body fuel' s' k else None)
      end
  end.

Fixpoint run (r : regex) (s : pos) (k : cont) {struct r} : option pos :=
  match r with
  | Eps => k s
  | Lit c => step (N.eqb c) s k
  | Cls c => step (in_cls c) s k
  | WordB =>
      if xorb (word_at (prev s)) (word_at (hd_error (rest s)))
      then k s else None
  | Cat r1 r2 => run r1 s (fun s' => run r2 s' k)
  | Opt r1 =>
      match run r1 s k with
      | Some p => Some p
      | None => k s
      end
  | Star r1 => greedy (run r1) (List.length (rest s)) s k
  | Plus r1 =>
      run r1 s (fun s' => greedy (run r1) (List.length (rest s')) s' k)
  | LazyStar r1 => lazy (run r1) (List.length (rest s)) s k
  | Group i r1 =>
      run r1 s (fun s' => k (mkPos (prev s') (rest s') ((i, consumed s s') :: caps s')))
  end.

(** A match starting exactly at [s]. *)
Definition match_here (r : regex) (s : pos) : option pos :=
  run r (mkPos (prev s) (rest s) []) Some.

(** [m.group(i)]. *)
Fixpoint group (i : nat) (c : list (nat * text)) : text :=
  match c with
  | [] => []
  | (j, t) :: c' => if Nat.eqb i j then t else group i c'
  end.

(** [m.groups()] for a pattern with [n] groups. *)
Definition groups (n : nat) (m : pos) : list text :=
  List.map (fun i => group i (caps m)) (seq 1 n).

(** The non-overlapping matches of [r], left to right: after a match
    the scan resumes where it ended (one character further when the
    match was empty), after a failure one character further. *)
Fixpoint scan (r : regex) (fuel : nat) (s : pos) : list pos :=
  match fuel with
  | O => []
  | S fuel' =>
      let advance :=
        match rest s with
        | x :: xs => scan r fuel' (mkPos (Some x) xs [])
        | [] => []
        end in
      match match_here r s with
      | Some m =>
          if Nat.ltb (List.length (rest m)) (List.length (rest s))
          then m :: scan r fuel' (mkPos (prev m) (rest m) [])
          else m :: advance
      | None => advance
      end
  end.

Definition finditer (r : regex) (t : text) : list pos :=
  scan r (S (List.length t)) (mkPos None t []).

(** [re.findall] for a pattern with [n] groups, each match as the
    list of its groups. *)
Definition findall (n : nat) (r : regex) (t : text) : list (list text) :=
  List.map (groups n) (finditer r t).
End Matcher.

(** Concatenation of a list of pieces, and a literal string. *)
Fixpoint cat (rs : list regex) : regex :=
  match rs with
  | [] => Eps
  | [r] => r
  | r :: rs' => Cat r (cat rs')
  end.

Definition lit (s : string) : list regex := List.map Lit (str s).

End Re.

(** ** Operators of the language *)

(** [max(a, b)] and [min(a, b)]: the first argument is kept unless the
    second compares strictly beyond it. *)
Definition py_max (a b : float) : float := if PrimFloat.ltb a b then b else a.
Definition py_min (a b : float) : float := if PrimFloat.ltb b a then b else a.

(** [max(l, key=...)] on a non-empty list: the first element is kept
    until a later one has a strictly greater key. *)
Definition max_by {A} (key : A -> float) (x : A) (l : list A) : A :=
  fold_left (fun best y => if PrimFloat.ltb (key best) (key y) then y else best) l x.

(** Truth value of an optional float ([None] and zero are false). *)
Definition truthy (o : option float) : bool :=
  match o with
  | Some x => negb (PrimFloat.eqb x 0)
  | None => false
  end.

Definition obind {A B} (o : outcome A) (k : A -> outcome B) : outcome B :=
  match o with
  | Returned a => k a
  | Raised e => Raised e
  end.

Section Strings.
Context {R : PyRuntime}.

Fixpoint lstrip (s : text) : text :=
  match s with
  | x :: s' => if is_space x then lstrip s' else s
  | [] => []
  end.

(** [s.strip()]. *)
Definition strip (s : text) : text := rev (lstrip (rev (lstrip s))).

(** [s.lower()], on the letters the patterns of this module let
    through (A to Z); other characters are left as they are. *)
Definition lower (s : text) : text :=
  List.map (fun x => if N.leb 65 x && N.leb x 90 then (x + 32)%N else x) s.

(** [sep.join(parts)]. *)
Fixpoint join (sep : text) (parts : list text) : text :=
  match parts with
  | [] => []
  | [p] => p
  | p :: ps => p ++ sep ++ join sep ps
  end.
End Strings.

(** ** The patterns of the module *)
Module Patterns.
Import Re.
Local Open Scope N_scope.

Definition d : regex := Cls Digit.
Definition s : regex := Cls Space.
Definition upper : regex := Cls (Range 65 90).
Definition lower_ : regex := Cls (Range 97 122).
Definition minus : regex := Lit 45.
Definition dot : regex := Lit 46.
Definition comma : regex := Lit 44.

(** -?\d+\.\d+  in group [i] *)
Definition signed_decimal (i : nat) : regex :=
  Group i (cat [Opt minus; Plus d; dot; Plus d]).

(** (-?\d+\.\d+),\s*(-?\d+\.\d+) *)
Definition decimal_degrees : regex :=
  cat [signed_decimal 1%nat; comma; Star s; signed_decimal 2%nat].

(** The character the source has between degrees and minutes: the
    file holds the code point U+C9F8 there. *)
Definition degree_sign : char := 51704.

(** (\d+)D(\d+)\'(\d+\.?\d* )Q([NS]) with D the degree character and Q
    the double quote, groups [i] to [i+3], ending in one of [dirs]. *)
Definition dms_half (i : nat) (dirs : list char) : list regex :=
  [Group i (Plus d); Lit degree_sign; Group (i + 1)%nat (Plus d); Lit 39;
   Group (i + 2)%nat (cat [Plus d; Opt dot; Star d]); Lit 34;
   Group (i + 3)%nat (Cls (OneOf dirs))].

Definition dms : regex :=
  cat (dms_half 1%nat [78; 83] ++ [comma; Star s] ++ dms_half 5%nat [69; 87]).

(** lat:\s*(-?\d+\.\d+).*?lon:\s*(-?\d+\.\d+) *)
Definition lat_lon : regex :=
  cat (lit "lat:" ++ [Star s; signed_decimal 1%nat; LazyStar (Cls AnyChar)]
       ++ lit "lon:" ++ [Star s; signed_decimal 2%nat]).

(** [A-Z][a-z]+  *)
Definition cap_word : list regex := [upper; Plus lower_].

(** [A-Z][a-z]+(?:\s+[A-Z][a-z]+)*  in group [i] *)
Definition cap_words (i : nat) : regex :=
  Group i (cat (cap_word ++ [Star (cat (Plus s :: cap_word))])).

(** (CapWords),\s*(CapWords) *)
Definition city_country : regex :=
  cat [cap_words 1%nat; comma; Star s; cap_words 2%nat].

(** (CapWords)\s+in\s+(CapWords) *)
Definition city_in_country : regex :=
  cat ([cap_words 1%nat; Plus s] ++ lit "in" ++ [Plus s; cap_words 2%nat]).

(** \b(CapWords)\b *)
Definition capitalized : regex := cat [WordB; cap_words 1%nat; WordB].

(** \b(CapWords),\s*([A-Z][a-z]+)\b *)
Definition place_city_country : regex :=
  cat [WordB; cap_words 1%nat; comma; Star s; Group 2%nat (cat cap_word); WordB].
End Patterns.

(** ** MapboxGeocoder *)

Record MapboxGeocoder := mkGeocoder {
  access_token : text;
  base_url : text;
  rate_limit_delay : float
}.

(** [MapboxGeocoder.__init__] *)
Definition MapboxGeocoder_init (token : text) : MapboxGeocoder :=
  mkGeocoder token (str "https://api.mapbox.com/geocoding/v5/mapbox.places")
             0.1%float.

(** The dict [geocode] returns on a match. *)
Record geocode_hit := mkHit {
  hit_lat : float;
  hit_lon : float;
  hit_place_name : text;
  hit_relevance : relevance;
  hit_type : text
}.

Section Geocoder.
Context {R : PyRuntime}.

(** [requests.get] with the checks and decoding that follow it. *)
Definition request (query : text) : Py mapbox_response :=
  fun n => (Returned (mapbox_get n query), S n, [Request query]).

Definition sleep (seconds : float) : Py unit := emit (Sleep seconds).

(** [MapboxGeocoder.geocode]; the module never passes a country code. *)
Definition geocode (self : MapboxGeocoder) (query : text)
  : Py (option geocode_hit) :=
  resp <- request query ;;
  match resp with
  | Feature lo la name rel types =>
      ret (Some (mkHit la lo
                       (match name with Some p => p | None => query end)
                       (match rel with Some x => x | None => RelFloat 0 end)
                       (match types with t :: _ => t | [] => str "unknown" end)))
  | NoFeatures =>
      sleep (rate_limit_delay self) ;;;
      ret None
  | Failed =>
      emit (LogWarning "Geocoding failed") ;;;
      sleep (rate_limit_delay self) ;;;
      ret None
  end.
End Geocoder.

(** ** LLMGeolocator *)

Record LLMGeolocator := mkLLM { mapbox : MapboxGeocoder }.

Definition LLMGeolocator_init (token : text) : LLMGeolocator :=
  mkLLM (MapboxGeocoder_init token).

(** One entry of the list [extract_location_entities] returns. *)
Record location := mkLocation {
  loc_type : string;
  loc_city : text;
  loc_country : option text;
  loc_query : text;
  loc_confidence : float
}.

Section Entities.
Context {R : PyRuntime}.

Definition stop_words : list text :=
  List.map str ["the"; "and"; "for"; "with"; "from"; "this"; "that"]%string.

Definition pair_location (ty : string) (conf : float) (g : list text)
  : list location :=
  match g with
  | [city; country] =>
      [mkLocation ty (strip city) (Some (strip country))
                  (strip city ++ str ", " ++ strip country) conf]
  | _ => []
  end.

Definition standalone_location (g : list text) : list location :=
  match g with
  | [city] =>
      if Nat.ltb 2 (List.length city) && negb (mem_text (lower city) stop_words)
      then [mkLocation "city_only" (strip city) None (strip city) 0.4%float]
      else []
  | _ => []
  end.

(** [LLMGeolocator.extract_location_entities]: the three patterns in
    turn, every match of each. *)
Definition extract_location_entities (t : text) : list location :=
  flat_map (pair_location "city_country" 0.8%float)
           (Re.findall 2 Patterns.city_country t)
  ++ flat_map (pair_location "city_in_country" 0.7%float)
              (Re.findall 2 Patterns.city_in_country t)
  ++ flat_map standalone_location (Re.findall 1 Patterns.capitalized t).

(** [c * rel] for a float [c]: an integer is converted first, and
    anything that is not a number cannot be multiplied. *)
Definition scale (c : float) (rel : relevance) : outcome float :=
  match rel with
  | RelFloat x => Returned (c * x)%float
  | RelInt z => obind (float_of_int z) (fun x => Returned (c * x)%float)
  | RelOther => Raised TypeError
  end.

(** The body of the loop of [geocode_locations]; the product of the
    two confidences is outside any handler. *)
Definition geocode_location (self : LLMGeolocator) (l : location)
  : Py GeolocationResult :=
  let attempts := [str "LLM extracted: " ++ loc_query l] in
  hit <- geocode (mapbox self) (loc_query l) ;;
  match hit with
  | Some h =>
      conf <- lift (scale (loc_confidence l) (hit_relevance h)) ;;
      ret (mkResult (Some (hit_lat h)) (Some (hit_lon h)) None
                    conf
                    ("llm_geocoding_" ++ loc_type l)%string
                    (Some (hit_place_name h))
                    (attempts ++ [str "Geocoded successfully: " ++ hit_place_name h]))
  | None =>
      ret (mkResult None None None 0%float "none" None
                    (attempts ++ [str "Geocoding failed"]))
  end.

(** [LLMGeolocator.geocode_locations] *)
Fixpoint geocode_locations (self : LLMGeolocator) (ls : list location)
  : Py (list GeolocationResult) :=
  match ls with
  | [] => ret []
  | l :: ls' =>
      r <- geocode_location self l ;;
      rs <- geocode_locations self ls' ;;
      ret (r :: rs)
  end.
End Entities.

(** ** Coordinates, flags, place names, centroids *)

Section Extractors.
Context {R : PyRuntime} {C : CountryData}.
Local Open Scope float_scope.

(** -90 <= lat <= 90 and -180 <= lon <= 180 *)
Definition in_bounds (la lo : float) : bool :=
  (-90 <=? la) && (la <=? 90) && (-180 <=? lo) && (lo <=? 180).

(** degrees + minutes/60 + seconds/3600, on an int, an int and a float *)
Definition dms_value (deg mins : Z) (sec : float) : outcome float :=
  obind (int_truediv mins 60) (fun m =>
  obind (float_of_int deg) (fun dg =>
  Returned (dg + m + sec / 3600))).

(** The branch for a first match of eight groups. *)
Definition parse_dms (g : list text) : outcome (float * float) :=
  match g with
  | [g0; g1; g2; g3; g4; g5; g6; g7] =>
      obind (int_of_text g0) (fun lat_deg =>
      obind (int_of_text g1) (fun lat_min =>
      let lat_sec := float_of_text g2 in
      obind (int_of_text g4) (fun lon_deg =>
      obind (int_of_text g5) (fun lon_min =>
      let lon_sec := float_of_text g6 in
      obind (dms_value lat_deg lat_min lat_sec) (fun la =>
      obind (dms_value lon_deg lon_min lon_sec) (fun lo =>
      let la := if text_eqb g3 (str "S") then - la else la in
      let lo := if text_eqb g7 (str "W") then - lo else lo in
      Returned (la, lo)))))))
  | _ => Raised ValueError
  end.

(** The loop of [extract_coordinates] over the patterns that are left,
    each with its number of groups: only the first match of a pattern
    is looked at, and a pattern whose first match is out of bounds, or
    raises [ValueError], hands over to the next pattern. *)
Fixpoint try_patterns (ps : list (nat * Re.regex)) (t : text)
  : outcome (option (float * float)) :=
  match ps with
  | [] => Returned None
  | (n, p) :: ps' =>
      match Re.findall n p t with
      | [] => try_patterns ps' t
      | m0 :: _ =>
          match m0 with
          | [a; b] =>
              let la := float_of_text a in
              let lo := float_of_text b in
              if in_bounds la lo then Returned (Some (la, lo))
              else try_patterns ps' t
          | [_; _; _; _; _; _; _; _] =>
              match parse_dms m0 with
              | Returned (la, lo) =>
                  if in_bounds la lo then Returned (Some (la, lo))
                  else try_patterns ps' t
              | Raised ValueError => try_patterns ps' t
              | Raised e => Raised e
              end
          | _ => try_patterns ps' t
          end
      end
  end.

Definition coordinate_patterns : list (nat * Re.regex) :=
  [(2, Patterns.decimal_degrees); (8, Patterns.dms); (2, Patterns.lat_lon)]%nat.

Definition extract_coordinates (t : text) : outcome (option (float * float)) :=
  try_patterns coordinate_patterns t.

Definition extract_flag_countries (t : text) : list text :=
  List.map snd (List.filter (fun fc => contains (fst fc) t) FLAG_TO_COUNTRY).

Definition extract_place_names (t : text) : list text :=
  set_order
    (List.map (fun g => match g with [m] => m | _ => [] end)
              (Re.findall 1 Patterns.capitalized t)
     ++ List.map (join (str ", ")) (Re.findall 2 Patterns.place_city_country t)).

Definition get_country_centroid (code : text) : option (float * float) :=
  dict_get COUNTRY_CENTROIDS code.
End Extractors.

(** ** The cascade *)

Definition startswith (s p : string) : bool := String.prefix p s.

Definition calculate_confidence_score (result : GeolocationResult) : float :=
  let base := confidence result in
  let base := if startswith (source result) "coordinates"
              then py_max base 0.95 else base in
  let base := if startswith (source result) "flag"
              then py_max base 0.85 else base in
  let base := if startswith (source result) "llm_geocoding"
              then py_max base 0.7 else base in
  let base := if startswith (source result) "country_centroid"
              then py_min base 0.5 else base in
  let base := if startswith (source result) "channel_fallback"
              then py_min base 0.3 else base in
  py_min base 1.0.

Definition channel_country_map : list (text * text) :=
  [(str "militarysummary", str "UKR");
   (str "ClashReport", str "UKR");
   (str "ukraine_world", str "UKR");
   (str "russia_news", str "RUS");
   (str "middle_east_news", str "ISR")].

(** [message.get(key, '')] *)
Definition message_get (message : json) (key : text) : outcome json :=
  match message with
  | JObj fields =>
      Returned (match dict_get fields key with Some v => v | None => JStr [] end)
  | _ => Raised AttributeError
  end.

(** What the functions of [re] accept as subject. *)
Definition as_str (v : json) : outcome text :=
  match v with
  | JStr t => Returned t
  | _ => Raised TypeError
  end.

(** [channel_country_map.get]-like lookup behind [channel in map] and
    [map[channel]]: a list or a dict cannot be hashed, any other value
    that is not a string is simply not a key. *)
Definition channel_lookup (channel : json) : outcome (option text) :=
  match channel with
  | JStr c => Returned (dict_get channel_country_map c)
  | JArr _ | JObj _ => Raised TypeError
  | _ => Returned None
  end.

(** The assignments at the end of [process_message]. *)
Definition no_location (result : GeolocationResult) : GeolocationResult :=
  mkResult (lat result) (lon result) (country_code result)
           0%float "none" (place_name result)
           (geocoding_attempts result ++ [str "No geolocation found"]).

Section Cascade.
Context {R : PyRuntime} {C : CountryData}.

Definition repr_pair (c : float * float) : text :=
  str "(" ++ float_repr (fst c) ++ str ", " ++ float_repr (snd c) ++ str ")".

(** Step 5 and the terminal result. *)
Definition channel_step (channel : json) (result : GeolocationResult)
  : Py GeolocationResult :=
  found <- lift (channel_lookup channel) ;;
  match found with
  | Some code =>
      match get_country_centroid code with
      | Some centroid =>
          ret (mkResult (Some (fst centroid)) (Some (snd centroid)) (Some code)
                        0.2%float "channel_fallback" (place_name result)
                        (geocoding_attempts result
                         ++ [str "Channel fallback: " ++ code]))
      | None => ret (no_location result)
      end
  | None => ret (no_location result)
  end.

(** Step 4, then the rest. *)
Definition place_name_step (llm : LLMGeolocator) (t : text) (channel : json)
           (result : GeolocationResult) : Py GeolocationResult :=
  match extract_place_names t with
  | first :: _ =>
      hit <- geocode (mapbox llm) first ;;
      match hit with
      | Some h =>
          ret (mkResult (Some (hit_lat h)) (Some (hit_lon h)) (country_code result)
                        0.4%float "place_name_geocoding"
                        (Some (hit_place_name h))
                        (geocoding_attempts result
                         ++ [str "Geocoded place: " ++ first]))
      | None => channel_step channel result
      end
  | [] => channel_step channel result
  end.

(** Step 3, then the rest. *)
Definition entity_step (llm : LLMGeolocator) (t : text) (channel : json)
           (result : GeolocationResult) : Py GeolocationResult :=
  if Nat.ltb 10 (List.length t) then
    match extract_location_entities t with
    | [] => place_name_step llm t channel result
    | locations =>
        geocode_results <- geocode_locations llm locations ;;
        match geocode_results with
        | first :: others =>
            let best_result := max_by confidence first others in
            if PrimFloat.ltb 0.3 (confidence best_result) then
              ret (mkResult (lat best_result) (lon best_result)
                            (country_code best_result)
                            (calculate_confidence_score best_result)
                            (source best_result) (place_name best_result)
                            (geocoding_attempts best_result))
            else place_name_step llm t channel result
        | [] => raise ValueError   (* max() of an empty sequence *)
        end
    end
  else place_name_step llm t channel result.

(** Step 2, then the rest. *)
Definition flag_step (llm : LLMGeolocator) (t : text) (channel : json)
           (result : GeolocationResult) : Py GeolocationResult :=
  match extract_flag_countries t with
  | code :: _ =>
      match get_country_centroid code with
      | Some centroid =>
          ret (mkResult (Some (fst centroid)) (Some (snd centroid)) (Some code)
                        0.85%float "flag_emoji" (place_name result)
                        (geocoding_attempts result ++ [str "Found flag: " ++ code]))
      | None => entity_step llm t channel result
      end
  | [] => entity_step llm t channel result
  end.

(** [process_message]; what it returns is the dict of the fields of
    the result. *)
Definition process_message (message : json) (llm_geolocator : LLMGeolocator)
  : Py GeolocationResult :=
  txt <- lift (message_get message (str "text")) ;;
  channel <- lift (message_get message (str "channel")) ;;
  let result := new_result in
  t <- lift (as_str txt) ;;
  coords <- lift (extract_coordinates t) ;;
  match coords with
  | Some c =>
      ret (mkResult (Some (fst c)) (Some (snd c)) (country_code result)
                    0.95%float "coordinates_regex" (place_name result)
                    (geocoding_attempts result
                     ++ [str "Found coordinates: " ++ repr_pair c]))
  | None => flag_step llm_geolocator t channel result
  end.
End Cascade.

(** ** Files *)

Section Files.
Context {R : PyRuntime} {C : CountryData}.

(** What the handlers of the loop log for a line [json.loads] raises
    on: a warning for JSONDecodeError, an error for anything else. *)
Definition rejected_line_event (line : text) : event :=
  if json_syntax_error (strip line) then LogWarning "Invalid JSON"
  else LogError "Error processing message".

(** The body of the loop of [process_file] on one line, with the two
    counters: a line that does not decode is logged and left out, and
    so is a message whose processing raises, or whose dump the output
    file cannot encode. *)
Definition process_line (llm : LLMGeolocator) (line : text)
           (counts : nat * nat) : Py (nat * nat) :=
  let '(processed_count, geolocated_count) := counts in
  match json_loads (strip line) with
  | None =>
      emit (rejected_line_event line) ;;;
      ret counts
  | Some message =>
      fun n =>
        match process_message message llm n with
        | (Returned geolocation, n', ev) =>
            match message with
            | JObj fields =>
                let record :=
                  enhanced fields geolocation (utcnow_isoformat processed_count) in
                if json_encodable record then
                  (Returned
                     (S processed_count,
                      if truthy (lat geolocation) && truthy (lon geolocation)
                      then S geolocated_count else geolocated_count),
                   n', ev ++ [Write record])
                else
                  (Returned counts, n',
                   ev ++ [LogError "Error processing message"])
            | _ =>     (* no item can be assigned; [process_message] has
                          raised on such a value already *)
                (Returned counts, n', ev ++ [LogError "Error processing message"])
            end
        | (Raised _, n', ev) =>
            (Returned counts, n', ev ++ [LogError "Error processing message"])
        end
  end.

Fixpoint process_lines (llm : LLMGeolocator) (lines : list text)
         (counts : nat * nat) : Py (nat * nat) :=
  match lines with
  | [] => ret counts
  | line :: lines' =>
      counts' <- process_line llm line counts ;;
      process_lines llm lines' counts'
  end.

(** [process_file]: the iteration over the input file is outside the
    handlers of the loop, and the percentage of the closing log line
    divides by the number of processed messages. *)
Definition process_file (input_file : infile) (mapbox_token : text)
  : Py (nat * nat) :=
  let llm_geolocator := LLMGeolocator_init mapbox_token in
  counts <- process_lines llm_geolocator (file_lines input_file) (0, 0) ;;
  if file_undecodable input_file then raise UnicodeDecodeError
  else
    match fst counts with
    | O => raise ZeroDivisionError
    | S _ => emit (LogInfo "Processed") ;;; ret counts
    end.
End Files.

(** The dicts written, in order. *)
Definition written (evs : list event) : list json :=
  flat_map (fun e => match e with Write l => [l] | _ => [] end) evs.

Definition events {A} (r : outcome A * nat * list event) : list event := snd r.

(** ** A runtime to evaluate with

    The Unicode classes restricted to ASCII, a decoder and an endpoint
    given by the caller, a set that keeps first occurrences in order.
    No statement below depends on how a float prints, and this runtime
    prints every float as a question mark. *)
Definition text_eq_dec : forall a b : text, {a = b} + {a <> b} :=
  list_eq_dec N.eq_dec.

Definition ascii_runtime (decode : text -> option json)
           (api : nat -> text -> mapbox_response) : PyRuntime :=
  {| decimal_value := fun c =>
       if N.leb 48 c && N.leb c 57 then Some (c - 48)%N else None;
     is_space := fun c =>
       (N.leb 9 c && N.leb c 13) || (N.leb 28 c && N.leb c 32);
     is_word := fun c =>
       (N.leb 48 c && N.leb c 57) || (N.leb 65 c && N.leb c 90)
       || (N.leb 97 c && N.leb c 122) || N.eqb c 95;
     float_repr := fun _ => str "?";
     json_loads := decode;
     json_syntax_error := fun _ => true;
     set_order := nodup text_eq_dec;
     set_order_In := fun l x => nodup_In text_eq_dec l x;
     set_order_NoDup := fun l => NoDup_nodup text_eq_dec l;
     int_max_str_digits := Some 4300%nat;
     utcnow_isoformat := fun _ => str "2025-01-01T00:00:00";
     mapbox_get := api |}.

(** ** Sample data to evaluate with *)

(** The flag of Ukraine: two regional indicator symbols. *)
Definition flag_ua : text := [127482; 127462]%N.

Definition sample_countries : CountryData :=
  {| FLAG_TO_COUNTRY := [(flag_ua, str "UKR")];
     COUNTRY_CENTROIDS := [(str "UKR", (49.0, 32.0)%float)] |}.

(** A decoder that knows one line, the empty object. *)
Definition sample_decode (line : text) : option json :=
  if text_eqb line (str "{}") then Some (JObj []) else None.

(** An endpoint with no match for anything, and one that matches
    everything at the same place with relevance 0.9. *)
Definition api_nothing : nat -> text -> mapbox_response :=
  fun _ _ => NoFeatures.

Definition api_always : nat -> text -> mapbox_response :=
  fun _ _ => Feature 30.5 50.4 None (Some (RelFloat 0.9)) [].

Definition quiet_runtime : PyRuntime := ascii_runtime sample_decode api_nothing.
Definition eager_runtime : PyRuntime := ascii_runtime sample_decode api_always.

Definition sample_llm : LLMGeolocator := LLMGeolocator_init (str "token").

(** A message with the two fields the cascade reads. *)
Definition message_of (t channel : text) : json :=
  JObj [(str "channel", JStr channel); (str "text", JStr t)].

(** The valid pairs among all the decimal-degree matches of a text. *)
Definition decimal_pairs_in_bounds {R : PyRuntime} (t : text)
  : list (float * float) :=
  List.filter (fun c => in_bounds (fst c) (snd c))
    (flat_map (fun g => match g with
                        | [a; b] => [(float_of_text a, float_of_text b)]
                        | _ => []
                        end)
              (Re.findall 2 Patterns.decimal_degrees t)).

(** ** The vocabulary of the statements *)

Section Vocabulary.
Context {R : PyRuntime} {C : CountryData}.
Local Open Scope float_scope.

Definition hit_of (query : text) (resp : mapbox_response) : option geocode_hit :=
  match resp with
  | Feature lo la name rel types =>
      Some (mkHit la lo
                  (match name with Some p => p | None => query end)
                  (match rel with Some x => x | None => RelFloat 0 end)
                  (match types with t :: _ => t | [] => str "unknown" end))
  | _ => None
  end.

(** A relevance the product goes through with, and a reply that
    carries one (or none, or is no match). *)
Definition numeric (rel : relevance) : bool :=
  match rel with
  | RelFloat _ => true
  | RelInt z => match float_of_int z with Returned _ => true | Raised _ => false end
  | RelOther => false
  end.

Definition numeric_reply (resp : mapbox_response) : bool :=
  match resp with
  | Feature _ _ _ (Some rel) _ => numeric rel
  | _ => true
  end.

(** An endpoint all of whose matches carry a numeric relevance. *)
Definition numeric_replies : Prop :=
  forall n q, numeric_reply (mapbox_get n q) = true.

Definition geocode_events (self : MapboxGeocoder) (query : text)
           (resp : mapbox_response) : list event :=
  match resp with
  | Feature _ _ _ _ _ => [Request query]
  | NoFeatures => [Request query; Sleep (rate_limit_delay self)]
  | Failed => [Request query; LogWarning "Geocoding failed";
               Sleep (rate_limit_delay self)]
  end.

(** What [geocode_locations] makes of one candidate, [conf] being the
    product of the two confidences. *)
Definition matched_result (l : location) (h : geocode_hit) (conf : float)
  : GeolocationResult :=
  mkResult (Some (hit_lat h)) (Some (hit_lon h)) None
           conf
           ("llm_geocoding_" ++ loc_type l)%string
           (Some (hit_place_name h))
           [str "LLM extracted: " ++ loc_query l;
            str "Geocoded successfully: " ++ hit_place_name h].

Definition unmatched_result (l : location) : GeolocationResult :=
  mkResult None None None 0%float "none" None
           [str "LLM extracted: " ++ loc_query l; str "Geocoding failed"].

Definition candidate_result (l : location) (r : GeolocationResult) : Prop :=
  (exists h conf, scale (loc_confidence l) (hit_relevance h) = Returned conf
                  /\ r = matched_result l h conf)
  \/ r = unmatched_result l.

(** The six shapes of a returned result, one per stage and the
    terminal one. *)
Inductive produced : GeolocationResult -> Prop :=
| by_coordinates la lo :
    in_bounds la lo = true ->
    produced (mkResult (Some la) (Some lo) None 0.95 "coordinates_regex" None
                       [str "Found coordinates: " ++ repr_pair (la, lo)])
| by_flag code la lo :
    get_country_centroid code = Some (la, lo) ->
    produced (mkResult (Some la) (Some lo) (Some code) 0.85 "flag_emoji" None
                       [str "Found flag: " ++ code])
| by_entity l h conf :
    scale (loc_confidence l) (hit_relevance h) = Returned conf ->
    (0.3 <? conf) = true ->
    produced (mkResult (Some (hit_lat h)) (Some (hit_lon h)) None
                       (calculate_confidence_score (matched_result l h conf))
                       ("llm_geocoding_" ++ loc_type l)%string
                       (Some (hit_place_name h))
                       [str "LLM extracted: " ++ loc_query l;
                        str "Geocoded successfully: " ++ hit_place_name h])
| by_place_name first h :
    produced (mkResult (Some (hit_lat h)) (Some (hit_lon h)) None 0.4
                       "place_name_geocoding" (Some (hit_place_name h))
                       [str "Geocoded place: " ++ first])
| by_channel code la lo :
    get_country_centroid code = Some (la, lo) ->
    produced (mkResult (Some la) (Some lo) (Some code) 0.2 "channel_fallback"
                       None [str "Channel fallback: " ++ code])
| by_none :
    produced (mkResult None None None 0 "none" None
                       [str "No geolocation found"]).

(** Computations that write nothing to the output file. *)
Definition quiet {A} (c : Py A) : Prop := forall n, written (snd (c n)) = [].
End Vocabulary.

(** ** Sample texts *)

Definition kyiv_text : text :=
  str "Explosion reported at 50.4501, 30.5234 in Kyiv".

(** An out-of-bounds pair followed by a valid one. *)
Definition shadowed_pair_text : text := str "95.0, 200.0 50.45, 30.52".

(** A coordinate pair and the flag of Ukraine. *)
Definition pair_and_flag_text : text := str "50.4501, 30.5234 " ++ flag_ua.

Definition kharkiv_text : text := str "Strike hits Kharkiv in Ukraine".

(** The example of the comment on the second pattern, with the degree
    character of the source. *)
Definition dms_text : text :=
  str "40" ++ [Patterns.degree_sign] ++ str "42'51" ++ [34%N] ++ str "N, 74"
  ++ [Patterns.degree_sign] ++ str "00'21" ++ [34%N] ++ str "W".

(** Degrees, minutes and seconds in the notation of the second
    pattern, with 310 nines for the degrees of latitude. *)
Definition huge_dms_text : text :=
  repeat 57%N 310 ++ [Patterns.degree_sign] ++ str "0'0" ++ [34%N] ++ str "N, 0"
  ++ [Patterns.degree_sign] ++ str "0'0" ++ [34%N] ++ str "E".

Section SampleResults.
Local Open Scope string_scope.
Local Open Scope list_scope.

(** The result of the message about Kharkiv when every query is
    matched with relevance 0.9. *)
Definition kharkiv_result : GeolocationResult :=
  mkResult (Some 50.4%float) (Some 30.5%float) None 0.7%float
           "llm_geocoding_city_in_country" (Some (str "Kharkiv, Ukraine"))
           [str "LLM extracted: Kharkiv, Ukraine";
            str "Geocoded successfully: Kharkiv, Ukraine"].

(** The result of a short message carrying the flag of Ukraine. *)
Definition flag_result : GeolocationResult :=
  mkResult (Some 49.0%float) (Some 32.0%float) (Some (str "UKR")) 0.85%float
           "flag_emoji" None [str "Found flag: UKR"].

(** The terminal result. *)
Definition none_result : GeolocationResult :=
  mkResult None None None 0%float "none" None [str "No geolocation found"].
End SampleResults.

(** ** The rest of the module *)

(** What reading [countries.yml] comes to when the module is imported. *)
Inductive yaml_read :=
| FileNotFound             (* open raised FileNotFoundError *)
| LoadFailed               (* anything else raised: an unreadable file, a
                              document that is not YAML, a missing key *)
| Document (flag_to_country : list (text * text))
           (country_centroids : list (text * (float * float))).

(** [load_country_data]: the two mappings, and what is logged. *)
Definition load_country_data (f : yaml_read)
  : list (text * text) * list (text * (float * float)) * list event :=
  match f with
  | Document flags centroids => (flags, centroids, [])
  | FileNotFound =>
      ([], [], [LogError "countries.yml not found, using fallback data"])
  | LoadFailed => ([], [], [LogError "Error loading countries.yml"])
  end.

(** The two globals the module binds to the result. *)
Definition loaded_countries (f : yaml_read) : CountryData :=
  {| FLAG_TO_COUNTRY := fst (fst (load_country_data f));
     COUNTRY_CENTROIDS := snd (fst (load_country_data f)) |}.

Section Main.
Context {R : PyRuntime} {C : CountryData}.

(** The loop of [main] over the input files, with the two running
    totals. *)
Fixpoint process_files (input_files : list infile) (mapbox_token : text)
         (totals : nat * nat) : Py (nat * nat) :=
  match input_files with
  | [] => ret totals
  | input_file :: rest =>
      emit (LogInfo "Processing") ;;;
      counts <- process_file input_file mapbox_token ;;
      process_files rest mapbox_token
                    (fst totals + fst counts, snd totals + snd counts)
  end.

(** [main], on the value of the environment variable and the files the
    glob finds; the closing log line divides by the total of processed
    messages. *)
Definition main (mapbox_token : option text) (input_files : list infile)
  : Py unit :=
  match mapbox_token with
  | None | Some [] =>
      emit (LogError "MAPBOX_ACCESS_TOKEN environment variable not set")
  | Some token =>
      match input_files with
      | [] => emit (LogInfo "No unprocessed files found")
      | _ :: _ =>
          totals <- process_files input_files token (0, 0) ;;
          match fst totals with
          | O => raise ZeroDivisionError
          | S _ => emit (LogInfo "Total")
          end
      end
  end.
End Main.

(** ** jsonl_to_geojson.py *)

(** [v.get(key, default)]: only a dict has the method. *)
Definition json_get (v : json) (key : text) (default : json) : outcome json :=
  match v with
  | JObj fields =>
      Returned (match dict_get fields key with Some x => x | None => default end)
  | _ => Raised AttributeError
  end.

(** [d.get(key)] on a dict. *)
Definition dict_get_or_null (d : list (text * json)) (key : text) : json :=
  match dict_get d key with
  | Some x => x
  | None => JNull
  end.

(** [v[:300]]: a string or a list is cut, anything else cannot be
    sliced (a dict raises too; from Python 3.12 it raises KeyError). *)
Definition slice_300 (v : json) : outcome json :=
  match v with
  | JStr s => Returned (JStr (firstn 300 s))
  | JArr l => Returned (JArr (firstn 300 l))
  | _ => Raised TypeError
  end.

(** The feature built for a message with coordinates; the values of the
    dict are evaluated in the order they are written. *)
Definition make_feature (message geolocation : list (text * json))
           (lat lon : json) : outcome json :=
  let source := match dict_get message (str "source") with
                | Some x => x
                | None => JObj []
                end in
  obind (slice_300 (match dict_get message (str "text") with
                    | Some x => x
                    | None => JStr []
                    end)) (fun txt =>
  obind (json_get source (str "title") JNull) (fun title =>
  obind (json_get source (str "username") JNull) (fun username =>
  Returned
    (JObj
       [(str "type", JStr (str "Feature"));
        (str "geometry",
         JObj [(str "type", JStr (str "Point"));
               (str "coordinates", JArr [lon; lat])]);
        (str "properties",
         JObj
           [(str "id", dict_get_or_null message (str "id"));
            (str "date", dict_get_or_null message (str "date"));
            (str "text", txt);
            (str "telegram_url", dict_get_or_null message (str "telegram_url"));
            (str "sender_id", dict_get_or_null message (str "sender_id"));
            (str "media_type", dict_get_or_null message (str "media_type"));
            (str "views", dict_get_or_null message (str "views"));
            (str "forwards", dict_get_or_null message (str "forwards"));
            (str "source_channel", title);
            (str "source_username", username);
            (str "geolocation",
             JObj
               [(str "confidence",
                 match dict_get geolocation (str "confidence") with
                 | Some x => x
                 | None => JNum 0%float
                 end);
                (str "source",
                 match dict_get geolocation (str "source") with
                 | Some x => x
                 | None => JStr (str "none")
                 end);
                (str "place_name", dict_get_or_null geolocation (str "place_name"));
                (str "country_code",
                 dict_get_or_null geolocation (str "country_code"));
                (str "geocoding_attempts",
                 match dict_get geolocation (str "geocoding_attempts") with
                 | Some x => x
                 | None => JArr []
                 end)]);
            (str "processed_at", dict_get_or_null message (str "processed_at"));
            (str "processing_version",
             dict_get_or_null message (str "processing_version"))])])))).

Definition is_null (v : json) : bool :=
  match v with
  | JNull => true
  | _ => false
  end.

(** What the body of the loop does with a decoded message: the feature
    to append, if any, or the exception the generic handler prints. *)
Definition feature_of (message : json) : outcome (option json) :=
  obind (json_get message (str "geolocation") (JObj [])) (fun geolocation =>
  obind (json_get geolocation (str "lat") JNull) (fun lat =>
  obind (json_get geolocation (str "lon") JNull) (fun lon =>
  if negb (is_null lat) && negb (is_null lon) then
    match message, geolocation with
    | JObj m, JObj g =>
        obind (make_feature m g lat lon) (fun f => Returned (Some f))
    | _, _ => Raised AttributeError
    end
  else Returned None))).

(** The state of the loop: the features, the two counters, what was
    printed. *)
Record conversion := mkConversion {
  cv_features : list json;
  cv_total : nat;
  cv_geolocated : nat;
  cv_printed : list string
}.

Section GeoJSON.
Context {R : PyRuntime}.

(** How the percentage of the summary prints (one digit after the
    point). *)
Variable format_1f : float -> text.

Definition convert_line (st : conversion) (line : text) : conversion :=
  match json_loads (strip line) with
  | None =>
      mkConversion (cv_features st) (cv_total st) (cv_geolocated st)
                   (cv_printed st
                    ++ [if json_syntax_error (strip line)
                        then "Error parsing JSON"%string
                        else "Error processing message"%string])
  | Some message =>
      match feature_of message with
      | Returned (Some f) =>
          mkConversion (cv_features st ++ [f]) (S (cv_total st))
                       (S (cv_geolocated st)) (cv_printed st)
      | Returned None =>
          mkConversion (cv_features st) (S (cv_total st)) (cv_geolocated st)
                       (cv_printed st)
      | Raised _ =>
          mkConversion (cv_features st) (S (cv_total st)) (cv_geolocated st)
                       (cv_printed st ++ ["Error processing message"%string])
      end
  end.

(** geolocated/total*100, as the f-strings compute it. *)
Definition percentage (geolocated total : nat) : float :=
  (round_ratio false (N.of_nat geolocated) (Pos.of_nat total) * 100)%float.

(** The collection written to the output file. *)
Record geojson := mkGeojson {
  gj_features : list json;
  gj_processed_at : text;
  gj_source_file : text;
  gj_total_messages : nat;
  gj_geolocated_messages : nat;
  gj_geolocation_rate : text
}.

(** What [json.dump] has to encode: the strings of the features, the
    time, the name of the input file and the rate. *)
Definition geojson_encodable (doc : geojson) : bool :=
  forallb json_encodable (gj_features doc)
  && utf8_encodable (gj_processed_at doc)
  && utf8_encodable (gj_source_file doc)
  && utf8_encodable (gj_geolocation_rate doc).

(** The output file after the call: not opened, left part way through
    the dump of a collection, or holding all of it. *)
Inductive outfile :=
| NotWritten
| Truncated (doc : geojson)
| Dumped (doc : geojson).

(** Whether standard output can encode a line.  It is asked about the
    two lines of the summary that carry a check mark or a file name;
    the other lines are made of ASCII characters and are taken to
    print. *)
Variable stdout_accepts : text -> bool.

(** The first and the last line of the summary. *)
Definition converted_line (input_file : text) : text :=
  [9989%N] ++ str " Converted " ++ input_file.

Definition output_line (output_file : text) : text :=
  str "   Output: " ++ output_file.

(** [jsonl_to_geojson]: the output file, then what the call returns or
    raises, and what it prints.  Neither the iteration over the input
    file, nor the dump, nor the summary is inside a handler; the rate
    of the collection is guarded against an empty total, the rate of
    the summary is not. *)
Definition jsonl_to_geojson (input_file output_file : text) (input : infile)
  : outfile * outcome (nat * nat) * list string :=
  let st := fold_left convert_line (file_lines input) (mkConversion [] 0 0 []) in
  if file_undecodable input then
    (NotWritten, Raised UnicodeDecodeError, cv_printed st)
  else
    let doc :=
      mkGeojson (cv_features st) (utcnow_isoformat 0) input_file
                (cv_total st) (cv_geolocated st)
                (match cv_total st with
                 | O => str "0%"
                 | S _ => format_1f (percentage (cv_geolocated st) (cv_total st))
                          ++ str "%"
                 end) in
    if negb (geojson_encodable doc) then
      (Truncated doc, Raised UnicodeEncodeError, cv_printed st)
    else if negb (stdout_accepts (converted_line input_file)) then
      (Dumped doc, Raised UnicodeEncodeError, cv_printed st)
    else
      match cv_total st with
      | O => (Dumped doc, Raised ZeroDivisionError,
              cv_printed st ++ ["Converted"; "Total messages"]%string)
      | S _ =>
          if negb (stdout_accepts (output_line output_file)) then
            (Dumped doc, Raised UnicodeEncodeError,
             cv_printed st ++ ["Converted"; "Total messages"; "Geolocated"]%string)
          else
            (Dumped doc, Returned (cv_total st, cv_geolocated st),
             cv_printed st ++ ["Converted"; "Total messages"; "Geolocated";
                               "Output"]%string)
      end.

(** The collection handed to [json.dump], if the call got that far,
    and its features. *)
Definition collection (o : outfile) : option geojson :=
  match o with
  | NotWritten => None
  | Truncated doc | Dumped doc => Some doc
  end.

Definition features_dumped (o : outfile) : list json :=
  match collection o with
  | Some doc => gj_features doc
  | None => []
  end.
End GeoJSON.

(** The value under a path of keys. *)
Fixpoint json_path (v : json) (path : list text) : option json :=
  match path with
  | [] => Some v
  | key :: path' =>
      match v with
      | JObj fields =>
          match dict_get fields key with
          | Some x => json_path x path'
          | None => None
          end
      | _ => None
      end
  end.

(** The lines [json.loads] accepts. *)
Definition decodes {R : PyRuntime} (line : text) : bool :=
  match json_loads (strip line) with
  | Some _ => true
  | None => false
  end.

(** ** More vocabulary *)

(** The queries requested and the delays slept, in order. *)
Definition requests (evs : list event) : list text :=
  flat_map (fun e => match e with Request q => [q] | _ => [] end) evs.

Definition sleeps (evs : list event) : list float :=
  flat_map (fun e => match e with Sleep d => [d] | _ => [] end) evs.

(** A result without coordinates. *)
Definition unlocated (r : GeolocationResult) : bool :=
  match lat r with
  | None => true
  | Some _ => false
  end.

(** The assignment [result.confidence = c]. *)
Definition with_confidence (r : GeolocationResult) (c : float)
  : GeolocationResult :=
  mkResult (lat r) (lon r) (country_code r) c (source r) (place_name r)
           (geocoding_attempts r).

(** The test behind [geolocated_count]. *)
Definition counted (r : GeolocationResult) : bool :=
  truthy (lat r) && truthy (lon r).

(** A file that reads to its end. *)
Definition readable (lines : list text) : infile := mkInfile lines false.

(** What a written dict is made from: the fields of the decoded
    message, the result and the time. *)
Record written_record := mkWritten {
  rec_message : list (text * json);
  rec_result : GeolocationResult;
  rec_time : text
}.

Definition record_json (w : written_record) : json :=
  enhanced (rec_message w) (rec_result w) (rec_time w).

(** Where a written dict comes from: a line that decodes to the
    object it was made from, a result [process_message] returns for
    that object, and a dump the output file can encode. *)
Definition comes_from {R : PyRuntime} {C : CountryData}
           (llm : LLMGeolocator) (lines : list text)
           (w : written_record) : Prop :=
  (exists line, In line lines
                /\ json_loads (strip line) = Some (JObj (rec_message w)))
  /\ (exists m m' e,
         process_message (JObj (rec_message w)) llm m
         = (Returned (rec_result w), m', e))
  /\ json_encodable (record_json w) = true.

(** A file [process_file] raises on. *)
Definition stops {R : PyRuntime} {C : CountryData}
           (token : text) (f : infile) : Prop :=
  forall n, exists e n' ev, process_file f token n = (Raised e, n', ev).

(** The three keys [process_file] sets. *)
Definition set_keys : list text :=
  [str "geolocation"; str "processed_at"; str "processing_version"].

(** The sources a result can carry. *)
Definition known_sources : list string :=
  ["coordinates_regex"; "flag_emoji"; "llm_geocoding_city_country";
   "llm_geocoding_city_in_country"; "llm_geocoding_city_only";
   "place_name_geocoding"; "channel_fallback"; "none"]%string.

(** [a] is what is left of [b] after some prefix. *)
Definition suffix_of (a b : text) : Prop := exists p, b = p ++ a.

(** A pattern that cannot match anywhere in [t], whatever follows it. *)
Definition blocked {R : PyRuntime} (t : text) (r : Re.regex) : Prop :=
  forall s k, suffix_of (Re.rest s) t -> Re.run r s k = None.

(** The flag of Russia, and a mapping with two flags. *)
Definition flag_ru : text := [127479; 127482]%N.

Definition two_flag_countries : CountryData :=
  {| FLAG_TO_COUNTRY := [(flag_ua, str "UKR"); (flag_ru, str "RUS")];
     COUNTRY_CENTROIDS := [(str "UKR", (49.0, 32.0)%float);
                           (str "RUS", (61.5, 105.3)%float)] |}.

(** A continuation that fails wherever the matcher can get to. *)
Definition fails_from (s : Re.pos) (k : Re.cont) : Prop :=
  forall s', suffix_of (Re.rest s') (Re.rest s) -> k s' = None.

Definition is_upper (c : char) : bool := N.leb 65 c && N.leb c 90.

(** A computation that issues at most [k] requests, and counts each
    one it issues. *)
Definition costs {A} (c : Py A) (k : nat) : Prop :=
  forall n, n <= snd (fst (c n)) <= n + k
            /\ List.length (requests (snd (c n))) + n = snd (fst (c n)).

(** ** More samples *)

(** The result of a message of a known channel in whose text nothing
    is found. *)
Definition channel_result : GeolocationResult :=
  mkResult (Some 49.0%float) (Some 32.0%float) (Some (str "UKR")) 0.2%float
           "channel_fallback" None [str "Channel fallback: UKR"].

(** A line of a processed file with a location, as a text and
    decoded. *)
Definition located_line : text :=
  str "{" ++ [34%N] ++ str "geolocation" ++ [34%N] ++ str ": {"
  ++ [34%N] ++ str "lat" ++ [34%N] ++ str ": 50.4, "
  ++ [34%N] ++ str "lon" ++ [34%N] ++ str ": 30.5}}".

Definition located_message : json :=
  JObj [(str "geolocation",
         JObj [(str "lat", JNum 50.4%float); (str "lon", JNum 30.5%float)])].

(** A decoder that knows that line and the empty object. *)
Definition located_decode (line : text) : option json :=
  if text_eqb line located_line then Some located_message
  else sample_decode line.

Definition located_runtime : PyRuntime := ascii_runtime located_decode api_nothing.

(** An endpoint whose matches carry a null relevance. *)
Definition api_null_relevance : nat -> text -> mapbox_response :=
  fun _ _ => Feature 30.5 50.4 None (Some RelOther) [].

Definition null_relevance_runtime : PyRuntime :=
  ascii_runtime sample_decode api_null_relevance.

(** A line whose text is one escaped surrogate, as a text and
    decoded. *)
Definition surrogate_line : text :=
  str "{" ++ [34%N] ++ str "text" ++ [34%N] ++ str ": " ++ [34%N]
  ++ str "\ud800" ++ [34%N] ++ str "}".

Definition surrogate_message : json := JObj [(str "text", JStr [55296%N])].

Definition surrogate_decode (line : text) : option json :=
  if text_eqb line surrogate_line then Some surrogate_message
  else sample_decode line.

Definition surrogate_runtime : PyRuntime :=
  ascii_runtime surrogate_decode api_nothing.

(** A console that prints anything, and a percentage that prints as a
    question mark, as the floats of the sample runtime do. *)
Definition any_console : text -> bool := fun _ => true.

Definition sample_format : float -> text := fun _ => str "?".

(** ** Order on floats *)

Ltac sf_split :=
  repeat match goal with
         | x : spec_float |- _ => destruct x as [[]|[]| |[] ? ?]
         end.

Ltac cmp_cases :=
  repeat match goal with
         | H : context [Pos.compare_cont Eq ?a ?b] |- _ =>
             change (Pos.compare_cont Eq a b) with (Pos.compare a b) in H
         | |- context [Pos.compare_cont Eq ?a ?b] =>
             change (Pos.compare_cont Eq a b) with (Pos.compare a b)
         end;
  repeat match goal with
         | H : context [Z.compare ?a ?b] |- _ => destruct (Z.compare_spec a b)
         | |- context [Z.compare ?a ?b] => destruct (Z.compare_spec a b)
         | H : context [Pos.compare ?a ?b] |- _ => destruct (Pos.compare_spec a b)
         | |- context [Pos.compare ?a ?b] => destruct (Pos.compare_spec a b)
         end;
  simpl in *; subst; try congruence; try lia.

Lemma SF_lt_le_trans x y z :
  SFltb x y = true -> SFleb y z = true -> SFltb x z = true.
Proof.
  unfold SFltb, SFleb. sf_split; simpl; try congruence; intros H1 H2; cmp_cases.
Qed.

Lemma SF_lt_asym x y : SFltb x y = true -> SFleb y x = false.
Proof.
  unfold SFltb, SFleb. sf_split; simpl; try congruence; intros H1; cmp_cases.
Qed.

Lemma SF_eq_le x y : SFeqb x y = true -> SFleb y x = true.
Proof.
  unfold SFeqb, SFleb. sf_split; simpl; try congruence; intros H1; cmp_cases.
Qed.

Lemma SF_eq_ge x y : SFeqb x y = true -> SFleb x y = true.
Proof.
  unfold SFeqb, SFleb. destruct (SFcompare x y) as [[]|]; congruence.
Qed.

Section FloatOrder.
Local Open Scope float_scope.

Lemma feq_ge a b : (a =? b) = true -> (a <=? b) = true.
Proof. rewrite eqb_spec, leb_spec. apply SF_eq_ge. Qed.

Lemma flt_le_trans a b c :
  (a <? b) = true -> (b <=? c) = true -> (a <? c) = true.
Proof. rewrite !ltb_spec, leb_spec. apply SF_lt_le_trans. Qed.

Lemma flt_le a b : (a <? b) = true -> (a <=? b) = true.
Proof.
  rewrite ltb_spec, leb_spec. unfold SFltb, SFleb.
  destruct (SFcompare _ _) as [[]|]; congruence.
Qed.

Lemma flt_asym a b : (a <? b) = true -> (b <=? a) = false.
Proof. rewrite ltb_spec, leb_spec. apply SF_lt_asym. Qed.

Lemma feq_le a b : (a =? b) = true -> (b <=? a) = true.
Proof. rewrite eqb_spec, leb_spec. apply SF_eq_le. Qed.

Lemma fle_false_lt_false a b : (a <=? b) = false -> (a <? b) = false.
Proof.
  intros H. destruct (a <? b) eqn:E; [|reflexivity].
  apply flt_le in E. congruence.
Qed.

Lemma flt_irrefl a : (a <? a) = false.
Proof.
  destruct (a <? a) eqn:E; [|reflexivity].
  pose proof (flt_asym E) as H. apply flt_le in E. congruence.
Qed.

(** Nothing above 0.3 compares equal to zero. *)
Lemma above_threshold_nonzero a : (0.3 <? a) = true -> (a =? 0) = false.
Proof.
  intros H. destruct (a =? 0) eqn:E; [|reflexivity].
  apply feq_ge in E. pose proof (flt_le_trans H E) as F.
  vm_compute in F. discriminate.
Qed.
End FloatOrder.

(** ** The selection of [max] *)

Section MaxBy.
Context {A : Type} (key : A -> float).
Local Open Scope float_scope.

Lemma max_by_cons (x y : A) (l : list A) :
  max_by key x (y :: l)
  = max_by key (if key x <? key y then y else x) l.
Proof. reflexivity. Qed.

Lemma max_by_inv (l : list A) : forall (pre : list A) (best : A) (mid : list A),
  (forall r, In r pre -> (key best <=? key r) = false) ->
  (forall r, In r mid -> (key best <? key r) = false) ->
  exists pre' post',
    pre ++ best :: mid ++ l = pre' ++ max_by key best l :: post'
    /\ (forall r, In r pre' -> (key (max_by key best l) <=? key r) = false)
    /\ (forall r, In r post' -> (key (max_by key best l) <? key r) = false).
Proof.
  induction l as [|y l IH]; intros pre best mid Hpre Hmid.
  - exists pre, mid. rewrite app_nil_r. auto.
  - rewrite max_by_cons. destruct (key best <? key y) eqn:E.
    + destruct (IH (pre ++ best :: mid) y []) as (pre' & post' & Heq & H1 & H2).
      * intros r Hr. apply in_app_or in Hr.
        destruct (key y <=? key r) eqn:F; [|reflexivity].
        pose proof (flt_le_trans E F) as G.
        destruct Hr as [Hr|[Hr|Hr]].
        -- apply Hpre in Hr. apply flt_le in G. congruence.
        -- subst r. rewrite flt_irrefl in G. discriminate.
        -- apply Hmid in Hr. congruence.
      * intros r [].
      * exists pre', post'. split; [|auto].
        rewrite <- Heq. simpl. rewrite <- app_assoc. reflexivity.
    + destruct (IH pre best (mid ++ [y])) as (pre' & post' & Heq & H1 & H2).
      * exact Hpre.
      * intros r Hr. apply in_app_or in Hr. destruct Hr as [Hr|[Hr|[]]]; auto.
        subst; auto.
      * exists pre', post'. split; [|auto].
        rewrite <- Heq. rewrite <- app_assoc. reflexivity.
Qed.

(** [max(x :: l, key)] sits somewhere in the list; everything before
    it is not at or above it, nothing after it is above it. *)
Lemma max_by_spec (x : A) (l : list A) :
  exists pre post,
    x :: l = pre ++ max_by key x l :: post
    /\ (forall r, In r pre -> (key (max_by key x l) <=? key r) = false)
    /\ (forall r, In r post -> (key (max_by key x l) <? key r) = false).
Proof.
  destruct (@max_by_inv l [] x []) as (pre & post & Heq & H1 & H2);
    try (intros r []).
  exists pre, post. auto.
Qed.
End MaxBy.

(** ** Running computations *)

Lemma bind_returned {A B} (c : Py A) (k : A -> Py B) n r n' ev :
  bind c k n = (Returned r, n', ev) ->
  exists a n1 ev1 ev2,
    c n = (Returned a, n1, ev1) /\ k a n1 = (Returned r, n', ev2)
    /\ ev = ev1 ++ ev2.
Proof.
  unfold bind. destruct (c n) as [[[a|e] n1] ev1]; [|discriminate].
  destruct (k a n1) as [[r2 n2] ev2] eqn:E. intros H. inversion H; subst.
  exists a, n1, ev1, ev2. auto.
Qed.

Lemma bind_lift_returned {A B} (o : outcome A) (k : A -> Py B) a n :
  o = Returned a -> bind (lift o) k n = k a n.
Proof.
  intros ->. unfold bind, lift. destruct (k a n) as [[r n'] ev]. reflexivity.
Qed.

Lemma bind_lift_value {A B} (a : A) (k : A -> Py B) n :
  bind (lift (Returned a)) k n = k a n.
Proof. apply bind_lift_returned. reflexivity. Qed.

Ltac lift_step :=
  cbv beta; cbn [as_str]; rewrite bind_lift_value; cbv beta.

Lemma Forall2_In_r {A B} (P : A -> B -> Prop) (l : list A) (l' : list B) (y : B) :
  Forall2 P l l' -> In y l' -> exists x, In x l /\ P x y.
Proof.
  induction 1 as [|x y' l l' Hxy _ IH]; intros Hin; [destruct Hin|].
  destruct Hin as [<-|Hin].
  - exists x. split; [left; reflexivity|assumption].
  - destruct (IH Hin) as (x' & Hx' & Hp). exists x'. split; [right|]; assumption.
Qed.

(** ** The geocoder, case by case *)

Section GeocoderFacts.
Context {R : PyRuntime}.

Lemma geocode_eq (self : MapboxGeocoder) (q : text) (n : nat) :
  geocode self q n
  = (Returned (hit_of q (mapbox_get n q)), S n,
     geocode_events self q (mapbox_get n q)).
Proof.
  unfold geocode, bind, request. destruct (mapbox_get n q); reflexivity.
Qed.

(** One candidate: a request, then the result, or the exception of
    the product. *)
Lemma geocode_location_eq (self : LLMGeolocator) (l : location) (n : nat) :
  geocode_location self l n
  = (match hit_of (loc_query l) (mapbox_get n (loc_query l)) with
     | Some h =>
         match scale (loc_confidence l) (hit_relevance h) with
         | Returned conf => Returned (matched_result l h conf)
         | Raised e => Raised e
         end
     | None => Returned (unmatched_result l)
     end,
     S n,
     geocode_events (mapbox self) (loc_query l) (mapbox_get n (loc_query l))).
Proof.
  unfold geocode_location, bind. rewrite geocode_eq.
  destruct (mapbox_get n (loc_query l)) as [| |lo la name rel types];
    cbn [hit_of geocode_events]; try reflexivity.
  unfold lift, ret. cbn [hit_relevance].
  destruct (scale _ _); cbn; rewrite ?app_nil_r; reflexivity.
Qed.

Lemma geocode_location_spec (self : LLMGeolocator) (l : location) (n : nat)
      r n' ev :
  geocode_location self l n = (Returned r, n', ev) ->
  n' = S n /\ candidate_result l r.
Proof.
  rewrite geocode_location_eq.
  destruct (hit_of _ _) as [h|].
  - destruct (scale _ _) as [conf|e] eqn:E; intros H; inversion H; subst.
    split; [reflexivity|]. left. exists h, conf. auto.
  - intros H. inversion H; subst. split; [reflexivity|]. right. reflexivity.
Qed.

(** With a numeric relevance the product is a float. *)
Lemma scale_numeric (c : float) (rel : relevance) :
  numeric rel = true -> exists conf, scale c rel = Returned conf.
Proof.
  destruct rel as [x|z|]; cbn [numeric scale]; [eauto| |discriminate].
  destruct (float_of_int z); [|discriminate]. cbn. eauto.
Qed.

Lemma scale_raises (c : float) (rel : relevance) e :
  scale c rel = Raised e ->
  numeric rel = false /\ (e = TypeError \/ e = OverflowError).
Proof.
  destruct rel as [x|z|]; cbn [numeric scale]; [discriminate| |].
  - unfold float_of_int. destruct (is_finite _); cbn; [discriminate|].
    intros H. inversion H. auto.
  - intros H. inversion H. auto.
Qed.

Lemma hit_of_numeric (q : text) (resp : mapbox_response) h :
  numeric_reply resp = true -> hit_of q resp = Some h ->
  numeric (hit_relevance h) = true.
Proof.
  destruct resp as [| |lo la name [rel|] types]; cbn; try discriminate;
    intros Hn H; inversion H; subst; cbn; auto.
Qed.

Lemma geocode_locations_returns (self : LLMGeolocator) (ls : list location) :
  numeric_replies ->
  forall n, exists rs ev,
    geocode_locations self ls n = (Returned rs, n + List.length ls, ev).
Proof.
  intros Hnum. induction ls as [|l ls IH]; intros n.
  - exists [], []. cbn. rewrite Nat.add_0_r. reflexivity.
  - cbn [geocode_locations]. unfold bind at 1. rewrite geocode_location_eq.
    destruct (IH (S n)) as (rs & ev & H).
    destruct (hit_of _ _) as [h|] eqn:Eh.
    + destruct (@scale_numeric (loc_confidence l) (hit_relevance h)
                  (@hit_of_numeric _ _ _ (Hnum n (loc_query l)) Eh)) as (conf & ->).
      unfold bind at 1. rewrite H. cbn [ret List.length].
      rewrite <- plus_n_Sm. eauto.
    + unfold bind at 1. rewrite H. cbn [ret List.length].
      rewrite <- plus_n_Sm. eauto.
Qed.

Lemma geocode_locations_spec (self : LLMGeolocator) (ls : list location) :
  forall n rs n' ev,
    geocode_locations self ls n = (Returned rs, n', ev) ->
    Forall2 candidate_result ls rs.
Proof.
  induction ls as [|l ls IH]; intros n rs n' ev H.
  - inversion H; subst. constructor.
  - cbn [geocode_locations] in H.
    apply bind_returned in H. destruct H as (r & n1 & ev1 & ev2 & H1 & H2 & _).
    apply bind_returned in H2. destruct H2 as (rs' & n2 & ev3 & ev4 & H2 & H3 & _).
    inversion H3; subst.
    apply geocode_location_spec in H1. destruct H1 as [_ H1].
    constructor; [exact H1|]. eapply IH. exact H2.
Qed.
End GeocoderFacts.

(** ** What the cascade can return *)

Section Produced.
Context {R : PyRuntime} {C : CountryData}.
Local Open Scope float_scope.

Lemma channel_step_produced channel n r n' ev :
  channel_step channel new_result n = (Returned r, n', ev) -> produced r.
Proof.
  unfold channel_step. intros H.
  apply bind_returned in H. destruct H as (found & n1 & ev1 & ev2 & H1 & H2 & _).
  destruct found as [code|].
  - destruct (get_country_centroid code) as [[la lo]|] eqn:E;
      inversion H2; subst.
    + apply by_channel. exact E.
    + apply by_none.
  - inversion H2; subst. apply by_none.
Qed.

Lemma place_name_step_produced llm t channel n r n' ev :
  place_name_step llm t channel new_result n = (Returned r, n', ev) ->
  produced r.
Proof.
  unfold place_name_step. destruct (extract_place_names t) as [|first rest].
  - apply channel_step_produced.
  - intros H. apply bind_returned in H.
    destruct H as (hit & n1 & ev1 & ev2 & H1 & H2 & _).
    destruct hit as [h|].
    + inversion H2; subst. apply by_place_name.
    + eapply channel_step_produced; eassumption.
Qed.

Lemma entity_step_produced llm t channel n r n' ev :
  entity_step llm t channel new_result n = (Returned r, n', ev) ->
  produced r.
Proof.
  unfold entity_step. destruct (Nat.ltb 10 (List.length t));
    [|apply place_name_step_produced].
  destruct (extract_location_entities t) as [|l0 ls] eqn:EL;
    [apply place_name_step_produced|].
  intros H. apply bind_returned in H.
  destruct H as (results & n1 & ev1 & ev2 & H1 & H2 & _).
  pose proof (geocode_locations_spec _ _ _ H1) as F. clear H1.
  destruct results as [|first others]; [discriminate|].
  destruct (0.3 <? confidence (max_by confidence first others)) eqn:T;
    [|eapply place_name_step_produced; eassumption].
  inversion H2; subst. clear H2.
  destruct (max_by_spec confidence first others) as (pre & post & Heq & _ & _).
  assert (Hin : In (max_by confidence first others) (first :: others)).
  { rewrite Heq. apply in_or_app. right. left. reflexivity. }
  destruct (@Forall2_In_r _ _ _ _ _ _ F Hin) as (l & _ & [(h & conf & Hs & Hm) | Hu]).
  - rewrite Hm in *. apply by_entity; assumption.
  - rewrite Hu in T. vm_compute in T. discriminate.
Qed.
End Produced.

Section CascadeFacts.
Context {R : PyRuntime} {C : CountryData}.
Local Open Scope float_scope.

Lemma try_patterns_in_bounds (ps : list (nat * Re.regex)) (t : text) la lo :
  try_patterns ps t = Returned (Some (la, lo)) -> in_bounds la lo = true.
Proof.
  induction ps as [|[n p] ps IH]; simpl; [discriminate|].
  destruct (Re.findall n p t) as [|m0 rest]; [exact IH|].
  destruct m0 as [|g0 [|g1 [|g2 [|g3 [|g4 [|g5 [|g6 [|g7 [|g8 m]]]]]]]]];
    try exact IH.
  - destruct (in_bounds (float_of_text g0) (float_of_text g1)) eqn:E;
      [|exact IH].
    intros H. inversion H; subst. exact E.
  - destruct (parse_dms _) as [[la' lo']|[]]; try exact IH; try discriminate.
    destruct (in_bounds la' lo') eqn:E; [|exact IH].
    intros H. inversion H; subst. exact E.
Qed.

Lemma flag_step_produced llm t channel n r n' ev :
  flag_step llm t channel new_result n = (Returned r, n', ev) -> produced r.
Proof.
  unfold flag_step. destruct (extract_flag_countries t) as [|code rest];
    [apply entity_step_produced|].
  destruct (get_country_centroid code) as [[la lo]|] eqn:E;
    [|apply entity_step_produced].
  intros H. inversion H; subst. apply by_flag. exact E.
Qed.

(** Every result [process_message] returns has one of the six shapes. *)
Lemma process_message_produced message llm n r n' ev :
  process_message message llm n = (Returned r, n', ev) -> produced r.
Proof.
  unfold process_message. intros H.
  apply bind_returned in H. destruct H as (txt & n1 & e1 & e2 & _ & H & _).
  apply bind_returned in H. destruct H as (ch & n2 & e3 & e4 & _ & H & _).
  apply bind_returned in H. destruct H as (t & n3 & e5 & e6 & _ & H & _).
  apply bind_returned in H. destruct H as (coords & n4 & e7 & e8 & Hc & H & _).
  destruct coords as [[la lo]|].
  - inversion H; subst. apply by_coordinates.
    unfold lift in Hc. inversion Hc as [Hx].
    eapply try_patterns_in_bounds. exact Hx.
  - eapply flag_step_produced. exact H.
Qed.

(** From the flag step on, the cascade returns whenever the channel
    can be looked up and the matches of the endpoint carry a numeric
    relevance. *)
Lemma channel_step_returns channel found result n :
  channel_lookup channel = Returned found ->
  exists r, channel_step channel result n = (Returned r, n, []).
Proof.
  intros H. unfold channel_step. rewrite H. lift_step.
  destruct found as [code|]; [destruct (get_country_centroid code)|];
    eexists; reflexivity.
Qed.

Lemma place_name_step_returns llm t channel found result n :
  channel_lookup channel = Returned found ->
  exists r n' ev, place_name_step llm t channel result n = (Returned r, n', ev).
Proof.
  intros H. unfold place_name_step.
  destruct (extract_place_names t) as [|first rest].
  - destruct (channel_step_returns channel result n H) as (r & Hr). eauto.
  - unfold bind. rewrite geocode_eq.
    destruct (hit_of first (mapbox_get n first)) as [h|].
    + simpl. eauto.
    + destruct (channel_step_returns channel result (S n) H) as (r & Hr).
      rewrite Hr. eauto.
Qed.

Lemma entity_step_returns llm t channel found result n :
  numeric_replies ->
  channel_lookup channel = Returned found ->
  exists r n' ev, entity_step llm t channel result n = (Returned r, n', ev).
Proof.
  intros Hnum H. unfold entity_step.
  destruct (Nat.ltb 10 (List.length t));
    [|eapply place_name_step_returns; eassumption].
  destruct (extract_location_entities t) as [|l0 ls];
    [eapply place_name_step_returns; eassumption|].
  destruct (geocode_locations_returns llm (l0 :: ls) Hnum n) as (rs & ev0 & G).
  pose proof (geocode_locations_spec _ _ _ G) as F.
  unfold bind. rewrite G. inversion F as [|? first ? others]; subst.
  destruct (0.3 <? confidence (max_by confidence first others)).
  - simpl. eauto.
  - destruct (place_name_step_returns llm t channel result
                (n + List.length (l0 :: ls)) H)
      as (r & n' & ev & Hr).
    rewrite Hr. eauto.
Qed.

Lemma flag_step_returns llm t channel found result n :
  numeric_replies ->
  channel_lookup channel = Returned found ->
  exists r n' ev, flag_step llm t channel result n = (Returned r, n', ev).
Proof.
  intros Hnum H. unfold flag_step.
  destruct (extract_flag_countries t) as [|code rest];
    [eapply entity_step_returns; eassumption|].
  destruct (get_country_centroid code) as [[la lo]|];
    [|eapply entity_step_returns; eassumption].
  unfold ret. eauto.
Qed.
End CascadeFacts.

(** ** The model on the examples of the source *)

Section Checks.
Local Open Scope string_scope.
Local Open Scope list_scope.

Example float_of_text_rounds_to_nearest :
  float_of_text (R := quiet_runtime) (str "50.4501") = 50.4501%float
  /\ float_of_text (R := quiet_runtime) (str "-74.0060") = (-74.006)%float
  /\ float_of_text (R := quiet_runtime) (str "0.1") = 0.1%float
  /\ float_of_text (R := quiet_runtime) (str "51.") = 51%float
  /\ float_of_text (R := quiet_runtime) (repeat 57%N 400) = infinity.
Proof. repeat split; vm_compute; reflexivity. Qed.

Example decimal_degrees_matches :
  Re.findall (R := quiet_runtime) 2 Patterns.decimal_degrees
    (str "a 1.2,3.4,5.6, -7.8 and -1.5,   -2.25x")
  = [[str "1.2"; str "3.4"]; [str "5.6"; str "-7.8"]; [str "-1.5"; str "-2.25"]].
Proof. vm_compute. reflexivity. Qed.

Example dms_comment_example :
  extract_coordinates (R := quiet_runtime) dms_text
  = Returned (Some (40.71416666666667, -74.00583333333333)%float).
Proof. vm_compute. reflexivity. Qed.

Example lat_lon_comment_example :
  extract_coordinates (R := quiet_runtime) (str "lat: 40.7128, lon: -74.0060")
  = Returned (Some (40.7128, -74.006)%float).
Proof. vm_compute. reflexivity. Qed.

Example capitalized_matches :
  Re.findall (R := quiet_runtime) 1 Patterns.capitalized
    (str "Strike hits Kharkiv in Ukraine. The New York city aBc Xy_z")
  = [[str "Strike"]; [str "Kharkiv"]; [str "Ukraine"]; [str "The New York"]].
Proof. vm_compute. reflexivity. Qed.

Example entities_of_kharkiv_text :
  List.map (fun l => (loc_type l, loc_query l, loc_confidence l))
           (extract_location_entities (R := quiet_runtime) kharkiv_text)
  = [("city_in_country", str "Kharkiv, Ukraine", 0.7%float);
     ("city_only", str "Strike", 0.4%float);
     ("city_only", str "Kharkiv", 0.4%float);
     ("city_only", str "Ukraine", 0.4%float)].
Proof. vm_compute. reflexivity. Qed.

(** A short message with a flag, and a known channel with nothing in
    the text. *)
Example flag_message :
  process_message (R := quiet_runtime) (C := sample_countries)
    (message_of (str "hi " ++ flag_ua) (str "x")) sample_llm 0
  = (Returned flag_result, 0, []).
Proof. vm_compute. reflexivity. Qed.

Example channel_fallback_message :
  process_message (R := quiet_runtime) (C := sample_countries)
    (message_of (str "hello") (str "militarysummary")) sample_llm 0
  = (Returned (mkResult (Some 49.0%float) (Some 32.0%float) (Some (str "UKR"))
                        0.2%float "channel_fallback" None
                        [str "Channel fallback: UKR"]), 0, []).
Proof. vm_compute. reflexivity. Qed.

Example kharkiv_message_matched :
  process_message (R := eager_runtime) (C := sample_countries)
    (message_of kharkiv_text (str "x")) sample_llm 0
  = (Returned kharkiv_result, 4,
     [Request (str "Kharkiv, Ukraine"); Request (str "Strike");
      Request (str "Kharkiv"); Request (str "Ukraine")]).
Proof. vm_compute. reflexivity. Qed.
End Checks.

(** ** The claims *)

Section Coordinates.
Context {R : PyRuntime} {C : CountryData}.
Local Open Scope float_scope.

(** C6: whatever the text, a pair returned by [extract_coordinates]
    lies within [-90, 90] x [-180, 180]; a first match of a pattern
    (decimal or degrees-minutes-seconds) that fails the bounds check
    is not returned, and the loop goes on with the patterns that are
    left. *)
Theorem extract_coordinates_within_bounds (t : text) :
  (forall la lo,
      extract_coordinates t = Returned (Some (la, lo)) ->
      (-90 <=? la) = true /\ (la <=? 90) = true
      /\ (-180 <=? lo) = true /\ (lo <=? 180) = true)
  /\ (forall n p ps a b rest,
         Re.findall n p t = [a; b] :: rest ->
         in_bounds (float_of_text a) (float_of_text b) = false ->
         try_patterns ((n, p) :: ps) t = try_patterns ps t)
  /\ (forall n p ps g0 g1 g2 g3 g4 g5 g6 g7 rest la lo,
         Re.findall n p t = [g0; g1; g2; g3; g4; g5; g6; g7] :: rest ->
         parse_dms [g0; g1; g2; g3; g4; g5; g6; g7] = Returned (la, lo) ->
         in_bounds la lo = false ->
         try_patterns ((n, p) :: ps) t = try_patterns ps t).
Proof.
  split; [|split].
  - intros la lo H. apply try_patterns_in_bounds in H.
    unfold in_bounds in H.
    repeat (apply andb_prop in H; destruct H as [H ?]). auto.
  - intros n p ps a b rest Hm Hb. simpl. rewrite Hm, Hb. reflexivity.
  - intros n p ps g0 g1 g2 g3 g4 g5 g6 g7 rest la lo Hm Hp Hb.
    cbn [try_patterns]. rewrite Hm, Hp, Hb. reflexivity.
Qed.

(** C1 (amended): when the first, leftmost match of the decimal-degree
    pattern parses to a pair within bounds, [extract_coordinates]
    returns that pair, and [process_message] returns, without a single
    request, a result with that latitude and longitude, confidence
    0.95 and source coordinates_regex.  When it parses to a pair out
    of bounds, the matches of the pattern that follow it, whatever
    they are, are not looked at: [extract_coordinates] gives what the
    two other patterns, degrees-minutes-seconds and then lat:/lon:,
    give on the text. *)
Theorem first_decimal_match_returned
        (fields : list (text * json)) (t a b : text) (rest : list (list text))
        (llm : LLMGeolocator) (n : nat) :
  dict_get fields (str "text") = Some (JStr t) ->
  Re.findall 2 Patterns.decimal_degrees t = [a; b] :: rest ->
  (in_bounds (float_of_text a) (float_of_text b) = true ->
   extract_coordinates t = Returned (Some (float_of_text a, float_of_text b))
   /\ exists r,
       process_message (JObj fields) llm n = (Returned r, n, [])
       /\ lat r = Some (float_of_text a) /\ lon r = Some (float_of_text b)
       /\ confidence r = 0.95 /\ source r = "coordinates_regex"%string)
  /\ (in_bounds (float_of_text a) (float_of_text b) = false ->
      extract_coordinates t
      = try_patterns [(8, Patterns.dms); (2, Patterns.lat_lon)]%nat t).
Proof.
  intros Ht Hm. split; intros Hb.
  - assert (Hc : extract_coordinates t
                 = Returned (Some (float_of_text a, float_of_text b))).
    { unfold extract_coordinates, coordinate_patterns. cbn [try_patterns].
      rewrite Hm, Hb. reflexivity. }
    split; [exact Hc|].
    eexists. unfold process_message, message_get. rewrite Ht.
    do 3 lift_step. rewrite Hc. lift_step.
    split; [reflexivity|]. simpl. auto.
  - unfold extract_coordinates, coordinate_patterns.
    change (try_patterns ((2%nat, Patterns.decimal_degrees)
                          :: [(8%nat, Patterns.dms); (2%nat, Patterns.lat_lon)]) t)
      with (match Re.findall 2 Patterns.decimal_degrees t with
            | [] => try_patterns [(8%nat, Patterns.dms); (2%nat, Patterns.lat_lon)] t
            | m0 :: _ =>
                match m0 with
                | [a0; b0] =>
                    if in_bounds (float_of_text a0) (float_of_text b0)
                    then Returned (Some (float_of_text a0, float_of_text b0))
                    else try_patterns [(8%nat, Patterns.dms);
                                       (2%nat, Patterns.lat_lon)] t
                | [_; _; _; _; _; _; _; _] =>
                    match parse_dms m0 with
                    | Returned (la, lo) =>
                        if in_bounds la lo then Returned (Some (la, lo))
                        else try_patterns [(8%nat, Patterns.dms);
                                           (2%nat, Patterns.lat_lon)] t
                    | Raised ValueError =>
                        try_patterns [(8%nat, Patterns.dms);
                                      (2%nat, Patterns.lat_lon)] t
                    | Raised e => Raised e
                    end
                | _ => try_patterns [(8%nat, Patterns.dms);
                                     (2%nat, Patterns.lat_lon)] t
                end
            end).
    rewrite Hm, Hb. reflexivity.
Qed.

(** C2: when the coordinate stage matches, the result is the
    coordinate result, never the flag result, although the text holds
    a flag of the mapping whose country has a registered centroid:
    coordinates are tried first and returned at once, before any flag
    is looked for.  Left to itself the flag step, on a text whose
    first flag has a centroid, returns the flag result. *)
Theorem coordinates_before_flags
        (fields : list (text * json)) (t : text) (c : float * float)
        (flag code : text) (centroid : float * float)
        (llm : LLMGeolocator) (n : nat) :
  dict_get fields (str "text") = Some (JStr t) ->
  extract_coordinates t = Returned (Some c) ->
  In (flag, code) FLAG_TO_COUNTRY ->
  contains flag t = true ->
  get_country_centroid code = Some centroid ->
  (exists r,
      process_message (JObj fields) llm n = (Returned r, n, [])
      /\ source r = "coordinates_regex"%string
      /\ source r <> "flag_emoji"%string
      /\ lat r = Some (fst c) /\ lon r = Some (snd c)
      /\ confidence r = 0.95 /\ country_code r = None)
  /\ (forall first others first_centroid channel,
         extract_flag_countries t = first :: others ->
         get_country_centroid first = Some first_centroid ->
         exists rf,
           flag_step llm t channel new_result n = (Returned rf, n, [])
           /\ source rf = "flag_emoji"%string
           /\ country_code rf = Some first).
Proof.
  intros Ht Hc _ _ _. split.
  - eexists. unfold process_message, message_get. rewrite Ht.
    do 3 lift_step. rewrite Hc. lift_step.
    split; [reflexivity|]. simpl. repeat split; auto. discriminate.
  - intros first others fc channel Hf Hcen. eexists. unfold flag_step.
    rewrite Hf, Hcen. split; [reflexivity|]. simpl. auto.
Qed.
End Coordinates.

Section EntityStage.
Context {R : PyRuntime} {C : CountryData}.
Local Open Scope float_scope.

(** C3: in the entity stage (text longer than ten characters, at least
    one candidate), the matches of the endpoint carrying a numeric
    relevance, every candidate is geocoded, in order, into one
    result each; the result selected is one none of the others
    exceeds in confidence, and none before it has an equal
    confidence; when its confidence exceeds 0.3 the stage returns it
    (with the scored confidence), and otherwise the stage gives
    nothing and the cascade goes on with the place-name step on the
    untouched result. *)
Theorem entity_stage_selects_maximum
        (llm : LLMGeolocator) (t : text) (channel : json)
        (result : GeolocationResult) (n : nat) :
  numeric_replies ->
  (10 < List.length t)%nat ->
  extract_location_entities t <> [] ->
  exists results n1 ev1 pre best post,
    geocode_locations llm (extract_location_entities t) n
    = (Returned results, n1, ev1)
    /\ Forall2 candidate_result (extract_location_entities t) results
    /\ results = pre ++ best :: post
    /\ (forall r, In r results -> (confidence best <? confidence r) = false)
    /\ (forall r, In r pre -> (confidence r =? confidence best) = false)
    /\ ((0.3 <? confidence best) = true ->
        entity_step llm t channel result n
        = (Returned (mkResult (lat best) (lon best) (country_code best)
                              (calculate_confidence_score best)
                              (source best) (place_name best)
                              (geocoding_attempts best)),
           n1, ev1))
    /\ ((0.3 <? confidence best) = false ->
        entity_step llm t channel result n
        = (let '(r, n2, ev2) := place_name_step llm t channel result n1 in
           (r, n2, ev1 ++ ev2))).
Proof.
  intros Hnum Hlen Hne.
  destruct (geocode_locations_returns llm (extract_location_entities t) Hnum n)
    as (results & ev1 & G).
  pose proof (geocode_locations_spec _ _ _ G) as F.
  remember (n + List.length (extract_location_entities t))%nat as n1 eqn:En1.
  destruct results as [|first others].
  { inversion F as [E|]. symmetry in E. contradiction. }
  destruct (max_by_spec confidence first others)
    as (pre & post & Heq & Hpre & Hpost).
  exists (first :: others), n1, ev1, pre, (max_by confidence first others), post.
  split; [exact G|]. split; [exact F|]. split; [exact Heq|].
  assert (Hstep : entity_step llm t channel result n
                  = bind (geocode_locations llm (extract_location_entities t))
                      (fun geocode_results =>
                         match geocode_results with
                         | f :: o =>
                             let best_result := max_by confidence f o in
                             if 0.3 <? confidence best_result then
                               ret (mkResult (lat best_result) (lon best_result)
                                             (country_code best_result)
                                             (calculate_confidence_score best_result)
                                             (source best_result)
                                             (place_name best_result)
                                             (geocoding_attempts best_result))
                             else place_name_step llm t channel result
                         | [] => raise ValueError
                         end) n).
  { unfold entity_step. apply Nat.ltb_lt in Hlen. rewrite Hlen.
    destruct (extract_location_entities t); [contradiction|reflexivity]. }
  split; [|split; [|split]].
  - intros r Hr. rewrite Heq in Hr. apply in_app_or in Hr.
    destruct Hr as [Hr|[Hr|Hr]].
    + apply fle_false_lt_false. apply Hpre. exact Hr.
    + subst r. apply flt_irrefl.
    + apply Hpost. exact Hr.
  - intros r Hr. apply Hpre in Hr.
    destruct (confidence r =? confidence (max_by confidence first others)) eqn:E;
      [|reflexivity].
    apply feq_le in E. congruence.
  - intros T. rewrite Hstep. unfold bind. rewrite G. cbv zeta. rewrite T.
    cbn [ret]. rewrite app_nil_r. reflexivity.
  - intros T. rewrite Hstep. unfold bind. rewrite G. cbv zeta. rewrite T.
    reflexivity.
Qed.
End EntityStage.

Section Results.
Context {R : PyRuntime} {C : CountryData}.
Local Open Scope float_scope.

(** The score of an accepted entity result is 0.7, 1.0 or its own
    confidence. *)
Lemma entity_score_cases (l : location) (h : geocode_hit) (conf : float) :
  let s := calculate_confidence_score (matched_result l h conf) in
  s = 0.7 \/ s = 1.0 \/ s = conf.
Proof.
  unfold calculate_confidence_score, matched_result, startswith. simpl.
  unfold py_max, py_min.
  destruct (conf <? 0.7);
    match goal with |- context [if ?c then _ else _] => destruct c end; auto.
Qed.

Lemma entity_score_positive (l : location) (h : geocode_hit) (conf : float) :
  (0.3 <? conf) = true ->
  (calculate_confidence_score (matched_result l h conf) =? 0) = false
  /\ (0 <? calculate_confidence_score (matched_result l h conf)) = true.
Proof.
  intros T.
  destruct (entity_score_cases l h conf) as [E|[E|E]]; rewrite E.
  - split; reflexivity.
  - split; reflexivity.
  - split; [apply above_threshold_nonzero; exact T|].
    apply (@flt_le_trans 0 0.3); [reflexivity|apply flt_le; exact T].
Qed.

(** C7: for every message [process_message] returns a result for, the
    confidence of the result equals 0.0 exactly when its source is
    none, and a result of any other source has a strictly positive
    confidence. *)
Theorem zero_confidence_iff_none
        (message : json) (llm : LLMGeolocator) (n n' : nat)
        (r : GeolocationResult) (ev : list event) :
  process_message message llm n = (Returned r, n', ev) ->
  ((confidence r =? 0) = true <-> source r = "none"%string)
  /\ (source r <> "none"%string -> (0 <? confidence r) = true).
Proof.
  intros H. apply process_message_produced in H.
  destruct H as [la lo Hb|code la lo Hc|l h conf Hs T|first h|code la lo Hc|];
    cbn [confidence source];
    try (split; [split; [vm_compute|]; discriminate|reflexivity]).
  - destruct (entity_score_positive l h T) as [Hz Hp].
    split; [split; [congruence|simpl; discriminate]|intros _; exact Hp].
  - split; [split; reflexivity|congruence].
Qed.

(** C9: for every message [process_message] returns a result for, the
    source of the result differs from none exactly when both
    latitude and longitude are set. *)
Theorem located_iff_source_set
        (message : json) (llm : LLMGeolocator) (n n' : nat)
        (r : GeolocationResult) (ev : list event) :
  process_message message llm n = (Returned r, n', ev) ->
  source r <> "none"%string <-> (lat r <> None /\ lon r <> None).
Proof.
  intros H. apply process_message_produced in H.
  destruct H; cbn [lat lon source];
    try (split; [intros _; split; discriminate|intros _; simpl; discriminate]).
  split; [congruence|intros [? _]; congruence].
Qed.

(** C5 (amended): for every message [process_message] returns a result
    for, the attempts log of the result is not empty and holds
    nothing but the diagnostic strings of the stage that produced the
    result: one string for the coordinate, flag, place-name, channel
    and terminal results, two for an entity result. *)
Theorem attempts_log_of_returning_stage
        (message : json) (llm : LLMGeolocator) (n n' : nat)
        (r : GeolocationResult) (ev : list event) :
  process_message message llm n = (Returned r, n', ev) ->
  geocoding_attempts r <> []
  /\ ((exists c, source r = "coordinates_regex"%string
                 /\ geocoding_attempts r
                    = [str "Found coordinates: " ++ repr_pair c])
      \/ (exists code, source r = "flag_emoji"%string
                       /\ geocoding_attempts r = [str "Found flag: " ++ code])
      \/ (exists ty query place,
             source r = ("llm_geocoding_" ++ ty)%string
             /\ geocoding_attempts r
                = [str "LLM extracted: " ++ query;
                   str "Geocoded successfully: " ++ place])
      \/ (exists first, source r = "place_name_geocoding"%string
                        /\ geocoding_attempts r
                           = [str "Geocoded place: " ++ first])
      \/ (exists code, source r = "channel_fallback"%string
                       /\ geocoding_attempts r
                          = [str "Channel fallback: " ++ code])
      \/ (source r = "none"%string
          /\ geocoding_attempts r = [str "No geolocation found"])).
Proof.
  intros H. apply process_message_produced in H.
  destruct H as [la lo Hb|code la lo Hc|l h conf Hs T|first h|code la lo Hc|];
    cbn [geocoding_attempts source]; (split; [discriminate|]).
  - left. exists (la, lo). auto.
  - right; left. exists code. auto.
  - right; right; left. exists (loc_type l), (loc_query l), (hit_place_name h).
    auto.
  - right; right; right; left. exists first. auto.
  - right; right; right; right; left. exists code. auto.
  - right; right; right; right; right. auto.
Qed.
End Results.

Section MissingFields.
Context {R : PyRuntime} {C : CountryData}.

Lemma set_order_nil : set_order [] = [].
Proof.
  destruct (set_order []) as [|x l] eqn:E; [reflexivity|].
  exfalso. apply (proj1 (set_order_In [] x)). rewrite E. left. reflexivity.
Qed.

Lemma no_coordinates_in_empty_text : extract_coordinates [] = Returned None.
Proof. reflexivity. Qed.

Lemma no_place_names_in_empty_text : extract_place_names [] = [].
Proof. unfold extract_place_names. simpl. apply set_order_nil. Qed.

Lemma no_flags_in_empty_text :
  (forall f c, In (f, c) FLAG_TO_COUNTRY -> f <> []) ->
  extract_flag_countries [] = [].
Proof.
  unfold extract_flag_countries. intros H.
  induction FLAG_TO_COUNTRY as [|[f c] l IH]; [reflexivity|].
  simpl. destruct f as [|x f].
  - exfalso. apply (H [] c); [left|]; reflexivity.
  - simpl. apply IH. intros f' c' Hin. apply (H f' c'). right. exact Hin.
Qed.

Lemma channel_step_sources channel result n r n' ev :
  channel_step channel result n = (Returned r, n', ev) ->
  source r = "channel_fallback"%string \/ source r = "none"%string.
Proof.
  unfold channel_step. intros H.
  apply bind_returned in H. destruct H as (found & n1 & ev1 & ev2 & _ & H2 & _).
  destruct found as [code|]; [destruct (get_country_centroid code)|];
    inversion H2; subst; simpl; auto.
Qed.

(** A missing field is read as the empty string.  A record without
    text, whose channel is absent or a string, never fails: no flag of
    the mapping being the empty string, the coordinate, flag, entity
    and place-name stages give nothing, no request is made and the
    result comes from the channel fallback or is the terminal one.  A
    record without channel is processed exactly as the same record
    with an empty channel; it returns a result when the coordinate
    extraction on its text returns and the matches of the endpoint
    carry a numeric relevance. *)
Lemma missing_fields_read_as_empty
        (fields : list (text * json)) (llm : LLMGeolocator) (n : nat) :
  (dict_get fields (str "text") = None ->
   (forall v, dict_get fields (str "channel") = Some v -> exists c, v = JStr c) ->
   (forall f c, In (f, c) FLAG_TO_COUNTRY -> f <> []) ->
   message_get (JObj fields) (str "text") = Returned (JStr [])
   /\ exists r,
       process_message (JObj fields) llm n = (Returned r, n, [])
       /\ (source r = "channel_fallback"%string \/ source r = "none"%string))
  /\ (forall t,
         dict_get fields (str "text") = Some (JStr t) ->
         dict_get fields (str "channel") = None ->
         message_get (JObj fields) (str "channel") = Returned (JStr [])
         /\ process_message (JObj fields) llm n
            = process_message (JObj ((str "channel", JStr []) :: fields)) llm n
         /\ (forall c,
                numeric_replies ->
                extract_coordinates t = Returned c ->
                exists r n' ev,
                  process_message (JObj fields) llm n = (Returned r, n', ev))).
Proof.
  split.
  - intros Ht Hch Hflags. unfold message_get at 1. rewrite Ht. split; [reflexivity|].
    assert (Hlook : exists found,
               channel_lookup (match dict_get fields (str "channel") with
                               | Some v => v
                               | None => JStr []
                               end) = Returned found).
    { destruct (dict_get fields (str "channel")) as [v|] eqn:E.
      - destruct (Hch v eq_refl) as (c & ->). simpl. eauto.
      - simpl. eauto. }
    destruct Hlook as (found & Hlook).
    destruct (channel_step_returns _ new_result n Hlook) as (r & Hr).
    exists r. split; [|eapply channel_step_sources; exact Hr].
    unfold process_message, message_get. rewrite Ht.
    do 3 lift_step. rewrite no_coordinates_in_empty_text. lift_step.
    unfold flag_step. rewrite (no_flags_in_empty_text Hflags).
    unfold entity_step. cbn [List.length Nat.ltb Nat.leb].
    unfold place_name_step. rewrite no_place_names_in_empty_text.
    exact Hr.
  - intros t Ht Hch. unfold message_get at 1. rewrite Hch.
    split; [reflexivity|]. split.
    + unfold process_message, message_get. cbn [dict_get].
      replace (text_eqb (str "text") (str "channel")) with false by reflexivity.
      replace (text_eqb (str "channel") (str "channel")) with true by reflexivity.
      rewrite Hch. reflexivity.
    + intros c Hnum Hc. unfold process_message, message_get. rewrite Ht, Hch.
      do 3 lift_step. rewrite Hc. lift_step.
      destruct c as [c|].
      * unfold ret. eauto.
      * apply (@flag_step_returns _ _ llm t (JStr []) None new_result n Hnum).
        reflexivity.
Qed.
End MissingFields.

Section Batches.
Context {R : PyRuntime} {C : CountryData}.

Lemma written_app (a b : list event) : written (a ++ b) = written a ++ written b.
Proof. unfold written. apply flat_map_app. Qed.

Lemma quiet_ret {A} (a : A) : quiet (ret a).
Proof. intros n. reflexivity. Qed.

Lemma quiet_raise {A} (e : exn) : quiet (@raise A e).
Proof. intros n. reflexivity. Qed.

Lemma quiet_lift {A} (o : outcome A) : quiet (lift o).
Proof. intros n. reflexivity. Qed.

Lemma quiet_bind {A B} (c : Py A) (k : A -> Py B) :
  quiet c -> (forall a, quiet (k a)) -> quiet (bind c k).
Proof.
  intros Hc Hk n. unfold bind. specialize (Hc n).
  destruct (c n) as [[[a|e] n1] ev1]; simpl in *; [|exact Hc].
  specialize (Hk a n1). destruct (k a n1) as [[r n2] ev2]. simpl in *.
  rewrite written_app, Hc, Hk. reflexivity.
Qed.

Lemma quiet_geocode self q : quiet (geocode self q).
Proof.
  intros n. rewrite geocode_eq. simpl.
  destruct (mapbox_get n q); reflexivity.
Qed.

Lemma quiet_geocode_locations llm ls : quiet (geocode_locations llm ls).
Proof.
  induction ls as [|l ls IH]; simpl; [apply quiet_ret|].
  apply quiet_bind.
  - unfold geocode_location. apply quiet_bind; [apply quiet_geocode|].
    intros [h|]; [|apply quiet_ret].
    apply quiet_bind; [apply quiet_lift|]. intros conf. apply quiet_ret.
  - intros r. apply quiet_bind; [exact IH|]. intros rs. apply quiet_ret.
Qed.

Lemma quiet_channel_step channel result : quiet (channel_step channel result).
Proof.
  unfold channel_step. apply quiet_bind; [apply quiet_lift|].
  intros [code|]; [destruct (get_country_centroid code)|]; apply quiet_ret.
Qed.

Lemma quiet_place_name_step llm t channel result :
  quiet (place_name_step llm t channel result).
Proof.
  unfold place_name_step. destruct (extract_place_names t);
    [apply quiet_channel_step|].
  apply quiet_bind; [apply quiet_geocode|].
  intros [h|]; [apply quiet_ret|apply quiet_channel_step].
Qed.

Lemma quiet_entity_step llm t channel result :
  quiet (entity_step llm t channel result).
Proof.
  unfold entity_step. destruct (Nat.ltb 10 (List.length t));
    [|apply quiet_place_name_step].
  destruct (extract_location_entities t); [apply quiet_place_name_step|].
  apply quiet_bind; [apply quiet_geocode_locations|].
  intros [|first others]; [apply quiet_raise|].
  cbv zeta. destruct (PrimFloat.ltb _ _);
    [apply quiet_ret|apply quiet_place_name_step].
Qed.

Lemma quiet_process_message message llm : quiet (process_message message llm).
Proof.
  unfold process_message.
  apply quiet_bind; [apply quiet_lift|]. intros txt.
  apply quiet_bind; [apply quiet_lift|]. intros channel.
  apply quiet_bind; [apply quiet_lift|]. intros t.
  apply quiet_bind; [apply quiet_lift|]. intros [c|]; [apply quiet_ret|].
  unfold flag_step. destruct (extract_flag_countries t) as [|code rest];
    [apply quiet_entity_step|].
  destruct (get_country_centroid code); [apply quiet_ret|apply quiet_entity_step].
Qed.

(** A line of the loop never raises, and counts one more processed
    message exactly when it writes a line. *)
Lemma process_line_returns llm line p g n :
  exists p' g' n' ev,
    process_line llm line (p, g) n = (Returned (p', g'), n', ev)
    /\ p' = p + List.length (written ev).
Proof.
  unfold process_line. destruct (json_loads (strip line)) as [message|].
  - pose proof (quiet_process_message message llm n) as W.
    destruct (process_message message llm n) as [[[geo|e] n'] ev];
      simpl in W.
    + destruct message as [| | | | |fields];
        try (do 4 eexists; (split; [reflexivity|]);
             rewrite written_app, W; simpl; lia).
      cbv zeta. destruct (json_encodable _);
        do 4 eexists; (split; [reflexivity|]);
        rewrite written_app, W; simpl; lia.
    + do 4 eexists; (split; [reflexivity|]);
        rewrite written_app, W; simpl; lia.
  - exists p, g, n, [rejected_line_event line]. split; [reflexivity|].
    unfold rejected_line_event. destruct (json_syntax_error _); simpl; lia.
Qed.

Lemma process_lines_returns llm lines : forall p g n,
  exists p' g' n' ev,
    process_lines llm lines (p, g) n = (Returned (p', g'), n', ev)
    /\ p' = p + List.length (written ev).
Proof.
  induction lines as [|line lines IH]; intros p g n.
  - exists p, g, n, []. split; [reflexivity|simpl; lia].
  - destruct (process_line_returns llm line p g n)
      as (p1 & g1 & n1 & ev1 & H1 & E1).
    destruct (IH p1 g1 n1) as (p2 & g2 & n2 & ev2 & H2 & E2).
    exists p2, g2, n2, (ev1 ++ ev2). split.
    + cbn [process_lines]. unfold bind. rewrite H1, H2. reflexivity.
    + rewrite written_app, length_app. lia.
Qed.

(** A line that does not decode leaves the counters and the number of
    requests as they were and logs one line: a warning when the
    decoder raised JSONDecodeError. *)
Lemma process_line_malformed llm bad counts n :
  json_loads (strip bad) = None ->
  process_line llm bad counts n = (Returned counts, n, [rejected_line_event bad]).
Proof.
  intros H. unfold process_line. destruct counts as [p g]. rewrite H.
  reflexivity.
Qed.

Lemma process_lines_skip llm bad after : forall before counts n,
  json_loads (strip bad) = None ->
  exists r n' ev1 ev2,
    process_lines llm (before ++ after) counts n = (r, n', ev1 ++ ev2)
    /\ process_lines llm (before ++ bad :: after) counts n
       = (r, n', ev1 ++ rejected_line_event bad :: ev2).
Proof.
  induction before as [|line before IH]; intros counts n Hbad.
  - destruct (process_lines llm after counts n) as [[r n'] ev] eqn:E.
    exists r, n', [], ev. split; [exact E|].
    cbn [app process_lines]. unfold bind.
    rewrite (process_line_malformed llm bad counts n Hbad).
    rewrite E. reflexivity.
  - destruct counts as [p g].
    destruct (process_line_returns llm line p g n)
      as (p1 & g1 & n1 & ev0 & H1 & _).
    destruct (IH (p1, g1) n1 Hbad) as (r & n' & ev1 & ev2 & Ha & Hb).
    exists r, n', (ev0 ++ ev1), ev2. cbn [app process_lines]. unfold bind.
    rewrite H1, Ha, Hb. rewrite <- !app_assoc. auto.
Qed.

(** A line that does not decode as JSON is skipped and logged, and the
    loop goes on: the file with the line gives the same outcome, the
    same requests and, but for the one log line, the same events in
    the same order as the file without it, so the dicts written are
    the same. *)
Lemma malformed_line_is_skipped
      (before after : list text) (undecodable : bool) (bad token : text)
      (n : nat) :
  json_loads (strip bad) = None ->
  exists r n' ev1 ev2,
    process_file (mkInfile (before ++ after) undecodable) token n
    = (r, n', ev1 ++ ev2)
    /\ process_file (mkInfile (before ++ bad :: after) undecodable) token n
       = (r, n', ev1 ++ rejected_line_event bad :: ev2)
    /\ written (ev1 ++ rejected_line_event bad :: ev2) = written (ev1 ++ ev2).
Proof.
  intros Hbad. set (llm := LLMGeolocator_init token).
  destruct (process_lines_skip llm bad after before (0, 0) n Hbad)
    as (r0 & n' & ev1 & ev2 & Ha & Hb).
  destruct (process_lines_returns llm (before ++ after) 0 0 n)
    as (p & g & n0 & ev0 & Hr & Hp).
  rewrite Ha in Hr. inversion Hr; subst r0 n0. clear Hr.
  assert (Hw : forall tail, written (ev1 ++ rejected_line_event bad :: ev2 ++ tail)
                            = written (ev1 ++ ev2 ++ tail)).
  { intros tail. rewrite !written_app.
    change (rejected_line_event bad :: ev2 ++ tail)
      with ([rejected_line_event bad] ++ ev2 ++ tail).
    rewrite !written_app. unfold rejected_line_event.
    destruct (json_syntax_error _); reflexivity. }
  unfold process_file. fold llm. cbn [file_lines file_undecodable].
  unfold bind at 1 3. rewrite Ha, Hb. cbn [fst].
  destruct undecodable; [|destruct p as [|p]].
  - exists (Raised UnicodeDecodeError), n', ev1, (ev2 ++ []).
    cbn [raise]. rewrite <- !app_assoc. cbn [app].
    split; [reflexivity|]. split; [reflexivity|]. apply Hw.
  - exists (Raised ZeroDivisionError), n', ev1, (ev2 ++ []).
    cbn [raise]. rewrite <- !app_assoc. cbn [app].
    split; [reflexivity|]. split; [reflexivity|]. apply Hw.
  - exists (Returned (S p, g)), n', ev1, (ev2 ++ [LogInfo "Processed"]).
    unfold bind, emit, ret. cbn [app]. rewrite <- !app_assoc. cbn [app].
    split; [reflexivity|]. split; [reflexivity|]. apply Hw.
Qed.
End Batches.

Section Evaluations.
Local Open Scope string_scope.
Local Open Scope list_scope.

(** C4: the delay does not follow every call.  For a query the
    endpoint answers with a feature, [geocode] issues the request and
    returns at once, and the three calls [geocode_locations] makes for
    a text with three candidates follow one another with no delay in
    between; only the calls without a match, or that fail, are
    followed by the 0.1 second sleep. *)
Lemma geocode_match_skips_delay :
  events (geocode (R := eager_runtime) (mapbox sample_llm) (str "Kyiv") 0)
  = [Request (str "Kyiv")]
  /\ events (geocode_locations (R := eager_runtime) sample_llm
               (extract_location_entities (R := eager_runtime)
                                          (str "Kyiv, Ukraine")) 0)
     = [Request (str "Kyiv, Ukraine"); Request (str "Kyiv");
        Request (str "Ukraine")]
  /\ events (geocode (R := quiet_runtime) (mapbox sample_llm) (str "Kyiv") 0)
     = [Request (str "Kyiv"); Sleep 0.1%float]
  /\ events (geocode (R := ascii_runtime sample_decode (fun _ _ => Failed))
                     (mapbox sample_llm) (str "Kyiv") 0)
     = [Request (str "Kyiv"); LogWarning "Geocoding failed"; Sleep 0.1%float].
Proof. repeat split; vm_compute; reflexivity. Qed.

(** C1, as stated, fails: the text holds a valid pair after an
    out-of-bounds one, the extractor looks at the first match only and
    returns nothing, and the message ends without a location. *)
Lemma first_match_shadows_valid_pair :
  decimal_pairs_in_bounds (R := quiet_runtime) shadowed_pair_text
  = [(50.45, 30.52)%float]
  /\ extract_coordinates (R := quiet_runtime) shadowed_pair_text = Returned None
  /\ process_message (R := quiet_runtime) (C := sample_countries)
       (message_of shadowed_pair_text (str "x")) sample_llm 0
     = (Returned (mkResult None None None 0%float "none" None
                           [str "No geolocation found"]), 0%nat, []).
Proof. repeat split; vm_compute; reflexivity. Qed.

(** A valid pair after an out-of-bounds first match is returned when
    another pattern finds it: here the lat:/lon: pattern. *)
Example later_pair_found_by_another_pattern :
  Re.findall (R := quiet_runtime) 2 Patterns.decimal_degrees
    (str "95.0, 200.0 lat:50.45,30.52 lon:30.52")
  = [[str "95.0"; str "200.0"]; [str "50.45"; str "30.52"]]
  /\ extract_coordinates (R := quiet_runtime)
       (str "95.0, 200.0 lat:50.45,30.52 lon:30.52")
     = Returned (Some (50.45, 30.52)%float).
Proof. split; vm_compute; reflexivity. Qed.

(** The amended C1 on the message about Kyiv, and on the text with an
    out-of-bounds pair followed by a valid one. *)
Lemma first_decimal_match_returned_witness :
  (extract_coordinates (R := quiet_runtime) kyiv_text
   = Returned (Some (float_of_text (R := quiet_runtime) (str "50.4501"),
                     float_of_text (R := quiet_runtime) (str "30.5234")))
   /\ exists r,
       process_message (R := quiet_runtime) (C := sample_countries)
         (JObj [(str "channel", JStr (str "x")); (str "text", JStr kyiv_text)])
         sample_llm 0
       = (Returned r, 0%nat, [])
       /\ lat r = Some (float_of_text (R := quiet_runtime) (str "50.4501"))
       /\ lon r = Some (float_of_text (R := quiet_runtime) (str "30.5234"))
       /\ confidence r = 0.95%float /\ source r = "coordinates_regex")
  /\ extract_coordinates (R := quiet_runtime) shadowed_pair_text
     = try_patterns (R := quiet_runtime)
         [(8, Patterns.dms); (2, Patterns.lat_lon)]%nat shadowed_pair_text.
Proof.
  split.
  - apply (proj1 (first_decimal_match_returned (R := quiet_runtime)
                    (C := sample_countries)
                    [(str "channel", JStr (str "x")); (str "text", JStr kyiv_text)]
                    (t := kyiv_text) (a := str "50.4501") (b := str "30.5234")
                    (rest := []) sample_llm 0 eq_refl eq_refl)).
    vm_compute. reflexivity.
  - apply (proj2 (first_decimal_match_returned (R := quiet_runtime)
                    (C := sample_countries)
                    [(str "text", JStr shadowed_pair_text)]
                    (t := shadowed_pair_text) (a := str "95.0") (b := str "200.0")
                    (rest := [[str "50.45"; str "30.52"]]) sample_llm 0
                    eq_refl eq_refl)).
    vm_compute. reflexivity.
Defined.

(** C2 on a text with a coordinate pair and the flag of Ukraine. *)
Lemma coordinates_before_flags_witness :
  (exists r,
      process_message (R := quiet_runtime) (C := sample_countries)
        (message_of pair_and_flag_text (str "x")) sample_llm 0
      = (Returned r, 0%nat, [])
      /\ source r = "coordinates_regex"
      /\ source r <> "flag_emoji"
      /\ lat r = Some (fst (50.4501, 30.5234)%float)
      /\ lon r = Some (snd (50.4501, 30.5234)%float)
      /\ confidence r = 0.95%float /\ country_code r = None)
  /\ (forall first others first_centroid channel,
         extract_flag_countries (C := sample_countries) pair_and_flag_text
         = first :: others ->
         get_country_centroid (C := sample_countries) first
         = Some first_centroid ->
         exists rf,
           flag_step (R := quiet_runtime) (C := sample_countries)
             sample_llm pair_and_flag_text channel new_result 0
           = (Returned rf, 0%nat, [])
           /\ source rf = "flag_emoji" /\ country_code rf = Some first).
Proof.
  apply (@coordinates_before_flags quiet_runtime sample_countries
           [(str "channel", JStr (str "x")); (str "text", JStr pair_and_flag_text)]
           pair_and_flag_text (50.4501, 30.5234)%float
           flag_ua (str "UKR") (49.0, 32.0)%float sample_llm 0);
    try (vm_compute; reflexivity).
  left. reflexivity.
Defined.

(** C6 on the text about Kyiv. *)
Lemma extract_coordinates_within_bounds_witness :
  extract_coordinates (R := quiet_runtime) kyiv_text
  = Returned (Some (50.4501, 30.5234)%float)
  /\ ((-90 <=? 50.4501)%float = true /\ (50.4501 <=? 90)%float = true
      /\ (-180 <=? 30.5234)%float = true /\ (30.5234 <=? 180)%float = true).
Proof.
  split; [vm_compute; reflexivity|].
  apply (proj1 (extract_coordinates_within_bounds (R := quiet_runtime) kyiv_text)).
  vm_compute; reflexivity.
Defined.

(** C3 on the text about Kharkiv, every query matched. *)
Lemma entity_stage_selects_maximum_witness :
  exists results n1 ev1 pre best post,
    geocode_locations (R := eager_runtime) sample_llm
      (extract_location_entities (R := eager_runtime) kharkiv_text) 0
    = (Returned results, n1, ev1)
    /\ Forall2 candidate_result
               (extract_location_entities (R := eager_runtime) kharkiv_text)
               results
    /\ results = pre ++ best :: post
    /\ (forall r, In r results
                  -> (confidence best <? confidence r)%float = false)
    /\ (forall r, In r pre
                  -> (confidence r =? confidence best)%float = false)
    /\ ((0.3 <? confidence best)%float = true ->
        entity_step (R := eager_runtime) (C := sample_countries)
          sample_llm kharkiv_text (JStr (str "x")) new_result 0
        = (Returned (mkResult (lat best) (lon best) (country_code best)
                              (calculate_confidence_score best)
                              (source best) (place_name best)
                              (geocoding_attempts best)),
           n1, ev1))
    /\ ((0.3 <? confidence best)%float = false ->
        entity_step (R := eager_runtime) (C := sample_countries)
          sample_llm kharkiv_text (JStr (str "x")) new_result 0
        = (let '(r, n2, ev2) :=
             place_name_step (R := eager_runtime) (C := sample_countries)
               sample_llm kharkiv_text (JStr (str "x")) new_result n1 in
           (r, n2, ev1 ++ ev2))).
Proof.
  apply (entity_stage_selects_maximum (R := eager_runtime)
           (C := sample_countries) sample_llm kharkiv_text
           (JStr (str "x")) new_result 0).
  - intros m q. reflexivity.
  - vm_compute. lia.
  - vm_compute. discriminate.
Defined.

(** C7 on the entity result of the message about Kharkiv. *)
Lemma zero_confidence_iff_none_witness :
  ((confidence kharkiv_result =? 0)%float = true
   <-> source kharkiv_result = "none")
  /\ (source kharkiv_result <> "none"
      -> (0 <? confidence kharkiv_result)%float = true).
Proof.
  eapply (zero_confidence_iff_none (R := eager_runtime) (C := sample_countries)
            (message_of kharkiv_text (str "x")) sample_llm 0
            (r := kharkiv_result)).
  vm_compute. reflexivity.
Defined.

(** C9 on the flag result of a short message. *)
Lemma located_iff_source_set_witness :
  source flag_result <> "none"
  <-> (lat flag_result <> None /\ lon flag_result <> None).
Proof.
  eapply (located_iff_source_set (R := quiet_runtime) (C := sample_countries)
            (message_of (str "hi " ++ flag_ua) (str "x")) sample_llm 0
            (r := flag_result)).
  vm_compute. reflexivity.
Defined.

(** C5, as stated, fails: on this message the coordinate and flag
    stages are tried and find nothing, the entity stage geocodes four
    candidates and the place-name stage one of three names, all
    without a match, the channel is unknown, and the log of the result
    holds the one string of the terminal step. *)
Lemma unmatched_stages_leave_no_entry :
  extract_coordinates (R := quiet_runtime) kharkiv_text = Returned None
  /\ extract_flag_countries (C := sample_countries) kharkiv_text = []
  /\ List.length (extract_location_entities (R := quiet_runtime) kharkiv_text) = 4
  /\ List.length (extract_place_names (R := quiet_runtime) kharkiv_text) = 3
  /\ exists evs,
      process_message (R := quiet_runtime) (C := sample_countries)
        (message_of kharkiv_text (str "x")) sample_llm 0
      = (Returned none_result, 5, evs)
      /\ geocoding_attempts none_result = [str "No geolocation found"].
Proof.
  repeat split; try (vm_compute; reflexivity).
  eexists. split; vm_compute; reflexivity.
Qed.

(** The amended C5 on the message about Kharkiv, nothing matched. *)
Lemma attempts_log_of_returning_stage_witness :
  geocoding_attempts none_result <> []
  /\ ((exists c, source none_result = "coordinates_regex"
                 /\ geocoding_attempts none_result
                    = [str "Found coordinates: "
                       ++ repr_pair (R := quiet_runtime) c])
      \/ (exists code, source none_result = "flag_emoji"
                       /\ geocoding_attempts none_result
                          = [str "Found flag: " ++ code])
      \/ (exists ty query place,
             source none_result = ("llm_geocoding_" ++ ty)%string
             /\ geocoding_attempts none_result
                = [str "LLM extracted: " ++ query;
                   str "Geocoded successfully: " ++ place])
      \/ (exists first, source none_result = "place_name_geocoding"
                        /\ geocoding_attempts none_result
                           = [str "Geocoded place: " ++ first])
      \/ (exists code, source none_result = "channel_fallback"
                       /\ geocoding_attempts none_result
                          = [str "Channel fallback: " ++ code])
      \/ (source none_result = "none"
          /\ geocoding_attempts none_result = [str "No geolocation found"])).
Proof.
  eapply (attempts_log_of_returning_stage (R := quiet_runtime)
            (C := sample_countries)
            (message_of kharkiv_text (str "x")) sample_llm 0
            (r := none_result)).
  vm_compute. reflexivity.
Defined.

End Evaluations.

(** ** Patterns that cannot match *)

Section Blocked.
Context {R : PyRuntime}.
Import Re.

Lemma suffix_refl (a : text) : suffix_of a a.
Proof. exists []. reflexivity. Qed.

Lemma suffix_trans (a b c : text) :
  suffix_of a b -> suffix_of b c -> suffix_of a c.
Proof.
  intros [p ->] [q ->]. exists (q ++ p). rewrite app_assoc. reflexivity.
Qed.

Lemma suffix_tail (x : char) (a b : text) :
  suffix_of (x :: a) b -> suffix_of a b.
Proof.
  intros [p ->]. exists (p ++ [x]). rewrite <- app_assoc. reflexivity.
Qed.

Lemma suffix_head_In (x : char) (a b : text) : suffix_of (x :: a) b -> In x b.
Proof. intros [p ->]. apply in_or_app. right. left. reflexivity. Qed.

Lemma fails_from_suffix (s s' : pos) (k : cont) :
  suffix_of (rest s') (rest s) -> fails_from s k -> fails_from s' k.
Proof.
  intros H F s'' H'. apply F. eapply suffix_trans; eassumption.
Qed.

Lemma step_fail (p : char -> bool) (s : pos) (k : cont) :
  fails_from s k -> step p s k = None.
Proof.
  intros F. unfold step. destruct (rest s) as [|x xs] eqn:E; [reflexivity|].
  destruct (p x); [|reflexivity]. apply F. rewrite E. simpl.
  exists [x]. reflexivity.
Qed.

Lemma greedy_fail (body : pos -> cont -> option pos) :
  (forall s k, fails_from s k -> body s k = None) ->
  forall fuel s k, fails_from s k -> greedy body fuel s k = None.
Proof.
  intros Hbody. induction fuel as [|fuel IH]; intros s k F; simpl.
  - apply F. apply suffix_refl.
  - rewrite Hbody.
    + apply F. apply suffix_refl.
    + intros s' Hs'. destruct (Nat.ltb _ _); [|reflexivity].
      apply IH. eapply fails_from_suffix; eassumption.
Qed.

Lemma lazy_fail (body : pos -> cont -> option pos) :
  (forall s k, fails_from s k -> body s k = None) ->
  forall fuel s k, fails_from s k -> lazy body fuel s k = None.
Proof.
  intros Hbody. induction fuel as [|fuel IH]; intros s k F; simpl;
    rewrite (F s (suffix_refl _)); [reflexivity|].
  apply Hbody. intros s' Hs'. destruct (Nat.ltb _ _); [|reflexivity].
  apply IH. eapply fails_from_suffix; eassumption.
Qed.

(** The matcher fails when what follows the pattern fails at every
    later position of the subject. *)
Lemma run_fail (r : regex) :
  forall s k, fails_from s k -> run r s k = None.
Proof.
  induction r as [|c|c| |r1 IH1 r2 IH2|r1 IH1|r1 IH1|r1 IH1|r1 IH1|i r1 IH1];
    intros s k F; cbn [run].
  - apply F. apply suffix_refl.
  - apply step_fail. exact F.
  - apply step_fail. exact F.
  - destruct (xorb _ _); [|reflexivity]. apply F. apply suffix_refl.
  - apply IH1. intros s' Hs'. apply IH2. eapply fails_from_suffix; eassumption.
  - rewrite (IH1 s k F). apply F. apply suffix_refl.
  - apply greedy_fail; assumption.
  - apply IH1. intros s' Hs'. apply greedy_fail; [assumption|].
    eapply fails_from_suffix; eassumption.
  - apply lazy_fail; assumption.
  - apply IH1. intros s' Hs'. apply F. exact Hs'.
Qed.

Lemma blocked_cls (t : text) (c : cls) :
  (forall x, In x t -> in_cls c x = false) -> blocked t (Cls c).
Proof.
  intros H s k Hs. cbn [run]. unfold step.
  destruct (rest s) as [|x xs]; [reflexivity|].
  rewrite (H x (suffix_head_In Hs)). reflexivity.
Qed.

Lemma blocked_cat_l (t : text) (r1 r2 : regex) :
  blocked t r1 -> blocked t (Cat r1 r2).
Proof. intros H s k Hs. cbn [run]. apply H. exact Hs. Qed.

Lemma blocked_cat_r (t : text) (r1 r2 : regex) :
  blocked t r2 -> blocked t (Cat r1 r2).
Proof.
  intros H s k Hs. cbn [run]. apply run_fail. intros s' Hs'.
  apply H. eapply suffix_trans; eassumption.
Qed.

Lemma blocked_group (t : text) (i : nat) (r : regex) :
  blocked t r -> blocked t (Group i r).
Proof. intros H s k Hs. cbn [run]. apply H. exact Hs. Qed.

Lemma blocked_plus (t : text) (r : regex) : blocked t r -> blocked t (Plus r).
Proof. intros H s k Hs. cbn [run]. apply H. exact Hs. Qed.

Lemma blocked_scan (t : text) (r : regex) :
  blocked t r ->
  forall fuel s, suffix_of (rest s) t -> scan r fuel s = [].
Proof.
  intros H. induction fuel as [|fuel IH]; intros s Hs; [reflexivity|].
  cbn [scan]. unfold match_here.
  rewrite (H (mkPos (prev s) (rest s) []) Some Hs).
  destruct (rest s) as [|x xs] eqn:E; [reflexivity|].
  apply IH. simpl. eapply suffix_tail. exact Hs.
Qed.

Lemma blocked_findall (t : text) (r : regex) (n : nat) :
  blocked t r -> findall n r t = [].
Proof.
  intros H. unfold findall, finditer.
  rewrite (blocked_scan H); [reflexivity|]. apply suffix_refl.
Qed.
End Blocked.

Ltac find_block H :=
  first [ apply blocked_cls; exact H
        | apply blocked_group; find_block H
        | apply blocked_plus; find_block H
        | apply blocked_cat_l; find_block H
        | apply blocked_cat_r; find_block H ].

Section BlockedPatterns.
Context {R : PyRuntime} {C : CountryData}.

Lemma no_digit_blocks_coordinates (t : text) :
  (forall x, In x t -> decimal_value x = None) ->
  blocked t Patterns.decimal_degrees /\ blocked t Patterns.dms
  /\ blocked t Patterns.lat_lon.
Proof.
  intros H.
  assert (Hd : forall x, In x t -> Re.in_cls Re.Digit x = false).
  { intros x Hx. simpl. rewrite (H x Hx). reflexivity. }
  repeat split; cbv -[blocked]; find_block Hd.
Qed.

Lemma upper_excludes (t : text) (cs : list char) :
  (forall x, In x t -> is_upper x = false) ->
  forallb is_upper cs = true ->
  forall x, In x t -> Re.in_cls (Re.OneOf cs) x = false.
Proof.
  intros H Hcs x Hx. simpl. destruct (existsb (N.eqb x) cs) eqn:E; [|reflexivity].
  apply existsb_exists in E. destruct E as (c & Hc & Heq).
  apply N.eqb_eq in Heq. subst c.
  rewrite forallb_forall in Hcs. specialize (H x Hx).
  rewrite (Hcs x Hc) in H. discriminate.
Qed.

Lemma no_upper_blocks_names (t : text) :
  (forall x, In x t -> is_upper x = false) ->
  blocked t Patterns.city_country /\ blocked t Patterns.city_in_country
  /\ blocked t Patterns.capitalized /\ blocked t Patterns.place_city_country
  /\ blocked t Patterns.dms.
Proof.
  intros H.
  assert (Hu : forall x, In x t -> Re.in_cls (Re.Range 65%N 90%N) x = false).
  { intros x Hx. exact (H x Hx). }
  assert (Hns : forall x, In x t -> Re.in_cls (Re.OneOf [78; 83]%N) x = false).
  { apply upper_excludes; [exact H|reflexivity]. }
  repeat split; cbv -[blocked]; first [find_block Hu | find_block Hns].
Qed.

(** Without a match of the degrees-minutes-seconds pattern the
    extraction returns. *)
Lemma extract_coordinates_returns (t : text) :
  Re.findall 8 Patterns.dms t = [] ->
  exists c, extract_coordinates t = Returned c.
Proof.
  intros H. unfold extract_coordinates, coordinate_patterns.
  cbn [try_patterns]. rewrite H.
  unfold Re.findall.
  destruct (Re.finditer Patterns.decimal_degrees t) as [|m1 l1];
    cbn [List.map Re.groups seq].
  - destruct (Re.finditer Patterns.lat_lon t) as [|m3 l3];
      cbn [List.map Re.groups seq]; [eauto|].
    destruct (in_bounds _ _); eauto.
  - destruct (in_bounds _ _); [eauto|].
    destruct (Re.finditer Patterns.lat_lon t) as [|m3 l3];
      cbn [List.map Re.groups seq]; [eauto|].
    destruct (in_bounds _ _); eauto.
Qed.
End BlockedPatterns.

(** ** The sources of a result *)

Ltac pick_source := simpl; repeat (first [left; reflexivity | right]).

Section Sources.
Context {R : PyRuntime} {C : CountryData}.
Local Open Scope float_scope.

(** Every candidate carries the type and the weight of its pattern. *)
Lemma candidate_types (t : text) (l : location) :
  In l (extract_location_entities t) ->
  (loc_type l = "city_country"%string /\ loc_confidence l = 0.8)
  \/ (loc_type l = "city_in_country"%string /\ loc_confidence l = 0.7)
  \/ (loc_type l = "city_only"%string /\ loc_confidence l = 0.4
      /\ loc_country l = None).
Proof.
  unfold extract_location_entities. intros H.
  apply in_app_or in H. destruct H as [H|H]; [|apply in_app_or in H; destruct H as [H|H]];
    apply in_flat_map in H; destruct H as (g & _ & H).
  - destruct g as [|a [|b [|c g]]]; simpl in H; try contradiction.
    destruct H as [<-|[]]. left. split; reflexivity.
  - destruct g as [|a [|b [|c g]]]; simpl in H; try contradiction.
    destruct H as [<-|[]]. right; left. split; reflexivity.
  - destruct g as [|a [|b g]]; simpl in H; try contradiction.
    destruct (_ && _); simpl in H; try contradiction.
    destruct H as [<-|[]]. right; right. repeat split; reflexivity.
Qed.

Lemma place_name_step_sources llm t channel result n r n' ev :
  place_name_step llm t channel result n = (Returned r, n', ev) ->
  In (source r) ["place_name_geocoding"; "channel_fallback"; "none"]%string.
Proof.
  unfold place_name_step. destruct (extract_place_names t) as [|first rest].
  - intros H. apply channel_step_sources in H. destruct H as [-> | ->]; pick_source.
  - intros H. apply bind_returned in H.
    destruct H as (hit & n1 & ev1 & ev2 & _ & H2 & _).
    destruct hit as [h|].
    + inversion H2; subst. pick_source.
    + apply channel_step_sources in H2. destruct H2 as [-> | ->]; pick_source.
Qed.

Lemma entity_step_sources llm t channel result n r n' ev :
  entity_step llm t channel result n = (Returned r, n', ev) ->
  In (source r) (tl (tl known_sources)).
Proof.
  assert (P : forall m r' m' ev',
             place_name_step llm t channel result m = (Returned r', m', ev') ->
             In (source r') (tl (tl known_sources))).
  { intros m r' m' ev' H. apply place_name_step_sources in H.
    destruct H as [<- | [<- | [<- | []]]]; pick_source. }
  unfold entity_step. destruct (Nat.ltb 10 (List.length t)); [|apply P].
  destruct (extract_location_entities t) as [|l0 ls] eqn:EL; [apply P|].
  intros H. apply bind_returned in H.
  destruct H as (results & n1 & ev1 & ev2 & H1 & H2 & _).
  pose proof (geocode_locations_spec _ _ _ H1) as F. clear H1.
  destruct results as [|first others]; [discriminate|].
  destruct (0.3 <? confidence (max_by confidence first others)) eqn:T;
    [|eapply P; eassumption].
  inversion H2; subst. clear H2.
  destruct (max_by_spec confidence first others) as (pre & post & Heq & _ & _).
  assert (Hin : In (max_by confidence first others) (first :: others)).
  { rewrite Heq. apply in_or_app. right. left. reflexivity. }
  destruct (@Forall2_In_r _ _ _ _ _ _ F Hin)
    as (l & Hl & [(h & conf & Hs & Hm) | Hu]).
  - rewrite Hm. cbn [source matched_result]. rewrite <- EL in Hl.
    apply candidate_types in Hl.
    destruct Hl as [[-> _]|[[-> _]|[-> _]]]; pick_source.
  - rewrite Hu in T. vm_compute in T. discriminate.
Qed.

Lemma flag_step_sources llm t channel n r n' ev :
  flag_step llm t channel new_result n = (Returned r, n', ev) ->
  In (source r) (tl known_sources).
Proof.
  unfold flag_step.
  assert (E : forall m r' m' ev',
             entity_step llm t channel new_result m = (Returned r', m', ev') ->
             In (source r') (tl known_sources)).
  { intros m r' m' ev' H. right. eapply entity_step_sources. exact H. }
  destruct (extract_flag_countries t) as [|code rest]; [apply E|].
  destruct (get_country_centroid code); [|apply E].
  intros H. inversion H; subst. pick_source.
Qed.

(** X1: whatever the message, the source of a result [process_message]
    returns is one of eight strings: coordinates_regex, flag_emoji, one
    of the three llm_geocoding sources (city_country, city_in_country,
    city_only), place_name_geocoding, channel_fallback or none. *)
Theorem process_message_sources
        (message : json) (llm : LLMGeolocator) (n n' : nat)
        (r : GeolocationResult) (ev : list event) :
  process_message message llm n = (Returned r, n', ev) ->
  In (source r) known_sources.
Proof.
  unfold process_message. intros H.
  apply bind_returned in H. destruct H as (txt & n1 & e1 & e2 & _ & H & _).
  apply bind_returned in H. destruct H as (ch & n2 & e3 & e4 & _ & H & _).
  apply bind_returned in H. destruct H as (t & n3 & e5 & e6 & _ & H & _).
  apply bind_returned in H. destruct H as (coords & n4 & e7 & e8 & _ & H & _).
  destruct coords as [c|].
  - inversion H; subst. pick_source.
  - right. eapply flag_step_sources. exact H.
Qed.
End Sources.

(** ** The range of the confidence *)

Lemma SF_not_lt_le c a b :
  SFltb c a = true -> SFltb a b = false -> SFeqb b b = true ->
  SFleb b a = true.
Proof.
  unfold SFltb, SFleb, SFeqb. sf_split; simpl; try congruence;
    intros H1 H2 H3; cmp_cases.
Qed.

Lemma SF_lt_not_nan c a : SFltb c a = true -> SFeqb a a = true.
Proof.
  unfold SFltb, SFeqb. sf_split; simpl; try congruence; intros H1; cmp_cases.
Qed.

Section ConfidenceRange.
Context {R : PyRuntime} {C : CountryData}.
Local Open Scope float_scope.

(** Below a number there is a number: what is not below [b] is at
    least [b]. *)
Lemma flt_not_lt_le c a b :
  (c <? a) = true -> (a <? b) = false -> (b =? b) = true -> (b <=? a) = true.
Proof. rewrite !ltb_spec, eqb_spec, leb_spec. apply SF_not_lt_le. Qed.

Lemma flt_not_nan c a : (c <? a) = true -> (a =? a) = true.
Proof. rewrite ltb_spec, eqb_spec. apply SF_lt_not_nan. Qed.

Lemma entity_score_range (l : location) (h : geocode_hit) (conf : float) :
  (0.3 <? conf) = true ->
  (0.7 <=? calculate_confidence_score (matched_result l h conf)) = true
  /\ (calculate_confidence_score (matched_result l h conf) <=? 1) = true.
Proof.
  intros T.
  unfold calculate_confidence_score, matched_result, startswith. simpl.
  unfold py_max, py_min.
  destruct (conf <? 0.7) eqn:E1.
  - split; reflexivity.
  - destruct (1 <? conf) eqn:E2.
    + split; reflexivity.
    + split.
      * apply (flt_not_lt_le T E1). reflexivity.
      * apply (@flt_not_lt_le 0 1 _); [reflexivity|exact E2|].
        apply (flt_not_nan T).
Qed.

(** X2: the confidence of a result [process_message] returns lies
    between 0 and 1, and that of an entity result (a source that
    starts with llm_geocoding) is at least 0.7, however low the
    relevance the geocoder reported. *)
Theorem confidence_within_unit_interval
        (message : json) (llm : LLMGeolocator) (n n' : nat)
        (r : GeolocationResult) (ev : list event) :
  process_message message llm n = (Returned r, n', ev) ->
  (0 <=? confidence r) = true /\ (confidence r <=? 1) = true
  /\ (startswith (source r) "llm_geocoding" = true ->
      (0.7 <=? confidence r) = true).
Proof.
  intros H. apply process_message_produced in H.
  destruct H as [la lo Hb|code la lo Hc|l h conf Hs T|first h|code la lo Hc|];
    cbn [confidence source];
    try (repeat split; try reflexivity; simpl; discriminate).
  destruct (entity_score_range l h T) as [Hlo Hhi].
  repeat split; [|exact Hhi|intros _; exact Hlo].
  apply flt_le. apply (@flt_le_trans 0 0.7); [reflexivity|exact Hlo].
Qed.

(** X3: in a result [process_message] returns, the country code is set
    exactly for the flag and channel-fallback sources, and the place
    name exactly for the sources that went through the geocoder (the
    llm_geocoding ones and place_name_geocoding). *)
Theorem fields_set_by_source
        (message : json) (llm : LLMGeolocator) (n n' : nat)
        (r : GeolocationResult) (ev : list event) :
  process_message message llm n = (Returned r, n', ev) ->
  (country_code r <> None
   <-> (source r = "flag_emoji"%string \/ source r = "channel_fallback"%string))
  /\ (place_name r <> None
      <-> (startswith (source r) "llm_geocoding" = true
           \/ source r = "place_name_geocoding"%string)).
Proof.
  intros H. apply process_message_produced in H.
  destruct H as [la lo Hb|code la lo Hc|l h conf Hs T|first h|code la lo Hc|];
    cbn [country_code place_name source]; split; split;
    try (intros _; first [left; reflexivity | right; reflexivity | discriminate]);
    try (intros [E|E]; simpl in E; discriminate);
    try congruence.
Qed.
End ConfidenceRange.

(** ** What the text decides *)

Section TextDecides.
Context {R : PyRuntime} {C : CountryData}.
Local Open Scope float_scope.

Lemma int_of_text_cases (s : text) :
  int_of_text s = Raised ValueError \/ exists z, int_of_text s = Returned z.
Proof.
  unfold int_of_text. destruct int_max_str_digits as [lim|]; [|eauto].
  destruct (Nat.ltb lim (List.length s)); eauto.
Qed.

Lemma dms_value_cases (deg mins : Z) (sec : float) :
  dms_value deg mins sec = Raised OverflowError
  \/ exists x, dms_value deg mins sec = Returned x.
Proof.
  unfold dms_value, int_truediv, float_of_int, obind.
  destruct (is_finite (round_ratio (mins <? 0)%Z (Z.abs_N mins) 60)); [|auto].
  destruct (is_finite (round_ratio (deg <? 0)%Z (Z.abs_N deg) 1)); eauto.
Qed.

Lemma parse_dms_raises (g : list text) (e : exn) :
  parse_dms g = Raised e -> e = ValueError \/ e = OverflowError.
Proof.
  unfold parse_dms.
  destruct g as [|g0 [|g1 [|g2 [|g3 [|g4 [|g5 [|g6 [|g7 [|g8 g]]]]]]]]];
    try (intros H; inversion H; auto).
  revert H.
  destruct (int_of_text_cases g0) as [E|[z0 E]]; rewrite E; cbn [obind];
    [intros H; inversion H; auto|].
  destruct (int_of_text_cases g1) as [E1|[z1 E1]]; rewrite E1; cbn [obind];
    [intros H; inversion H; auto|].
  destruct (int_of_text_cases g4) as [E4|[z4 E4]]; rewrite E4; cbn [obind];
    [intros H; inversion H; auto|].
  destruct (int_of_text_cases g5) as [E5|[z5 E5]]; rewrite E5; cbn [obind];
    [intros H; inversion H; auto|].
  destruct (dms_value_cases z0 z1 (float_of_text g2)) as [D|[x D]]; rewrite D;
    cbn [obind]; [intros H; inversion H; auto|].
  destruct (dms_value_cases z4 z5 (float_of_text g6)) as [D'|[y D']]; rewrite D';
    cbn [obind]; [intros H; inversion H; auto|].
  discriminate.
Qed.

(** The loop over the patterns lets nothing but [OverflowError] out. *)
Lemma try_patterns_raises (ps : list (nat * Re.regex)) (t : text) (e : exn) :
  try_patterns ps t = Raised e -> e = OverflowError.
Proof.
  induction ps as [|[n p] ps IH]; simpl; [discriminate|].
  destruct (Re.findall n p t) as [|m0 rest]; [exact IH|].
  destruct m0 as [|g0 [|g1 [|g2 [|g3 [|g4 [|g5 [|g6 [|g7 [|g8 m]]]]]]]]];
    try exact IH.
  - destruct (in_bounds _ _); [discriminate|exact IH].
  - destruct (parse_dms _) as [[la lo]|e'] eqn:P.
    + destruct (in_bounds la lo); [discriminate|exact IH].
    + apply parse_dms_raises in P.
      destruct P as [-> | ->]; [exact IH|].
      intros H. inversion H. reflexivity.
Qed.

(** X4: a text without a decimal digit holds no coordinates: the
    extraction returns nothing, and no message with that text gets the
    source coordinates_regex. *)
Theorem digit_free_text_has_no_coordinates (t : text) :
  (forall x, In x t -> decimal_value x = None) ->
  extract_coordinates t = Returned None
  /\ forall fields llm n r n' ev,
      dict_get fields (str "text") = Some (JStr t) ->
      process_message (JObj fields) llm n = (Returned r, n', ev) ->
      source r <> "coordinates_regex"%string.
Proof.
  intros H. destruct (no_digit_blocks_coordinates t H) as (B1 & B2 & B3).
  assert (E : extract_coordinates t = Returned None).
  { unfold extract_coordinates, coordinate_patterns. cbn [try_patterns].
    rewrite (blocked_findall 2 B1), (blocked_findall 8 B2),
      (blocked_findall 2 B3). reflexivity. }
  split; [exact E|].
  intros fields llm n r n' ev Ht Hp.
  unfold process_message, message_get in Hp. rewrite Ht in Hp.
  revert Hp. do 3 lift_step. rewrite E. lift_step. intros Hp.
  apply flag_step_sources in Hp. simpl in Hp.
  intros Hs. rewrite Hs in Hp.
  repeat (destruct Hp as [Hp|Hp]; [discriminate|]). exact Hp.
Qed.

(** X5: a text without an ASCII capital letter gives no entity
    candidate and no place name, so a message with that text (its
    channel absent or a string) is answered without a single request,
    and without an exception. *)
Theorem text_without_capitals_costs_no_request
        (fields : list (text * json)) (t : text)
        (llm : LLMGeolocator) (n : nat) :
  (forall x, In x t -> is_upper x = false) ->
  dict_get fields (str "text") = Some (JStr t) ->
  (forall v, dict_get fields (str "channel") = Some v -> exists c, v = JStr c) ->
  extract_location_entities t = []
  /\ extract_place_names t = []
  /\ exists r, process_message (JObj fields) llm n = (Returned r, n, []).
Proof.
  intros H Ht Hch.
  destruct (no_upper_blocks_names t H) as (B1 & B2 & B3 & B4 & B5).
  assert (EL : extract_location_entities t = []).
  { unfold extract_location_entities.
    rewrite (blocked_findall 2 B1), (blocked_findall 2 B2),
      (blocked_findall 1 B3). reflexivity. }
  assert (EP : extract_place_names t = []).
  { unfold extract_place_names.
    rewrite (blocked_findall 1 B3), (blocked_findall 2 B4). simpl.
    apply set_order_nil. }
  split; [exact EL|]. split; [exact EP|].
  destruct (extract_coordinates_returns t (blocked_findall 8 B5)) as (c & Ec).
  assert (Hlook : exists found,
             channel_lookup (match dict_get fields (str "channel") with
                             | Some v => v
                             | None => JStr []
                             end) = Returned found).
  { destruct (dict_get fields (str "channel")) as [v|] eqn:E.
    - destruct (Hch v eq_refl) as (c' & ->). simpl. eauto.
    - simpl. eauto. }
  destruct Hlook as (found & Hlook).
  destruct (channel_step_returns _ new_result n Hlook) as (r0 & Hr0).
  unfold process_message, message_get. rewrite Ht.
  do 3 lift_step. rewrite Ec. lift_step.
  destruct c as [c|]; [unfold ret; eauto|].
  unfold flag_step. destruct (extract_flag_countries t) as [|code rest].
  - unfold entity_step. rewrite EL. unfold place_name_step. rewrite EP.
    destruct (Nat.ltb 10 (List.length t)); eauto.
  - destruct (get_country_centroid code); [unfold ret; eauto|].
    unfold entity_step. rewrite EL. unfold place_name_step. rewrite EP.
    destruct (Nat.ltb 10 (List.length t)); eauto.
Qed.

End TextDecides.

(** ** Requests and delays *)

Section Accounting.
Context {R : PyRuntime} {C : CountryData}.

Lemma requests_app (a b : list event) : requests (a ++ b) = requests a ++ requests b.
Proof. unfold requests. apply flat_map_app. Qed.

Lemma sleeps_app (a b : list event) : sleeps (a ++ b) = sleeps a ++ sleeps b.
Proof. unfold sleeps. apply flat_map_app. Qed.

Lemma geocode_events_requests (self : MapboxGeocoder) (q : text)
      (resp : mapbox_response) :
  requests (geocode_events self q resp) = [q].
Proof. destruct resp; reflexivity. Qed.

Lemma geocode_events_sleeps (self : MapboxGeocoder) (q : text)
      (resp : mapbox_response) :
  sleeps (geocode_events self q resp)
  = match hit_of q resp with
    | Some _ => []
    | None => [rate_limit_delay self]
    end.
Proof. destruct resp; reflexivity. Qed.

Lemma hit_of_not_numeric (q : text) (resp : mapbox_response) h :
  hit_of q resp = Some h -> numeric (hit_relevance h) = false ->
  numeric_reply resp = false.
Proof.
  destruct resp as [| |lo la name [rel|] types]; cbn; try discriminate;
    intros H; inversion H; subst; cbn; auto.
Qed.

(** X8: [geocode_locations] answers the candidates in order, one
    request each.  When it returns there is one result per candidate,
    with the queries of the candidates, and one sleep of the
    rate-limit delay for each result left without coordinates, none
    for the others.  It raises, TypeError or OverflowError, only at a
    candidate whose match carries a relevance that is not a number (or
    is an integer too large for a float), right after the request for
    that candidate and with the candidates after it never requested. *)
Theorem geocode_locations_accounting (llm : LLMGeolocator) (ls : list location) :
  forall n,
    match geocode_locations llm ls n with
    | (Returned rs, n', ev) =>
        n' = n + List.length ls
        /\ Forall2 candidate_result ls rs
        /\ requests ev = List.map loc_query ls
        /\ sleeps ev = repeat (rate_limit_delay (mapbox llm))
                              (List.length (List.filter unlocated rs))
    | (Raised e, n', ev) =>
        (e = TypeError \/ e = OverflowError)
        /\ exists pre l post,
            ls = pre ++ l :: post
            /\ n' = n + List.length pre + 1
            /\ requests ev = List.map loc_query (pre ++ [l])
            /\ numeric_reply (mapbox_get (n + List.length pre) (loc_query l))
               = false
    end.
Proof.
  induction ls as [|l ls IH]; intros n.
  - cbn. rewrite Nat.add_0_r. repeat split. constructor.
  - cbn [geocode_locations]. unfold bind at 1. rewrite geocode_location_eq.
    pose proof (geocode_events_requests (mapbox llm) (loc_query l)
                  (mapbox_get n (loc_query l))) as Hq.
    pose proof (geocode_events_sleeps (mapbox llm) (loc_query l)
                  (mapbox_get n (loc_query l))) as Hsl.
    specialize (IH (S n)).
    assert (K : forall r,
               candidate_result l r ->
               sleeps (geocode_events (mapbox llm) (loc_query l)
                                      (mapbox_get n (loc_query l)))
               = repeat (rate_limit_delay (mapbox llm))
                        (if unlocated r then 1 else 0) ->
               match (let '(r0, n2, ev2) :=
                        (rs <- geocode_locations llm ls ;; ret (r :: rs)) (S n) in
                      (r0, n2,
                       geocode_events (mapbox llm) (loc_query l)
                                      (mapbox_get n (loc_query l)) ++ ev2)) with
               | (Returned rs, n', ev) =>
                   n' = n + List.length (l :: ls)
                   /\ Forall2 candidate_result (l :: ls) rs
                   /\ requests ev = List.map loc_query (l :: ls)
                   /\ sleeps ev = repeat (rate_limit_delay (mapbox llm))
                                         (List.length (List.filter unlocated rs))
               | (Raised e, n', ev) =>
                   (e = TypeError \/ e = OverflowError)
                   /\ exists pre l' post,
                       l :: ls = pre ++ l' :: post
                       /\ n' = n + List.length pre + 1
                       /\ requests ev = List.map loc_query (pre ++ [l'])
                       /\ numeric_reply
                            (mapbox_get (n + List.length pre) (loc_query l'))
                          = false
               end).
    { intros r Hc Hs. unfold bind.
      destruct (geocode_locations llm ls (S n)) as [[[rs|e] n'] ev].
      - destruct IH as (Hn & F & Hr & Hsl').
        cbn [ret]. rewrite app_nil_r.
        split; [cbn [List.length]; lia|].
        split; [constructor; assumption|].
        split; [rewrite requests_app, Hq, Hr; reflexivity|].
        rewrite sleeps_app, Hs, Hsl'. cbn [List.filter].
        destruct (unlocated r); reflexivity.
      - destruct IH as (He & pre & l' & post & Els & Hn & Hr & Hnum).
        split; [exact He|].
        exists (l :: pre), l', post.
        split; [rewrite Els; reflexivity|].
        split; [cbn [List.length]; lia|].
        split; [rewrite requests_app, Hq, Hr; reflexivity|].
        cbn [List.length]. rewrite <- plus_n_Sm. exact Hnum. }
    destruct (hit_of (loc_query l) (mapbox_get n (loc_query l))) as [h|] eqn:Eh.
    + destruct (scale (loc_confidence l) (hit_relevance h)) as [conf|e] eqn:Es.
      * apply K; [left; exists h, conf; auto|].
        rewrite Hsl. reflexivity.
      * apply scale_raises in Es. destruct Es as [Hnum He].
        split; [exact He|].
        exists [], l, ls. cbn [app List.length List.map].
        rewrite Nat.add_0_r.
        split; [reflexivity|]. split; [lia|]. split; [exact Hq|].
        eapply hit_of_not_numeric; eassumption.
    + apply K; [right; reflexivity|]. rewrite Hsl. reflexivity.
Qed.
End Accounting.

Section Budget.
Context {R : PyRuntime} {C : CountryData}.

Lemma costs_ret {A} (a : A) : costs (ret a) 0.
Proof. intros n. simpl. lia. Qed.

Lemma costs_raise {A} (e : exn) : costs (@raise A e) 0.
Proof. intros n. simpl. lia. Qed.

Lemma costs_lift {A} (o : outcome A) : costs (lift o) 0.
Proof. intros n. simpl. lia. Qed.

Lemma costs_weaken {A} (c : Py A) (k k' : nat) :
  k <= k' -> costs c k -> costs c k'.
Proof. intros Hk H n. specialize (H n). lia. Qed.

Lemma costs_bind {A B} (c : Py A) (f : A -> Py B) (k1 k2 : nat) :
  costs c k1 -> (forall a, costs (f a) k2) -> costs (bind c f) (k1 + k2).
Proof.
  intros Hc Hf n. unfold bind. specialize (Hc n).
  destruct (c n) as [[[a|e] n1] ev1]; simpl in *; [|lia].
  specialize (Hf a n1). destruct (f a n1) as [[r n2] ev2]. simpl in *.
  rewrite requests_app, length_app. lia.
Qed.

Lemma costs_geocode (self : MapboxGeocoder) (q : text) : costs (geocode self q) 1.
Proof.
  intros n. rewrite geocode_eq. simpl.
  destruct (mapbox_get n q); simpl; lia.
Qed.

Lemma costs_geocode_locations (llm : LLMGeolocator) (ls : list location) :
  costs (geocode_locations llm ls) (List.length ls).
Proof.
  induction ls as [|l ls IH]; cbn [geocode_locations List.length];
    [apply costs_ret|].
  change (S (List.length ls)) with (1 + List.length ls).
  apply costs_bind.
  - unfold geocode_location. change 1 with (1 + 0). apply costs_bind.
    + apply costs_geocode.
    + intros [h|]; [|apply costs_ret].
      change 0 with (0 + 0). apply costs_bind; [apply costs_lift|].
      intros conf. apply costs_ret.
  - intros r. rewrite <- (Nat.add_0_r (List.length ls)). apply costs_bind.
    + exact IH.
    + intros rs. apply costs_ret.
Qed.

Lemma costs_channel_step channel result : costs (channel_step channel result) 0.
Proof.
  unfold channel_step. change 0 with (0 + 0). apply costs_bind.
  - apply costs_lift.
  - intros [code|]; [destruct (get_country_centroid code)|]; apply costs_ret.
Qed.

Lemma costs_place_name_step llm t channel result :
  costs (place_name_step llm t channel result) 1.
Proof.
  unfold place_name_step. destruct (extract_place_names t).
  - eapply costs_weaken; [|apply costs_channel_step]. lia.
  - change 1 with (1 + 0). apply costs_bind; [apply costs_geocode|].
    intros [h|]; [apply costs_ret|apply costs_channel_step].
Qed.

(** The requests the entity and place-name steps may issue for a text. *)
Lemma costs_entity_step llm t channel result :
  costs (entity_step llm t channel result)
        (if Nat.ltb 10 (List.length t)
         then List.length (extract_location_entities t) + 1 else 1).
Proof.
  unfold entity_step. destruct (Nat.ltb 10 (List.length t));
    [|apply costs_place_name_step].
  destruct (extract_location_entities t) as [|l0 ls] eqn:E;
    [apply costs_place_name_step|].
  apply costs_bind; [apply costs_geocode_locations|].
  intros [|first others]; [eapply costs_weaken; [|apply costs_raise]; lia|].
  cbv zeta. destruct (PrimFloat.ltb _ _).
  - eapply costs_weaken; [|apply costs_ret]. lia.
  - apply costs_place_name_step.
Qed.

(** X7: a message costs at most one request per entity candidate of its
    text plus one for the place-name fallback, and at most one request
    when its text has ten characters or fewer; whatever the outcome,
    the number of requests issued is the number of Request events. *)
Theorem process_message_request_budget
        (fields : list (text * json)) (t : text)
        (llm : LLMGeolocator) (n : nat) :
  dict_get fields (str "text") = Some (JStr t) ->
  let '(_, n', ev) := process_message (JObj fields) llm n in
  n <= n'
  /\ n' <= n + (if Nat.ltb 10 (List.length t)
                then List.length (extract_location_entities t) + 1 else 1)
  /\ List.length (requests ev) + n = n'.
Proof.
  intros Ht. unfold process_message, message_get. rewrite Ht. do 3 lift_step.
  match goal with
  | |- context [bind ?c ?k n] =>
      assert (K : costs (bind c k)
                        (0 + (if Nat.ltb 10 (List.length t)
                              then List.length (extract_location_entities t) + 1
                              else 1)))
  end.
  { apply costs_bind; [apply costs_lift|].
    intros [c|]; [eapply costs_weaken; [|apply costs_ret]; lia|].
    unfold flag_step. destruct (extract_flag_countries t) as [|code rest];
      [apply costs_entity_step|].
    destruct (get_country_centroid code); [|apply costs_entity_step].
    eapply costs_weaken; [|apply costs_ret]. lia. }
  specialize (K n).
  destruct (bind _ _ n) as [[o n'] ev]. simpl in K. lia.
Qed.
End Budget.

(** ** How a message fails *)

Section Failures.
Context {R : PyRuntime} {C : CountryData}.
Local Open Scope float_scope.

(** [geocode_locations] raises only on the product, right after the
    request whose match carries a relevance that is not numeric. *)
Lemma geocode_locations_raises (llm : LLMGeolocator) (ls : list location) :
  forall n e n' ev,
    geocode_locations llm ls n = (Raised e, n', ev) ->
    (e = TypeError \/ e = OverflowError) /\ (n < n')%nat
    /\ exists q, numeric_reply (mapbox_get (pred n') q) = false.
Proof.
  induction ls as [|l ls IH]; intros n e n' ev; [discriminate|].
  cbn [geocode_locations]. unfold bind at 1. rewrite geocode_location_eq.
  assert (K : forall r,
             (let '(r0, n2, ev2) :=
                (rs <- geocode_locations llm ls ;; ret (r :: rs)) (S n) in
              (r0, n2,
               geocode_events (mapbox llm) (loc_query l)
                              (mapbox_get n (loc_query l)) ++ ev2))
             = (Raised e, n', ev) ->
             (e = TypeError \/ e = OverflowError) /\ (n < n')%nat
             /\ exists q, numeric_reply (mapbox_get (pred n') q) = false).
  { intros r. unfold bind.
    destruct (geocode_locations llm ls (S n)) as [[[rs|e0] n0] ev0] eqn:G;
      [discriminate|].
    intros H. inversion H; subst.
    destruct (IH _ _ _ _ G) as (He & Hn & Hq).
    split; [exact He|]. split; [lia|exact Hq]. }
  destruct (hit_of (loc_query l) (mapbox_get n (loc_query l))) as [h|] eqn:Eh;
    [|apply K].
  destruct (scale (loc_confidence l) (hit_relevance h)) as [conf|e0] eqn:Es;
    [apply K|].
  intros H. inversion H; subst. apply scale_raises in Es.
  destruct Es as [Hnum He]. split; [exact He|]. split; [lia|].
  exists (loc_query l). cbn [pred]. eapply hit_of_not_numeric; eassumption.
Qed.

Lemma place_name_step_never_raises llm t channel found result n e n' ev :
  channel_lookup channel = Returned found ->
  place_name_step llm t channel result n <> (Raised e, n', ev).
Proof.
  intros Hl H.
  destruct (place_name_step_returns llm t channel result n Hl)
    as (r & m & ev' & Hr).
  rewrite Hr in H. discriminate.
Qed.

Lemma entity_step_raises llm t channel found result n e n' ev :
  channel_lookup channel = Returned found ->
  entity_step llm t channel result n = (Raised e, n', ev) ->
  (e = TypeError \/ e = OverflowError) /\ (n < n')%nat
  /\ exists q, numeric_reply (mapbox_get (pred n') q) = false.
Proof.
  intros Hl. unfold entity_step.
  destruct (Nat.ltb 10 (List.length t));
    [|intros H; exfalso; eapply place_name_step_never_raises; eassumption].
  destruct (extract_location_entities t) as [|l0 ls];
    [intros H; exfalso; eapply place_name_step_never_raises; eassumption|].
  unfold bind.
  destruct (geocode_locations llm (l0 :: ls) n) as [[[rs|e0] n0] ev0] eqn:G.
  - pose proof (geocode_locations_spec _ _ _ G) as F.
    inversion F as [|? first ? others]; subst.
    destruct (0.3 <? confidence (max_by confidence first others)).
    + discriminate.
    + destruct (place_name_step_returns llm t channel result n0 Hl)
        as (r & m & ev' & Hr).
      rewrite Hr. discriminate.
  - intros H. inversion H; subst. eapply geocode_locations_raises. exact G.
Qed.

(** X6: how [process_message] fails.  A decoded value that is not an
    object raises AttributeError and a text that is not a string raises
    TypeError, both before anything is done.  With a text that is a
    string (or absent) and a channel that is a string (or absent), an
    exception is either OverflowError, raised by the coordinate
    extraction before any request, or TypeError or OverflowError,
    raised in the entity stage right after a request whose match
    carries a relevance that is not a number (or is an integer too
    large for a float); when every match carries a numeric relevance
    only the first is left. *)
Theorem process_message_failures (llm : LLMGeolocator) (n : nat) :
  (forall message,
      (forall fields, message <> JObj fields) ->
      process_message message llm n = (Raised AttributeError, n, []))
  /\ (forall fields v,
         dict_get fields (str "text") = Some v ->
         (forall t, v <> JStr t) ->
         process_message (JObj fields) llm n = (Raised TypeError, n, []))
  /\ (forall fields e n' ev,
         (forall v, dict_get fields (str "text") = Some v -> exists t, v = JStr t) ->
         (forall v, dict_get fields (str "channel") = Some v -> exists c, v = JStr c) ->
         process_message (JObj fields) llm n = (Raised e, n', ev) ->
         (e = OverflowError /\ n' = n /\ ev = [])
         \/ ((e = TypeError \/ e = OverflowError) /\ (n < n')%nat
             /\ exists q, numeric_reply (mapbox_get (pred n') q) = false))
  /\ (numeric_replies ->
      forall fields e n' ev,
        (forall v, dict_get fields (str "text") = Some v -> exists t, v = JStr t) ->
        (forall v, dict_get fields (str "channel") = Some v -> exists c, v = JStr c) ->
        process_message (JObj fields) llm n = (Raised e, n', ev) ->
        e = OverflowError /\ n' = n /\ ev = []).
Proof.
  assert (Third : forall fields e n' ev,
             (forall v, dict_get fields (str "text") = Some v ->
                        exists t, v = JStr t) ->
             (forall v, dict_get fields (str "channel") = Some v ->
                        exists c, v = JStr c) ->
             process_message (JObj fields) llm n = (Raised e, n', ev) ->
             (e = OverflowError /\ n' = n /\ ev = [])
             \/ ((e = TypeError \/ e = OverflowError) /\ (n < n')%nat
                 /\ exists q, numeric_reply (mapbox_get (pred n') q) = false)).
  { intros fields e n' ev Htxt Hch.
    assert (Hlook : exists found,
               channel_lookup (match dict_get fields (str "channel") with
                               | Some v => v
                               | None => JStr []
                               end) = Returned found).
    { destruct (dict_get fields (str "channel")) as [v|] eqn:E.
      - destruct (Hch v eq_refl) as (c' & ->). simpl. eauto.
      - simpl. eauto. }
    destruct Hlook as (found & Hlook).
    assert (Ht : exists t, match dict_get fields (str "text") with
                           | Some v => v
                           | None => JStr []
                           end = JStr t).
    { destruct (dict_get fields (str "text")) as [v|] eqn:E; [|eauto].
      destruct (Htxt v eq_refl) as (t & ->). eauto. }
    destruct Ht as (t & Ht).
    unfold process_message, message_get. rewrite Ht.
    do 3 lift_step.
    destruct (extract_coordinates t) as [c|e'] eqn:Ec.
    - lift_step. destruct c as [c|]; [discriminate|].
      unfold flag_step.
      destruct (extract_flag_countries t) as [|code rest].
      + intros H. right. eapply entity_step_raises; eassumption.
      + destruct (get_country_centroid code); [discriminate|].
        intros H. right. eapply entity_step_raises; eassumption.
    - apply try_patterns_raises in Ec. subst e'.
      intros H. inversion H. left. auto. }
  split; [|split; [|split]].
  - intros message H. destruct message; try reflexivity.
    exfalso. eapply H. reflexivity.
  - intros fields v Ht Hv. unfold process_message, message_get. rewrite Ht.
    do 2 lift_step. destruct v; try reflexivity.
    exfalso. eapply Hv. reflexivity.
  - exact Third.
  - intros Hnum fields e n' ev Htxt Hch H.
    destruct (Third fields e n' ev Htxt Hch H) as [D|(_ & _ & q & Hq)];
      [exact D|].
    rewrite (Hnum (pred n') q) in Hq. discriminate.
Qed.
End Failures.

(** ** The scorer *)

Lemma prefix_inv (p s : string) :
  String.prefix p s = true -> exists rest, s = (p ++ rest)%string.
Proof.
  revert s. induction p as [|a p IH]; intros s H.
  - exists s. reflexivity.
  - destruct s as [|b s]; simpl in H; [discriminate|].
    destruct (ascii_dec a b) as [<-|]; [|discriminate].
    destruct (IH s H) as (rest & ->). exists rest. reflexivity.
Qed.

(** A source starts with at most one of the five prefixes the scorer
    tests. *)
Lemma source_class (s : string) :
  exists b1 b2 b3 b4 b5,
    String.prefix "coordinates" s = b1 /\ String.prefix "flag" s = b2
    /\ String.prefix "llm_geocoding" s = b3
    /\ String.prefix "country_centroid" s = b4
    /\ String.prefix "channel_fallback" s = b5
    /\ In (b1, b2, b3, b4, b5)
          [(true, false, false, false, false);
           (false, true, false, false, false);
           (false, false, true, false, false);
           (false, false, false, true, false);
           (false, false, false, false, true);
           (false, false, false, false, false)].
Proof.
  destruct (String.prefix "coordinates" s) eqn:E1.
  { destruct (prefix_inv _ _ E1) as (rest & ->).
    exists true, false, false, false, false. repeat (split; [reflexivity|]).
    repeat (first [left; reflexivity | right]). }
  destruct (String.prefix "flag" s) eqn:E2.
  { destruct (prefix_inv _ _ E2) as (rest & ->).
    exists false, true, false, false, false. repeat (split; [reflexivity|]).
    repeat (first [left; reflexivity | right]). }
  destruct (String.prefix "llm_geocoding" s) eqn:E3.
  { destruct (prefix_inv _ _ E3) as (rest & ->).
    exists false, false, true, false, false. repeat (split; [reflexivity|]).
    repeat (first [left; reflexivity | right]). }
  destruct (String.prefix "country_centroid" s) eqn:E4.
  { destruct (prefix_inv _ _ E4) as (rest & ->).
    exists false, false, false, true, false. repeat (split; [reflexivity|]).
    repeat (first [left; reflexivity | right]). }
  destruct (String.prefix "channel_fallback" s) eqn:E5.
  { exists false, false, false, false, true. repeat (split; [reflexivity|]).
    repeat (first [left; reflexivity | right]). }
  exists false, false, false, false, false. repeat (split; [reflexivity|]).
  repeat (first [left; reflexivity | right]).
Qed.

Section Scorer.
Local Open Scope float_scope.

Lemma boost_idempotent (a c : float) :
  (a <? a) = false -> (1 <? a) = false ->
  py_min (py_max (py_min (py_max c a) 1) a) 1 = py_min (py_max c a) 1.
Proof.
  intros Ha H1a. unfold py_max, py_min.
  destruct (c <? a) eqn:E1.
  - rewrite H1a, Ha, H1a. reflexivity.
  - destruct (1 <? c) eqn:E2.
    + rewrite H1a. reflexivity.
    + rewrite E1, E2. reflexivity.
Qed.

Lemma cap_idempotent (b c : float) :
  (b <? b) = false -> (1 <? b) = false -> (b <? 1) = true ->
  py_min (py_min (py_min (py_min c b) 1) b) 1 = py_min (py_min c b) 1.
Proof.
  intros Hbb H1b Hb1. unfold py_min.
  destruct (b <? c) eqn:E1.
  - rewrite H1b, Hbb, H1b. reflexivity.
  - destruct (1 <? c) eqn:E2.
    + pose proof (flt_le_trans Hb1 (flt_le E2)). congruence.
    + rewrite E1, E2. reflexivity.
Qed.

Lemma clamp_idempotent (c : float) :
  py_min (py_min c 1) 1 = py_min c 1.
Proof.
  unfold py_min. destruct (1 <? c) eqn:E; [reflexivity|]. rewrite E. reflexivity.
Qed.

(** X9: the score never exceeds 1.0, and scoring is idempotent: a
    result whose confidence has been replaced by its score is scored
    the same again, whatever its source. *)
Theorem score_is_capped_and_idempotent (r : GeolocationResult) :
  (1 <? calculate_confidence_score r) = false
  /\ calculate_confidence_score
       (with_confidence r (calculate_confidence_score r))
     = calculate_confidence_score r.
Proof.
  split.
  - unfold calculate_confidence_score.
    match goal with |- (1 <? py_min ?b 1) = false => generalize b end.
    intros b. unfold py_min. destruct (1 <? b) eqn:E; [reflexivity|exact E].
  - destruct r as [la lo cc c s pn ga].
    unfold with_confidence. cbn [lat lon country_code source place_name
                                 geocoding_attempts].
    assert (S : forall f : float -> float,
               (forall c', calculate_confidence_score
                             (mkResult la lo cc c' s pn ga) = f c') ->
               f (f c) = f c ->
               calculate_confidence_score
                 (mkResult la lo cc
                           (calculate_confidence_score
                              (mkResult la lo cc c s pn ga)) s pn ga)
               = calculate_confidence_score (mkResult la lo cc c s pn ga)).
    { intros f Hf Hi. rewrite !Hf. exact Hi. }
    destruct (source_class s)
      as (b1 & b2 & b3 & b4 & b5 & E1 & E2 & E3 & E4 & E5 & H).
    simpl in H.
    destruct H as [H|[H|[H|[H|[H|[H|[]]]]]]];
      injection H as <- <- <- <- <-.
    + apply (S (fun c' => py_min (py_max c' 0.95) 1)).
      * intros c'. unfold calculate_confidence_score, startswith.
        cbn [source confidence]. rewrite E1, E2, E3, E4, E5. reflexivity.
      * apply boost_idempotent; reflexivity.
    + apply (S (fun c' => py_min (py_max c' 0.85) 1)).
      * intros c'. unfold calculate_confidence_score, startswith.
        cbn [source confidence]. rewrite E1, E2, E3, E4, E5. reflexivity.
      * apply boost_idempotent; reflexivity.
    + apply (S (fun c' => py_min (py_max c' 0.7) 1)).
      * intros c'. unfold calculate_confidence_score, startswith.
        cbn [source confidence]. rewrite E1, E2, E3, E4, E5. reflexivity.
      * apply boost_idempotent; reflexivity.
    + apply (S (fun c' => py_min (py_min c' 0.5) 1)).
      * intros c'. unfold calculate_confidence_score, startswith.
        cbn [source confidence]. rewrite E1, E2, E3, E4, E5. reflexivity.
      * apply cap_idempotent; reflexivity.
    + apply (S (fun c' => py_min (py_min c' 0.3) 1)).
      * intros c'. unfold calculate_confidence_score, startswith.
        cbn [source confidence]. rewrite E1, E2, E3, E4, E5. reflexivity.
      * apply cap_idempotent; reflexivity.
    + apply (S (fun c' => py_min c' 1)).
      * intros c'. unfold calculate_confidence_score, startswith.
        cbn [source confidence]. rewrite E1, E2, E3, E4, E5. reflexivity.
      * apply clamp_idempotent.
Qed.
End Scorer.

(** ** Flags and the country data *)

Lemma starts_with_spec (needle hay : text) :
  starts_with needle hay = true <-> exists post, hay = needle ++ post.
Proof.
  revert hay. induction needle as [|x needle IH]; intros hay; simpl.
  - split; [intros _; exists hay; reflexivity|reflexivity].
  - destruct hay as [|y hay].
    + split; [discriminate|]. intros [post H]. discriminate.
    + rewrite andb_true_iff, N.eqb_eq, IH. split.
      * intros [<- [post ->]]. exists post. reflexivity.
      * intros [post H]. inversion H. split; [reflexivity|]. exists post.
        reflexivity.
Qed.

(** [needle in hay] holds exactly when the needle occurs in the hay. *)
Lemma contains_spec (needle hay : text) :
  contains needle hay = true <-> exists pre post, hay = pre ++ needle ++ post.
Proof.
  induction hay as [|y hay IH].
  - simpl. rewrite orb_false_r, starts_with_spec. split.
    + intros [post H]. exists [], post. exact H.
    + intros (pre & post & H). destruct pre; [exists post; exact H|discriminate].
  - cbn [contains]. rewrite orb_true_iff, starts_with_spec, IH. split.
    + intros [[post H]|(pre & post & H)].
      * exists [], post. exact H.
      * exists (y :: pre), post. rewrite H. reflexivity.
    + intros (pre & post & H). destruct pre as [|z pre].
      * left. exists post. exact H.
      * right. inversion H. exists pre, post. reflexivity.
Qed.

Section Flags.
Context {R : PyRuntime} {C : CountryData}.

(** X10: a country code is reported exactly when a flag mapped to it
    occurs somewhere in the text, and two texts in which the same flags
    of the mapping occur give the same list: the order of the codes,
    and so the flag that wins, follows the mapping and not the
    text. *)
Theorem flags_follow_the_mapping (t t' : text) :
  (forall code,
      In code (extract_flag_countries t)
      <-> exists flag pre post,
          In (flag, code) FLAG_TO_COUNTRY /\ t = pre ++ flag ++ post)
  /\ ((forall flag code, In (flag, code) FLAG_TO_COUNTRY ->
                         contains flag t = contains flag t') ->
      extract_flag_countries t = extract_flag_countries t').
Proof.
  unfold extract_flag_countries. split.
  - intros code. rewrite in_map_iff. split.
    + intros ([flag code'] & Hc & Hin). simpl in Hc. subst code'.
      apply filter_In in Hin. destruct Hin as [Hin Hcon]. simpl in Hcon.
      apply contains_spec in Hcon. destruct Hcon as (pre & post & ->).
      exists flag, pre, post. auto.
    + intros (flag & pre & post & Hin & ->). exists (flag, code).
      split; [reflexivity|]. apply filter_In. split; [exact Hin|].
      simpl. apply contains_spec. exists pre, post. reflexivity.
  - intros H. f_equal. apply filter_ext_in. intros [flag code] Hin.
    simpl. apply (H flag code Hin).
Qed.

(** X11: when [countries.yml] is missing or cannot be loaded the module
    logs an error and goes on with two empty mappings, and then no
    message gets a flag or channel-fallback result, nor a country
    code. *)
Theorem missing_country_data_disables_flags_and_channels
        (f : yaml_read) (message : json) (llm : LLMGeolocator) (n n' : nat)
        (r : GeolocationResult) (ev : list event) :
  f = FileNotFound \/ f = LoadFailed ->
  process_message (C := loaded_countries f) message llm n = (Returned r, n', ev) ->
  (exists what, snd (load_country_data f) = [LogError what])
  /\ source r <> "flag_emoji"%string
  /\ source r <> "channel_fallback"%string
  /\ country_code r = None.
Proof.
  intros Hf H. split.
  { destruct Hf as [-> | ->]; eexists; reflexivity. }
  apply process_message_produced in H.
  destruct H as [la lo Hb|code la lo Hc|l h conf Hs T|first h|code la lo Hc|];
    cbn [source country_code];
    try (repeat split; first [discriminate | reflexivity]).
  - destruct Hf as [-> | ->]; discriminate.
  - destruct Hf as [-> | ->]; discriminate.
Qed.
End Flags.

(** ** Counters and files *)

Lemma text_eqb_eq (a b : text) : text_eqb a b = true -> a = b.
Proof.
  revert b. induction a as [|x a IH]; intros [|y b]; simpl; try discriminate.
  - reflexivity.
  - rewrite andb_true_iff, N.eqb_eq. intros [-> H]. f_equal. apply IH. exact H.
Qed.

(** A successful lookup finds one of the keys. *)
Lemma dict_get_key {V : Type} (d : list (text * V)) (k : text) (v : V) :
  dict_get d k = Some v -> In k (List.map fst d).
Proof.
  induction d as [|[k' v'] d IH]; simpl; [discriminate|].
  destruct (text_eqb k k') eqn:E.
  - intros _. left. symmetry. apply text_eqb_eq. exact E.
  - intros H. right. apply IH. exact H.
Qed.

Lemma text_eqb_refl (a : text) : text_eqb a a = true.
Proof.
  induction a as [|x a IH]; [reflexivity|]. simpl. rewrite N.eqb_refl. exact IH.
Qed.

Lemma text_eqb_neq (a b : text) : a <> b -> text_eqb a b = false.
Proof.
  intros H. destruct (text_eqb a b) eqn:E; [|reflexivity].
  apply text_eqb_eq in E. contradiction.
Qed.

(** Reading a dict after an assignment. *)
Lemma dict_get_set_same (d : list (text * json)) (k : text) (v : json) :
  dict_get (dict_set d k v) k = Some v.
Proof.
  induction d as [|[k' v'] d IH]; cbn [dict_set dict_get].
  - rewrite text_eqb_refl. reflexivity.
  - destruct (text_eqb k k') eqn:E; cbn [dict_get]; rewrite E; auto.
Qed.

Lemma dict_get_set_other (d : list (text * json)) (k k2 : text) (v : json) :
  k2 <> k -> dict_get (dict_set d k v) k2 = dict_get d k2.
Proof.
  intros H. induction d as [|[k' v'] d IH]; cbn [dict_set dict_get].
  - rewrite (text_eqb_neq H). reflexivity.
  - destruct (text_eqb k k') eqn:E; cbn [dict_get].
    + apply text_eqb_eq in E. subst k'. rewrite (text_eqb_neq H). reflexivity.
    + destruct (text_eqb k2 k'); auto.
Qed.

(** The dict written holds the result, the time and the version tag
    under the three keys, whatever the message held there, and under
    every other key what the message held. *)
Lemma enhanced_fields (fields : list (text * json)) (r : GeolocationResult)
      (ts : text) :
  json_path (enhanced fields r ts) [str "geolocation"] = Some (result_dict r)
  /\ json_path (enhanced fields r ts) [str "processed_at"] = Some (JStr ts)
  /\ json_path (enhanced fields r ts) [str "processing_version"]
     = Some (JStr (str "enhanced_v1"))
  /\ forall k, ~ In k set_keys ->
                json_path (enhanced fields r ts) [k] = dict_get fields k.
Proof.
  unfold enhanced. cbn [json_path].
  repeat split.
  - rewrite dict_get_set_other by discriminate.
    rewrite dict_get_set_other by discriminate.
    rewrite dict_get_set_same. reflexivity.
  - rewrite dict_get_set_other by discriminate.
    rewrite dict_get_set_same. reflexivity.
  - rewrite dict_get_set_same. reflexivity.
  - intros k Hk.
    assert (H1 : k <> str "geolocation") by (intros ->; apply Hk; simpl; auto).
    assert (H2 : k <> str "processed_at") by (intros ->; apply Hk; simpl; auto).
    assert (H3 : k <> str "processing_version")
      by (intros ->; apply Hk; simpl; auto).
    rewrite !dict_get_set_other by assumption.
    destruct (dict_get fields k); reflexivity.
Qed.

Section Counters.
Context {R : PyRuntime} {C : CountryData}.

(** What the dicts a line writes owe to the line. *)
Lemma process_line_counts llm line p g n :
  exists p' g' n' ev recs,
    process_line llm line (p, g) n = (Returned (p', g'), n', ev)
    /\ written ev = List.map record_json recs
    /\ p' = p + List.length recs
    /\ g' = g + List.length (List.filter (fun w => counted (rec_result w)) recs)
    /\ Forall (comes_from llm [line]) recs.
Proof.
  unfold process_line. destruct (json_loads (strip line)) as [message|] eqn:D.
  - pose proof (quiet_process_message message llm n) as W.
    destruct (process_message message llm n) as [[[geo|e] n'] ev] eqn:P;
      simpl in W.
    + destruct message as [| | | | |fields];
        try (exists p, g, n', (ev ++ [LogError "Error processing message"]), [];
             split; [reflexivity|];
             rewrite written_app, W; simpl;
             repeat split; try lia; constructor).
      cbv zeta.
      destruct (json_encodable (enhanced fields geo (utcnow_isoformat p))) eqn:E.
      * eexists; eexists; eexists; eexists.
        exists [mkWritten fields geo (utcnow_isoformat p)].
        split; [reflexivity|].
        rewrite written_app, W. cbn [written flat_map app List.map List.length
                                      List.filter rec_result].
        split; [reflexivity|]. split; [lia|].
        unfold counted at 1.
        split; [destruct (truthy (lat geo) && truthy (lon geo)); simpl; lia|].
        constructor; [|constructor].
        split; [exists line; split; [left; reflexivity|exact D]|].
        split; [exists n, n', ev; exact P|exact E].
      * exists p, g, n', (ev ++ [LogError "Error processing message"]), [].
        split; [reflexivity|].
        rewrite written_app, W; simpl. repeat split; try lia. constructor.
    + exists p, g, n', (ev ++ [LogError "Error processing message"]), [].
      split; [reflexivity|].
      rewrite written_app, W; simpl. repeat split; try lia. constructor.
  - exists p, g, n, [rejected_line_event line], []. split; [reflexivity|].
    unfold rejected_line_event. destruct (json_syntax_error _);
      simpl; repeat split; try lia; constructor.
Qed.

Lemma comes_from_incl llm (l1 l2 : list text) w :
  (forall x, In x l1 -> In x l2) -> comes_from llm l1 w -> comes_from llm l2 w.
Proof.
  intros Hi ((line & Hl & Hd) & H). split; [|exact H].
  exists line. split; [apply Hi; exact Hl|exact Hd].
Qed.

Lemma process_lines_counts llm lines : forall p g n,
  exists p' g' n' ev recs,
    process_lines llm lines (p, g) n = (Returned (p', g'), n', ev)
    /\ written ev = List.map record_json recs
    /\ p' = p + List.length recs
    /\ g' = g + List.length (List.filter (fun w => counted (rec_result w)) recs)
    /\ Forall (comes_from llm lines) recs.
Proof.
  induction lines as [|line lines IH]; intros p g n.
  - exists p, g, n, [], []. split; [reflexivity|]. simpl.
    repeat split; try lia. constructor.
  - destruct (process_line_counts llm line p g n)
      as (p1 & g1 & n1 & ev1 & recs1 & H1 & W1 & Ep1 & Eg1 & F1).
    destruct (IH p1 g1 n1)
      as (p2 & g2 & n2 & ev2 & recs2 & H2 & W2 & Ep2 & Eg2 & F2).
    exists p2, g2, n2, (ev1 ++ ev2), (recs1 ++ recs2). split.
    + cbn [process_lines]. unfold bind. rewrite H1, H2. reflexivity.
    + rewrite written_app, W1, W2, map_app, filter_app, !length_app.
      split; [reflexivity|]. split; [lia|]. split; [lia|].
      apply Forall_app. split.
      * eapply Forall_impl; [|exact F1]. intros w. apply comes_from_incl.
        intros x [<-|[]]. left. reflexivity.
      * eapply Forall_impl; [|exact F2]. intros w. apply comes_from_incl.
        intros x Hx. right. exact Hx.
Qed.

(** The loop on two lists of lines, one after the other. *)
Lemma process_lines_split llm (l1 l2 : list text) : forall p g n,
  exists p1 g1 n1 ev1,
    process_lines llm l1 (p, g) n = (Returned (p1, g1), n1, ev1)
    /\ process_lines llm (l1 ++ l2) (p, g) n
       = (let '(r, n2, ev2) := process_lines llm l2 (p1, g1) n1 in
          (r, n2, ev1 ++ ev2)).
Proof.
  induction l1 as [|line l1 IH]; intros p g n.
  - exists p, g, n, []. split; [reflexivity|].
    cbn [app]. destruct (process_lines llm l2 (p, g) n) as [[r n2] ev2].
    reflexivity.
  - destruct (process_line_returns llm line p g n)
      as (p0 & g0 & n0 & ev0 & H0 & _).
    destruct (IH p0 g0 n0) as (p1 & g1 & n1 & ev1 & H1 & H2).
    exists p1, g1, n1, (ev0 ++ ev1). split.
    + cbn [process_lines]. unfold bind. rewrite H0, H1. reflexivity.
    + cbn [app process_lines]. unfold bind. rewrite H0, H2.
      destruct (process_lines llm l2 (p1, g1) n1) as [[r n2] ev2].
      rewrite app_assoc. reflexivity.
Qed.

(** A line that decodes to an object on which [process_message]
    returns, at the point the loop has reached, a result whose dump
    can be encoded, is written. *)
Lemma process_lines_writes llm (before after : list text) (line : text)
      (fields : list (text * json)) p g n :
  json_loads (strip line) = Some (JObj fields) ->
  exists p1 g1 n1 ev1,
    process_lines llm before (p, g) n = (Returned (p1, g1), n1, ev1)
    /\ forall r n2 ev,
        process_message (JObj fields) llm n1 = (Returned r, n2, ev) ->
        json_encodable (enhanced fields r (utcnow_isoformat p1)) = true ->
        In (enhanced fields r (utcnow_isoformat p1))
           (written (snd (process_lines llm (before ++ line :: after) (p, g) n))).
Proof.
  intros D.
  destruct (process_lines_split llm before (line :: after) p g n)
    as (p1 & g1 & n1 & ev1 & H1 & H2).
  exists p1, g1, n1, ev1. split; [exact H1|].
  intros r n2 ev P E. rewrite H2.
  cbn [process_lines]. unfold bind at 1. unfold process_line.
  rewrite D, P. cbv zeta. rewrite E.
  destruct (process_lines llm after _ n2) as [[r3 n3] ev3].
  cbn [snd]. rewrite !written_app. apply in_or_app. right.
  apply in_or_app. left. apply in_or_app. right. left. reflexivity.
Qed.

(** X12: [process_file] returns its two counters, or raises
    UnicodeDecodeError when the reading of the input fails, or
    ZeroDivisionError when the input was read to its end and nothing
    was written.  When it returns, the first counter is the number of
    dicts written (at least one) and the second the number of those
    whose result has a latitude and a longitude both set and both
    different from zero; every dict written is made from the object a
    line of the input decodes to and the result [process_message]
    returns for it, and no string in it holds a surrogate.  And,
    whatever the outcome for the file, a line that decodes to an
    object is written whenever [process_message], at the point the
    loop has reached, returns for it a result whose dump can be
    encoded. *)
Theorem process_file_counters (f : infile) (token : text) (n : nat) :
  match process_file f token n with
  | (Returned (p, g), _, ev) =>
      file_undecodable f = false
      /\ exists recs,
          written ev = List.map record_json recs
          /\ p = List.length recs /\ 0 < p
          /\ g = List.length (List.filter (fun w => counted (rec_result w)) recs)
          /\ g <= p
          /\ Forall (comes_from (LLMGeolocator_init token) (file_lines f)) recs
  | (Raised e, _, ev) =>
      (e = UnicodeDecodeError /\ file_undecodable f = true)
      \/ (e = ZeroDivisionError /\ file_undecodable f = false
          /\ written ev = [])
  end
  /\ forall before line after fields,
      file_lines f = before ++ line :: after ->
      json_loads (strip line) = Some (JObj fields) ->
      exists p1 g1 n1 ev1,
        process_lines (LLMGeolocator_init token) before (0, 0) n
        = (Returned (p1, g1), n1, ev1)
        /\ forall r n2 ev,
            process_message (JObj fields) (LLMGeolocator_init token) n1
            = (Returned r, n2, ev) ->
            json_encodable (enhanced fields r (utcnow_isoformat p1)) = true ->
            In (enhanced fields r (utcnow_isoformat p1))
               (written (snd (process_file f token n))).
Proof.
  split.
  - unfold process_file.
    destruct (process_lines_counts (LLMGeolocator_init token) (file_lines f) 0 0 n)
      as (p & g & n' & ev & recs & H & W & Ep & Eg & F).
    unfold bind at 1. rewrite H. cbn [fst]. simpl in Ep, Eg.
    destruct (file_undecodable f); [left; cbn [raise]; auto|].
    destruct p as [|p].
    + cbn [raise]. right. split; [reflexivity|]. split; [reflexivity|].
      rewrite app_nil_r, W. destruct recs; [reflexivity|discriminate].
    + unfold bind, emit, ret. cbn [app].
      split; [reflexivity|]. exists recs.
      rewrite written_app. cbn [written flat_map]. rewrite app_nil_r.
      split; [exact W|]. split; [exact Ep|]. split; [lia|]. split; [exact Eg|].
      split; [|exact F]. rewrite Eg, Ep. apply filter_length_le.
  - intros before line after fields Hl D.
    destruct (process_lines_writes (LLMGeolocator_init token) before after line
                0 0 n D) as (p1 & g1 & n1 & ev1 & H1 & Hw).
    exists p1, g1, n1, ev1. split; [exact H1|].
    intros r n2 ev P E. specialize (Hw r n2 ev P E).
    unfold process_file. rewrite Hl.
    destruct (process_lines_returns (LLMGeolocator_init token)
                (before ++ line :: after) 0 0 n)
      as (p & g & n' & ev' & H & _).
    unfold bind at 1. rewrite H in *. cbn [snd fst] in *.
    destruct (file_undecodable f); [cbn [raise snd]; rewrite app_nil_r; exact Hw|].
    destruct p as [|p].
    + cbn [raise snd]. rewrite app_nil_r. exact Hw.
    + unfold bind, emit, ret. cbn [app snd]. rewrite written_app.
      apply in_or_app. left. exact Hw.
Qed.
End Counters.

Section Runs.
Context {R : PyRuntime} {C : CountryData}.

Lemma process_lines_all_bad llm lines :
  (forall line, In line lines -> json_loads (strip line) = None) ->
  forall counts n,
    process_lines llm lines counts n
    = (Returned counts, n, List.map rejected_line_event lines).
Proof.
  induction lines as [|line lines IH]; intros Hbad counts n.
  - reflexivity.
  - cbn [process_lines List.map]. unfold bind.
    rewrite (process_line_malformed llm line counts n (Hbad line (or_introl eq_refl))).
    rewrite (IH (fun l Hl => Hbad l (or_intror Hl)) counts n). reflexivity.
Qed.

(** A file without a line that decodes: every line is skipped and
    logged, and the call raises. *)
Lemma process_file_all_bad f token n :
  (forall line, In line (file_lines f) -> json_loads (strip line) = None) ->
  process_file f token n
  = (Raised (if file_undecodable f then UnicodeDecodeError else ZeroDivisionError),
     n, List.map rejected_line_event (file_lines f)).
Proof.
  intros Hbad. unfold process_file. unfold bind.
  rewrite (process_lines_all_bad (LLMGeolocator_init token) (file_lines f) Hbad).
  cbn [fst]. destruct (file_undecodable f); cbn [raise]; rewrite app_nil_r;
    reflexivity.
Qed.

(** A file whose reading fails: the call raises, whatever was read. *)
Lemma process_file_undecodable f token n :
  file_undecodable f = true ->
  exists n' ev, process_file f token n = (Raised UnicodeDecodeError, n', ev).
Proof.
  intros Hu. unfold process_file.
  destruct (process_lines_returns (LLMGeolocator_init token) (file_lines f) 0 0 n)
    as (p & g & n' & ev & H & _).
  unfold bind. rewrite H, Hu. cbn [raise]. eauto.
Qed.

Lemma process_file_outcome f token n :
  (exists counts n' ev,
      process_file f token n = (Returned counts, n', ev)
      /\ file_undecodable f = false)
  \/ (exists n' ev,
         process_file f token n
         = (Raised (if file_undecodable f then UnicodeDecodeError
                    else ZeroDivisionError), n', ev)).
Proof.
  unfold process_file.
  destruct (process_lines_returns (LLMGeolocator_init token) (file_lines f) 0 0 n)
    as (p & g & n' & ev & H & _).
  unfold bind. rewrite H. cbn [fst].
  destruct (file_undecodable f); [right; cbn [raise]; eauto|].
  destruct p as [|p].
  - right. cbn [raise]. do 2 eexists. reflexivity.
  - left. unfold emit, ret. do 3 eexists. split; reflexivity.
Qed.

(** The loop of [main] stops at such a file, and at the first file
    whose reading fails when it raises UnicodeDecodeError. *)
Lemma process_files_stop token f after :
  stops token f ->
  forall before totals n,
    process_files (before ++ f :: after) token totals n
    = process_files (before ++ [f]) token totals n
    /\ exists e n' ev,
        process_files (before ++ [f]) token totals n = (Raised e, n', ev)
        /\ (e = ZeroDivisionError \/ e = UnicodeDecodeError)
        /\ ((forall b, In b (before ++ [f]) -> file_undecodable b = false) ->
            e = ZeroDivisionError).
Proof.
  intros Hstop. induction before as [|b before IH]; intros totals n.
  - destruct (Hstop n) as (e & n' & ev & H).
    cbn [app process_files]. unfold bind, emit. rewrite H.
    split; [reflexivity|]. exists e. do 2 eexists. split; [reflexivity|].
    destruct (process_file_outcome f token n)
      as [(counts & n1 & ev1 & H' & _)|(n1 & ev1 & H')];
      rewrite H' in H; inversion H; subst.
    destruct (file_undecodable f) eqn:U.
    + split; [auto|]. intros Hall.
      specialize (Hall f (or_introl eq_refl)). congruence.
    + auto.
  - cbn [app process_files]. unfold bind at 1 3 5, emit.
    destruct (process_file_outcome b token n)
      as [(counts & n1 & ev1 & H & Ub)|(n1 & ev1 & H)].
    + unfold bind at 1 2 3. rewrite H.
      destruct (IH (fst totals + fst counts, snd totals + snd counts) n1)
        as (E & e & n' & ev & Hr & He & Hz).
      rewrite E, Hr. split; [reflexivity|]. exists e. do 2 eexists.
      split; [reflexivity|]. split; [exact He|].
      intros Hall. apply Hz. intros b' Hb'. apply Hall. right. exact Hb'.
    + unfold bind. rewrite H. split; [reflexivity|].
      do 3 eexists. split; [reflexivity|].
      destruct (file_undecodable b) eqn:U.
      * split; [auto|]. intros Hall.
        specialize (Hall b (or_introl eq_refl)). congruence.
      * auto.
Qed.

Lemma main_stop token before f after n :
  token <> [] -> stops token f ->
  main (Some token) (before ++ f :: after) n
  = main (Some token) (before ++ [f]) n
  /\ exists e n' ev,
      main (Some token) (before ++ f :: after) n = (Raised e, n', ev)
      /\ (e = ZeroDivisionError \/ e = UnicodeDecodeError)
      /\ ((forall b, In b (before ++ [f]) -> file_undecodable b = false) ->
          e = ZeroDivisionError).
Proof.
  intros Htok Hstop.
  destruct token as [|c token]; [contradiction|].
  destruct (process_files_stop after Hstop before (0, 0) n)
    as (E & e & n' & ev & Hr & He).
  unfold main.
  assert (Hne : forall l, exists x xs, before ++ f :: l = x :: xs).
  { intros l. destruct before; simpl; eauto. }
  destruct (Hne after) as (x & xs & E1). destruct (Hne []) as (y & ys & E2).
  rewrite E1, E2. rewrite <- E1, <- E2. unfold bind. rewrite E, Hr.
  split; [reflexivity|]. exists e. do 2 eexists. split; [reflexivity|exact He].
Qed.

(** X13: [main] does nothing but log an error when the token is unset
    or empty; and with a token, an input file none of whose lines
    decodes stops the run: the files after it are never processed,
    whatever they hold.  The run stops with ZeroDivisionError, or with
    UnicodeDecodeError when the reading of that file or of one before
    it failed; and a file whose reading fails stops the run in the
    same way, whatever its lines. *)
Theorem main_stops_at_unusable_file :
  (forall files n,
      main None files n
      = (Returned tt, n,
         [LogError "MAPBOX_ACCESS_TOKEN environment variable not set"])
      /\ main (Some []) files n = main None files n)
  /\ (forall token before f after n,
         token <> [] ->
         (forall line, In line (file_lines f) -> json_loads (strip line) = None) ->
         main (Some token) (before ++ f :: after) n
         = main (Some token) (before ++ [f]) n
         /\ exists e n' ev,
             main (Some token) (before ++ f :: after) n = (Raised e, n', ev)
             /\ (e = ZeroDivisionError \/ e = UnicodeDecodeError)
             /\ ((forall b, In b (before ++ [f]) -> file_undecodable b = false) ->
                 e = ZeroDivisionError))
  /\ (forall token before f after n,
         token <> [] ->
         file_undecodable f = true ->
         main (Some token) (before ++ f :: after) n
         = main (Some token) (before ++ [f]) n
         /\ exists e n' ev,
             main (Some token) (before ++ f :: after) n = (Raised e, n', ev)
             /\ (e = ZeroDivisionError \/ e = UnicodeDecodeError)).
Proof.
  split; [|split].
  - intros files n. split; reflexivity.
  - intros token before f after n Htok Hbad. apply main_stop; [exact Htok|].
    intros m. rewrite (process_file_all_bad f token m Hbad). eauto.
  - intros token before f after n Htok Hu.
    destruct (@main_stop token before f after n Htok) as (E & e & n' & ev & H & He & _).
    + intros m. destruct (process_file_undecodable f token m Hu) as (n' & ev & H).
      eauto.
    + split; [exact E|]. eauto.
Qed.

(** C8: a malformed line can abort the batch.  In a file none of whose
    lines decodes as JSON every line is skipped and logged, as the
    claim says (with a warning when the decoder raised
    JSONDecodeError), but [process_file] then raises
    ZeroDivisionError on the percentage of its closing log line
    instead of returning; and a file whose bytes are not all UTF-8
    makes the iteration itself raise UnicodeDecodeError, outside the
    handlers of the loop, whatever lines were read before.  Either way
    [main] stops there: the files after it, and the well-formed lines
    they hold, are never processed. *)
Theorem malformed_lines_abort_the_batch (token : text) (n : nat) :
  (forall lines,
      (forall line, In line lines -> json_loads (strip line) = None) ->
      process_file (readable lines) token n
      = (Raised ZeroDivisionError, n,
         List.map rejected_line_event lines))
  /\ (forall f,
         file_undecodable f = true ->
         exists n' ev,
           process_file f token n = (Raised UnicodeDecodeError, n', ev))
  /\ (forall f after,
         token <> [] ->
         (forall line, In line (file_lines f) -> json_loads (strip line) = None)
         \/ file_undecodable f = true ->
         main (Some token) (f :: after) n = main (Some token) [f] n
         /\ exists e n' ev,
             main (Some token) (f :: after) n = (Raised e, n', ev)).
Proof.
  split; [|split].
  - intros lines Hbad. apply (process_file_all_bad (readable lines) token n Hbad).
  - intros f Hu. apply process_file_undecodable. exact Hu.
  - intros f after Htok Hf.
    destruct (@main_stop token [] f after n Htok) as (E & e & n' & ev & H & _).
    + intros m. destruct Hf as [Hbad|Hu].
      * rewrite (process_file_all_bad f token m Hbad). eauto.
      * destruct (process_file_undecodable f token m Hu) as (n' & ev & H). eauto.
    + split; [exact E|]. eauto.
Qed.
End Runs.

(** ** Flags and channels in the cascade *)

Section FlagsAndChannels.
Context {R : PyRuntime} {C : CountryData}.
Local Open Scope float_scope.

(** X14: when no coordinates are found, the first country code the
    flags give decides the flag stage alone.  With a centroid for it
    the message gets the flag result at once, without a request; with
    none the message never gets a flag result, whatever centroids the
    other flags of the text have. *)
Theorem first_flag_decides
        (fields : list (text * json)) (t code : text) (rest : list text)
        (llm : LLMGeolocator) (n : nat) :
  dict_get fields (str "text") = Some (JStr t) ->
  extract_coordinates t = Returned None ->
  extract_flag_countries t = code :: rest ->
  (forall centroid,
      get_country_centroid code = Some centroid ->
      process_message (JObj fields) llm n
      = (Returned (mkResult (Some (fst centroid)) (Some (snd centroid))
                            (Some code) 0.85 "flag_emoji" None
                            [str "Found flag: " ++ code]), n, []))
  /\ (get_country_centroid code = None ->
      forall r n' ev,
        process_message (JObj fields) llm n = (Returned r, n', ev) ->
        source r <> "flag_emoji"%string).
Proof.
  intros Ht Hc Hf.
  assert (E : process_message (JObj fields) llm n
              = flag_step llm t
                  (match dict_get fields (str "channel") with
                   | Some v => v
                   | None => JStr []
                   end) new_result n).
  { unfold process_message, message_get. rewrite Ht.
    do 3 lift_step. rewrite Hc. lift_step. reflexivity. }
  rewrite E. unfold flag_step. rewrite Hf. split.
  - intros centroid Hcen. rewrite Hcen. reflexivity.
  - intros Hcen r n' ev H. rewrite Hcen in H.
    apply entity_step_sources in H. simpl in H. intros Hs. rewrite Hs in H.
    repeat (destruct H as [H|H]; [discriminate|]). exact H.
Qed.

Lemma channel_step_fallback channel result n r n' ev :
  channel_step channel result n = (Returned r, n', ev) ->
  source r = "channel_fallback"%string ->
  exists c code centroid,
    channel = JStr c
    /\ dict_get channel_country_map c = Some code
    /\ get_country_centroid code = Some centroid
    /\ country_code r = Some code
    /\ lat r = Some (fst centroid) /\ lon r = Some (snd centroid).
Proof.
  unfold channel_step. intros H Hs.
  apply bind_returned in H. destruct H as (found & n1 & ev1 & ev2 & H1 & H2 & _).
  unfold lift in H1. inversion H1 as [Hl]. clear H1.
  destruct found as [code|].
  - destruct (get_country_centroid code) as [centroid|] eqn:E;
      inversion H2; subst r; simpl in Hs; try discriminate.
    destruct channel; simpl in Hl; try discriminate.
    + inversion Hl as [Hd]. exists s, code, centroid.
      repeat split; try reflexivity; assumption.
  - inversion H2; subst r. simpl in Hs. discriminate.
Qed.

(** X15: a channel-fallback result is only given to a message whose
    channel is, letter for letter, one of the five channels of the
    table, and it carries the country of that channel and its
    centroid. *)
Theorem channel_fallback_needs_known_channel
        (fields : list (text * json)) (llm : LLMGeolocator) (n n' : nat)
        (r : GeolocationResult) (ev : list event) :
  process_message (JObj fields) llm n = (Returned r, n', ev) ->
  source r = "channel_fallback"%string ->
  exists c code centroid,
    dict_get fields (str "channel") = Some (JStr c)
    /\ In c (List.map str ["militarysummary"; "ClashReport"; "ukraine_world";
                           "russia_news"; "middle_east_news"]%string)
    /\ dict_get channel_country_map c = Some code
    /\ get_country_centroid code = Some centroid
    /\ country_code r = Some code
    /\ lat r = Some (fst centroid) /\ lon r = Some (snd centroid).
Proof.
  intros H Hs.
  assert (K : exists channel m m' ev',
             channel_step channel new_result m = (Returned r, m', ev')
             /\ channel = match dict_get fields (str "channel") with
                          | Some v => v
                          | None => JStr []
                          end).
  { unfold process_message, message_get in H.
    apply bind_returned in H. destruct H as (txt & n1 & e1 & e2 & _ & H & _).
    apply bind_returned in H. destruct H as (ch & n2 & e3 & e4 & Hch & H & _).
    unfold lift in Hch. inversion Hch as [Hch']. clear Hch.
    apply bind_returned in H. destruct H as (t & n3 & e5 & e6 & _ & H & _).
    apply bind_returned in H. destruct H as (coords & n4 & e7 & e8 & _ & H & _).
    destruct coords as [c|].
    { inversion H; subst r. simpl in Hs. discriminate. }
    assert (P : forall m m' ev',
               place_name_step llm t ch new_result m = (Returned r, m', ev') ->
               exists channel m0 m0' ev0,
                 channel_step channel new_result m0 = (Returned r, m0', ev0)
                 /\ channel = ch).
    { intros m m' ev'. unfold place_name_step.
      destruct (extract_place_names t) as [|first rest]; [eauto 8|].
      intros Hp. apply bind_returned in Hp.
      destruct Hp as (hit & k1 & v1 & v2 & _ & Hp & _).
      destruct hit as [h|]; [|eauto 8].
      inversion Hp; subst r. simpl in Hs. discriminate. }
    assert (Q : forall m m' ev',
               entity_step llm t ch new_result m = (Returned r, m', ev') ->
               exists channel m0 m0' ev0,
                 channel_step channel new_result m0 = (Returned r, m0', ev0)
                 /\ channel = ch).
    { intros m m' ev'. unfold entity_step.
      destruct (Nat.ltb 10 (List.length t)); [|apply P].
      destruct (extract_location_entities t) as [|l0 ls]; [apply P|].
      intros Hp. apply bind_returned in Hp.
      destruct Hp as (results & k1 & v1 & v2 & Hg & Hp & _).
      destruct results as [|first others]; [discriminate|].
      cbv zeta in Hp. destruct (0.3 <? _) eqn:T; [|eapply P; exact Hp].
      exfalso. inversion Hp; subst r. simpl in Hs.
      pose proof (geocode_locations_spec _ _ _ Hg) as F.
      destruct (max_by_spec confidence first others) as (pre & post & Heq & _ & _).
      assert (Hin : In (max_by confidence first others) (first :: others)).
      { rewrite Heq. apply in_or_app. right. left. reflexivity. }
      destruct (@Forall2_In_r _ _ _ _ _ _ F Hin)
        as (l & _ & [(h & conf & _ & Hm) | Hu]).
      - rewrite Hm in Hs. simpl in Hs. discriminate.
      - rewrite Hu in Hs. simpl in Hs. discriminate. }
    unfold flag_step in H.
    destruct (extract_flag_countries t) as [|code rest].
    - destruct (Q _ _ _ H) as (channel & m0 & m0' & ev0 & Hk & ->).
      exists ch, m0, m0', ev0. split; [exact Hk|]. symmetry. exact Hch'.
    - destruct (get_country_centroid code).
      + inversion H; subst r. simpl in Hs. discriminate.
      + destruct (Q _ _ _ H) as (channel & m0 & m0' & ev0 & Hk & ->).
        exists ch, m0, m0', ev0. split; [exact Hk|]. symmetry. exact Hch'. }
  destruct K as (channel & m & m' & ev' & Hk & Hch).
  destruct (channel_step_fallback _ _ _ Hk Hs)
    as (c & code & centroid & Ec & Hd & Hcen & Hcc & Hla & Hlo).
  exists c, code, centroid.
  assert (Hin : In c (List.map str ["militarysummary"; "ClashReport";
                                    "ukraine_world"; "russia_news";
                                    "middle_east_news"]%string)).
  { apply dict_get_key in Hd. exact Hd. }
  repeat split; try assumption.
  subst channel. destruct (dict_get fields (str "channel")) as [v|].
  - rewrite Ec. reflexivity.
  - inversion Ec; subst c. vm_compute in Hd. discriminate.
Qed.
End FlagsAndChannels.

(** ** The conversion to GeoJSON *)

Section GeoJSONFacts.
Context {R : PyRuntime}.
Variable format_1f : float -> text.
Variable stdout_accepts : text -> bool.

(** What one line adds to the state of the loop. *)
Lemma convert_line_counts (st : conversion) (line : text) :
  let st' := convert_line st line in
  cv_total st' = cv_total st + (if decodes line then 1 else 0)
  /\ cv_geolocated st' + List.length (cv_features st)
     = cv_geolocated st + List.length (cv_features st')
  /\ cv_geolocated st' <= cv_geolocated st + (if decodes line then 1 else 0)
  /\ cv_geolocated st <= cv_geolocated st'.
Proof.
  unfold convert_line, decodes. destruct (json_loads (strip line)) as [message|].
  - destruct (feature_of message) as [[f|]|e]; cbn; rewrite ?length_app; cbn; lia.
  - cbn. lia.
Qed.

Lemma fold_convert_counts (lines : list text) : forall st,
  let st' := fold_left convert_line lines st in
  cv_total st' = cv_total st + List.length (List.filter decodes lines)
  /\ cv_geolocated st' + List.length (cv_features st)
     = cv_geolocated st + List.length (cv_features st')
  /\ cv_geolocated st' <= cv_geolocated st + List.length (List.filter decodes lines).
Proof.
  induction lines as [|line lines IH]; intros st; cbn [fold_left List.filter].
  - cbn. lia.
  - specialize (IH (convert_line st line)). cbv zeta in IH.
    pose proof (convert_line_counts st line) as H. cbv zeta in H.
    destruct (decodes line); cbn [List.length]; lia.
Qed.

(** X16: [jsonl_to_geojson] never gets to the dump when the reading
    of the input fails (UnicodeDecodeError).  Otherwise the collection
    it dumps counts as total the lines that decode as JSON, whatever
    they decode to, and as geolocated the features it holds, never
    more than the total.  The call returns the two counters only with
    the whole collection dumped and at least one line decoded; it
    raises UnicodeEncodeError part way through the dump when a string
    of the collection holds a surrogate, or after the dump when
    standard output refuses the first or the last line of the
    summary; and it raises ZeroDivisionError on the summary, after
    dumping an empty collection with the rate 0%, when no line
    decodes. *)
Theorem geojson_counts (input_file output_file : text) (input : infile) :
  let '(out, result, _) :=
    jsonl_to_geojson format_1f stdout_accepts input_file output_file input in
  match collection out with
  | None => file_undecodable input = true /\ result = Raised UnicodeDecodeError
  | Some doc =>
      file_undecodable input = false
      /\ gj_total_messages doc
         = List.length (List.filter decodes (file_lines input))
      /\ gj_geolocated_messages doc = List.length (gj_features doc)
      /\ gj_geolocated_messages doc <= gj_total_messages doc
      /\ match result with
         | Returned (total, geolocated) =>
             out = Dumped doc /\ geojson_encodable doc = true
             /\ stdout_accepts (converted_line input_file) = true
             /\ stdout_accepts (output_line output_file) = true
             /\ total = gj_total_messages doc
             /\ geolocated = gj_geolocated_messages doc /\ 0 < total
         | Raised e =>
             (e = UnicodeEncodeError /\ out = Truncated doc
              /\ geojson_encodable doc = false)
             \/ (e = UnicodeEncodeError /\ out = Dumped doc
                 /\ (stdout_accepts (converted_line input_file) = false
                     \/ (0 < gj_total_messages doc
                         /\ stdout_accepts (output_line output_file) = false)))
             \/ (e = ZeroDivisionError /\ out = Dumped doc
                 /\ stdout_accepts (converted_line input_file) = true
                 /\ gj_total_messages doc = 0 /\ gj_features doc = []
                 /\ gj_geolocation_rate doc = str "0%")
         end
  end.
Proof.
  unfold jsonl_to_geojson.
  pose proof (fold_convert_counts (file_lines input) (mkConversion [] 0 0 [])) as H.
  cbv zeta in H. cbn [cv_total cv_geolocated cv_features List.length] in H.
  destruct H as (Ht & Hg & Hle).
  destruct (fold_left convert_line (file_lines input) (mkConversion [] 0 0 []))
    as [fs t g pr].
  cbn [cv_total cv_geolocated cv_features cv_printed] in *.
  destruct (file_undecodable input); [cbn; auto|].
  cbv zeta.
  match goal with
  | |- context [geojson_encodable ?d] => set (doc := d)
  end.
  assert (D : gj_total_messages doc = t /\ gj_geolocated_messages doc = g
              /\ gj_features doc = fs) by (repeat split).
  destruct D as (D1 & D2 & D3).
  destruct (geojson_encodable doc) eqn:E; cbn [negb].
  2:{ cbn [collection]. rewrite D1, D2, D3.
      repeat split; try lia. left. auto. }
  destruct (stdout_accepts (converted_line input_file)) eqn:S1; cbn [negb].
  2:{ cbn [collection]. rewrite D1, D2, D3.
      repeat split; try lia. right. left. auto. }
  destruct t as [|t].
  - cbn [collection]. rewrite D1, D2, D3.
    repeat split; try lia. right. right.
    repeat split; try reflexivity.
    destruct fs; [reflexivity|]. cbn in Hg. lia.
  - destruct (stdout_accepts (output_line output_file)) eqn:S2; cbn [negb].
    + cbn [collection]. rewrite D1, D2, D3. repeat split; try lia; assumption.
    + cbn [collection]. rewrite D1, D2, D3. repeat split; try lia.
      right. left. repeat split. right. split; [lia|reflexivity].
Qed.

Lemma feature_of_some (message f : json) :
  feature_of message = Returned (Some f) ->
  exists m g la lo,
    message = JObj m
    /\ json_get message (str "geolocation") (JObj []) = Returned (JObj g)
    /\ la = dict_get_or_null g (str "lat") /\ lo = dict_get_or_null g (str "lon")
    /\ la <> JNull /\ lo <> JNull
    /\ make_feature m g la lo = Returned f.
Proof.
  unfold feature_of. destruct message as [| | | | |m]; try discriminate.
  cbn [json_get obind].
  destruct (match dict_get m (str "geolocation") with
            | Some x => x
            | None => JObj []
            end) as [| | | | |g] eqn:G; try discriminate.
  cbn [json_get obind]. fold (dict_get_or_null g (str "lat")).
  fold (dict_get_or_null g (str "lon")).
  destruct (is_null (dict_get_or_null g (str "lat"))) eqn:E1; [discriminate|].
  destruct (is_null (dict_get_or_null g (str "lon"))) eqn:E2; [discriminate|].
  cbn [negb andb].
  destruct (make_feature m g _ _) as [f'|e] eqn:F; [|discriminate].
  cbn [obind]. intros H. inversion H; subst f'.
  exists m, g, (dict_get_or_null g (str "lat")), (dict_get_or_null g (str "lon")).
  repeat split; try assumption.
  - intros N. rewrite N in E1. discriminate.
  - intros N. rewrite N in E2. discriminate.
Qed.

Lemma make_feature_shape (m g : list (text * json)) (la lo f : json) :
  make_feature m g la lo = Returned f ->
  json_path f [str "type"] = Some (JStr (str "Feature"))
  /\ json_path f [str "geometry"; str "type"] = Some (JStr (str "Point"))
  /\ json_path f [str "geometry"; str "coordinates"] = Some (JArr [lo; la])
  /\ forall s, json_path f [str "properties"; str "text"] = Some (JStr s) ->
               List.length s <= 300.
Proof.
  unfold make_feature.
  destruct (slice_300 _) as [txt|] eqn:S; [|discriminate]. cbn [obind].
  destruct (json_get _ (str "title") JNull) as [title|]; [|discriminate].
  cbn [obind].
  destruct (json_get _ (str "username") JNull) as [username|]; [|discriminate].
  cbn [obind]. intros H. inversion H; subst f. clear H.
  repeat split.
  intros s Hs.
  change (json_path (JObj [(str "type", JStr (str "Feature"));
                           (str "geometry", _); (str "properties", _)])
                    [str "properties"; str "text"])
    with (Some txt) in Hs.
  assert (Et : txt = JStr s) by congruence. subst txt.
  unfold slice_300 in S.
  destruct (match dict_get m (str "text") with
            | Some x => x
            | None => JStr []
            end) as [|b|x|s0|l|o]; try discriminate.
  assert (E : s = firstn 300 s0) by congruence.
  rewrite E. apply firstn_le_length.
Qed.

Lemma fold_convert_features (lines : list text) : forall st (P : json -> Prop),
  Forall P (cv_features st) ->
  (forall line message f,
      In line lines -> json_loads (strip line) = Some message ->
      feature_of message = Returned (Some f) -> P f) ->
  Forall P (cv_features (fold_left convert_line lines st)).
Proof.
  induction lines as [|line lines IH]; intros st P H0 H; cbn [fold_left];
    [exact H0|].
  apply IH.
  - unfold convert_line.
    destruct (json_loads (strip line)) as [message|] eqn:E; [|exact H0].
    destruct (feature_of message) as [[f|]|e] eqn:F; cbn [cv_features];
      try exact H0.
    apply Forall_app. split; [exact H0|]. constructor; [|constructor].
    apply (H line message f); [left; reflexivity|exact E|exact F].
  - intros l message f Hl. apply H. right. exact Hl.
Qed.

(** X17: every feature of the collection handed to the dump comes
    from a line of the input that decodes to an object whose
    geolocation is an object with a latitude and a longitude that are
    not null; it is a Point whose coordinates are that longitude
    followed by that latitude, and the text it carries has at most 300
    characters. *)
Theorem geojson_features (input_file output_file : text) (input : infile) :
  Forall
    (fun f =>
       exists line m g,
         In line (file_lines input)
         /\ json_loads (strip line) = Some (JObj m)
         /\ json_get (JObj m) (str "geolocation") (JObj []) = Returned (JObj g)
         /\ dict_get_or_null g (str "lat") <> JNull
         /\ dict_get_or_null g (str "lon") <> JNull
         /\ json_path f [str "geometry"; str "type"] = Some (JStr (str "Point"))
         /\ json_path f [str "geometry"; str "coordinates"]
            = Some (JArr [dict_get_or_null g (str "lon");
                          dict_get_or_null g (str "lat")])
         /\ forall s, json_path f [str "properties"; str "text"] = Some (JStr s)
                      -> List.length s <= 300)
    (features_dumped (fst (fst (jsonl_to_geojson format_1f stdout_accepts
                                                 input_file output_file input)))).
Proof.
  unfold jsonl_to_geojson. cbv zeta.
  assert (K : Forall
                (fun f =>
                   exists line m g,
                     In line (file_lines input)
                     /\ json_loads (strip line) = Some (JObj m)
                     /\ json_get (JObj m) (str "geolocation") (JObj [])
                        = Returned (JObj g)
                     /\ dict_get_or_null g (str "lat") <> JNull
                     /\ dict_get_or_null g (str "lon") <> JNull
                     /\ json_path f [str "geometry"; str "type"]
                        = Some (JStr (str "Point"))
                     /\ json_path f [str "geometry"; str "coordinates"]
                        = Some (JArr [dict_get_or_null g (str "lon");
                                      dict_get_or_null g (str "lat")])
                     /\ forall s, json_path f [str "properties"; str "text"]
                                  = Some (JStr s)
                                  -> List.length s <= 300)
                (cv_features (fold_left convert_line (file_lines input)
                                        (mkConversion [] 0 0 [])))).
  { apply fold_convert_features; [constructor|].
    intros line message f Hl Hd Hf.
    destruct (feature_of_some _ Hf)
      as (m & g & la & lo & -> & Hg & -> & -> & Hla & Hlo & Hm).
    destruct (make_feature_shape _ _ _ _ Hm) as (_ & S2 & S3 & S4).
    exists line, m, g. repeat split; assumption. }
  destruct (file_undecodable input); [constructor|].
  destruct (geojson_encodable _); cbn [negb]; [|exact K].
  destruct (stdout_accepts (converted_line input_file)); cbn [negb]; [|exact K].
  destruct (cv_total _); [exact K|].
  destruct (stdout_accepts (output_line output_file)); exact K.
Qed.
End GeoJSONFacts.

(** ** The added properties on sample messages *)

Section MoreEvaluations.
Local Open Scope string_scope.
Local Open Scope list_scope.

Ltac each_char H :=
  cbv in H; repeat (destruct H as [<-|H]; [reflexivity|]); destruct H.

(** X1 on the message about Kharkiv, every query matched. *)
Lemma process_message_sources_witness :
  In (source kharkiv_result) known_sources.
Proof.
  eapply (process_message_sources (R := eager_runtime) (C := sample_countries)
            (message_of kharkiv_text (str "x")) sample_llm 0
            (r := kharkiv_result)).
  vm_compute. reflexivity.
Defined.

(** X2 on the same message: the relevance 0.9 is scored 0.7. *)
Lemma confidence_within_unit_interval_witness :
  (0 <=? confidence kharkiv_result)%float = true
  /\ (confidence kharkiv_result <=? 1)%float = true
  /\ (startswith (source kharkiv_result) "llm_geocoding" = true ->
      (0.7 <=? confidence kharkiv_result)%float = true).
Proof.
  eapply (confidence_within_unit_interval (R := eager_runtime)
            (C := sample_countries)
            (message_of kharkiv_text (str "x")) sample_llm 0
            (r := kharkiv_result)).
  vm_compute. reflexivity.
Defined.

(** X3 on the flag result of a short message. *)
Lemma fields_set_by_source_witness :
  (country_code flag_result <> None
   <-> (source flag_result = "flag_emoji"
        \/ source flag_result = "channel_fallback"))
  /\ (place_name flag_result <> None
      <-> (startswith (source flag_result) "llm_geocoding" = true
           \/ source flag_result = "place_name_geocoding")).
Proof.
  eapply (fields_set_by_source (R := quiet_runtime) (C := sample_countries)
            (message_of (str "hi " ++ flag_ua) (str "x")) sample_llm 0
            (r := flag_result)).
  vm_compute. reflexivity.
Defined.

(** X4 on a text without a digit. *)
Lemma digit_free_text_has_no_coordinates_witness :
  extract_coordinates (R := quiet_runtime) (str "no numbers here")
  = Returned None
  /\ forall fields llm n r n' ev,
      dict_get fields (str "text") = Some (JStr (str "no numbers here")) ->
      process_message (R := quiet_runtime) (C := sample_countries)
                      (JObj fields) llm n = (Returned r, n', ev) ->
      source r <> "coordinates_regex".
Proof.
  apply (digit_free_text_has_no_coordinates (R := quiet_runtime)
           (C := sample_countries) (str "no numbers here")).
  intros x H. each_char H.
Defined.

(** X5 on a text in small letters, the message without a channel. *)
Lemma text_without_capitals_costs_no_request_witness :
  extract_location_entities (R := quiet_runtime) (str "all quiet today") = []
  /\ extract_place_names (R := quiet_runtime) (str "all quiet today") = []
  /\ exists r,
      process_message (R := quiet_runtime) (C := sample_countries)
        (JObj [(str "text", JStr (str "all quiet today"))]) sample_llm 0
      = (Returned r, 0, []).
Proof.
  apply (text_without_capitals_costs_no_request (R := quiet_runtime)
           (C := sample_countries)
           [(str "text", JStr (str "all quiet today"))]
           (t := str "all quiet today") sample_llm 0).
  - intros x H. each_char H.
  - reflexivity.
  - intros v H. vm_compute in H. discriminate.
Defined.

(** X6: a message that is no object, a text that is no string, the
    message about Kharkiv when the matches carry a null relevance, and
    the degrees that do not fit a float. *)
Lemma process_message_failures_witness :
  process_message (R := quiet_runtime) (C := sample_countries)
                  (JArr []) sample_llm 0
  = (Raised AttributeError, 0, [])
  /\ process_message (R := quiet_runtime) (C := sample_countries)
                     (JObj [(str "text", JNull)]) sample_llm 0
     = (Raised TypeError, 0, [])
  /\ (forall e n' ev,
         process_message (R := null_relevance_runtime) (C := sample_countries)
                         (JObj [(str "text", JStr kharkiv_text)]) sample_llm 0
         = (Raised e, n', ev) ->
         (e = OverflowError /\ n' = 0 /\ ev = [])
         \/ ((e = TypeError \/ e = OverflowError) /\ 0 < n'
             /\ exists q,
                 numeric_reply (mapbox_get (PyRuntime := null_relevance_runtime)
                                           (pred n') q) = false))
  /\ (forall e n' ev,
         process_message (R := quiet_runtime) (C := sample_countries)
                         (JObj [(str "text", JStr huge_dms_text)]) sample_llm 0
         = (Raised e, n', ev) ->
         e = OverflowError /\ n' = 0 /\ ev = []).
Proof.
  pose proof (process_message_failures (R := quiet_runtime)
                (C := sample_countries) sample_llm 0) as (H1 & H2 & _ & H4).
  pose proof (process_message_failures (R := null_relevance_runtime)
                (C := sample_countries) sample_llm 0) as (_ & _ & H3 & _).
  split; [|split; [|split]].
  - apply H1. intros fields H. discriminate.
  - apply (H2 [(str "text", JNull)] JNull); [reflexivity|].
    intros t H. discriminate.
  - intros e n' ev. apply (H3 [(str "text", JStr kharkiv_text)]).
    + intros v H. inversion H. eexists. reflexivity.
    + intros v H. vm_compute in H. discriminate.
  - intros e n' ev. apply (H4 (fun m q => eq_refl)
                              [(str "text", JStr huge_dms_text)]).
    + intros v H. inversion H. eexists. reflexivity.
    + intros v H. vm_compute in H. discriminate.
Defined.

(** X7 on the message about Kharkiv, nothing matched: four candidates
    and the place-name fallback, five requests. *)
Lemma process_message_request_budget_witness :
  let '(_, n', ev) :=
    process_message (R := quiet_runtime) (C := sample_countries)
      (JObj [(str "channel", JStr (str "x")); (str "text", JStr kharkiv_text)])
      sample_llm 0 in
  0 <= n'
  /\ n' <= 0 + (if Nat.ltb 10 (List.length kharkiv_text)
                then List.length (extract_location_entities
                                    (R := quiet_runtime) kharkiv_text) + 1
                else 1)
  /\ List.length (requests ev) + 0 = n'.
Proof.
  apply (process_message_request_budget (R := quiet_runtime)
           (C := sample_countries)
           [(str "channel", JStr (str "x")); (str "text", JStr kharkiv_text)]
           (t := kharkiv_text) sample_llm 0).
  reflexivity.
Defined.

(** X10: the two flags in either order give the codes in the order of
    the mapping. *)
Lemma flags_follow_the_mapping_witness :
  extract_flag_countries (C := two_flag_countries)
                         (flag_ru ++ str " and " ++ flag_ua)
  = extract_flag_countries (C := two_flag_countries)
                           (flag_ua ++ str " and " ++ flag_ru).
Proof.
  apply (proj2 (flags_follow_the_mapping (C := two_flag_countries)
                  (flag_ru ++ str " and " ++ flag_ua)
                  (flag_ua ++ str " and " ++ flag_ru))).
  intros flag code [H|[H|[]]]; inversion H; reflexivity.
Defined.

(** X11 on a message with a flag and a known channel, the file of
    countries missing. *)
Lemma missing_country_data_disables_flags_and_channels_witness :
  (exists what, snd (load_country_data FileNotFound) = [LogError what])
  /\ source none_result <> "flag_emoji"
  /\ source none_result <> "channel_fallback"
  /\ country_code none_result = None.
Proof.
  eapply (missing_country_data_disables_flags_and_channels
            (R := quiet_runtime) (f := FileNotFound)
            (message_of (str "hi " ++ flag_ua) (str "militarysummary"))
            sample_llm 0 (r := none_result)).
  - left. reflexivity.
  - vm_compute. reflexivity.
Defined.

(** X13: a file of one line that is not JSON, followed by a good
    file. *)
Lemma main_stops_at_unusable_file_witness :
  main (R := quiet_runtime) (C := sample_countries) (Some (str "token"))
       ([] ++ readable [str "not json"] :: [readable [str "{}"]]) 0
  = main (R := quiet_runtime) (C := sample_countries) (Some (str "token"))
         ([] ++ [readable [str "not json"]]) 0
  /\ exists e n' ev,
      main (R := quiet_runtime) (C := sample_countries) (Some (str "token"))
           ([] ++ readable [str "not json"] :: [readable [str "{}"]]) 0
      = (Raised e, n', ev)
      /\ (e = ZeroDivisionError \/ e = UnicodeDecodeError)
      /\ ((forall b, In b ([] ++ [readable [str "not json"]]) ->
                     file_undecodable b = false) ->
          e = ZeroDivisionError).
Proof.
  apply (proj1 (proj2 (main_stops_at_unusable_file (R := quiet_runtime)
                         (C := sample_countries)))
               (str "token") [] (readable [str "not json"])
               [readable [str "{}"]] 0).
  - discriminate.
  - intros line [<-|[]]. vm_compute. reflexivity.
Defined.

(** X14 on a short message with the flag of Ukraine. *)
Lemma first_flag_decides_witness :
  (forall centroid,
      get_country_centroid (C := sample_countries) (str "UKR") = Some centroid ->
      process_message (R := quiet_runtime) (C := sample_countries)
        (JObj [(str "text", JStr (str "hi " ++ flag_ua))]) sample_llm 0
      = (Returned (mkResult (Some (fst centroid)) (Some (snd centroid))
                            (Some (str "UKR")) 0.85 "flag_emoji" None
                            [str "Found flag: " ++ str "UKR"]), 0, []))
  /\ (get_country_centroid (C := sample_countries) (str "UKR") = None ->
      forall r n' ev,
        process_message (R := quiet_runtime) (C := sample_countries)
          (JObj [(str "text", JStr (str "hi " ++ flag_ua))]) sample_llm 0
        = (Returned r, n', ev) ->
        source r <> "flag_emoji").
Proof.
  apply (first_flag_decides (R := quiet_runtime) (C := sample_countries)
           [(str "text", JStr (str "hi " ++ flag_ua))]
           (t := str "hi " ++ flag_ua) (code := str "UKR") (rest := [])
           sample_llm 0).
  - reflexivity.
  - vm_compute. reflexivity.
  - vm_compute. reflexivity.
Defined.

(** X15 on a message of a channel of the table with nothing in its
    text. *)
Lemma channel_fallback_needs_known_channel_witness :
  exists c code centroid,
    dict_get [(str "channel", JStr (str "militarysummary"));
              (str "text", JStr (str "no news"))] (str "channel")
    = Some (JStr c)
    /\ In c (List.map str ["militarysummary"; "ClashReport"; "ukraine_world";
                           "russia_news"; "middle_east_news"])
    /\ dict_get channel_country_map c = Some code
    /\ get_country_centroid (C := sample_countries) code = Some centroid
    /\ country_code channel_result = Some code
    /\ lat channel_result = Some (fst centroid)
    /\ lon channel_result = Some (snd centroid).
Proof.
  eapply (channel_fallback_needs_known_channel (R := quiet_runtime)
            (C := sample_countries)
            [(str "channel", JStr (str "militarysummary"));
             (str "text", JStr (str "no news"))]
            sample_llm 0 (r := channel_result)).
  - vm_compute. reflexivity.
  - reflexivity.
Defined.

(** On a file of four lines, a located message, an empty object, a
    line that is not JSON and a second located message, three lines
    count, two features are dumped, and the call returns. *)
Example jsonl_to_geojson_sample :
  let '(out, result, printed) :=
    jsonl_to_geojson (R := located_runtime) sample_format any_console
      (str "enhanced.jsonl") (str "out.geojson")
      (readable [located_line; str "{}"; str "not json"; located_line]) in
  exists doc,
    out = Dumped doc
    /\ List.map (fun f => json_path f [str "geometry"; str "coordinates"])
                (gj_features doc)
       = [Some (JArr [JNum 30.5%float; JNum 50.4%float]);
          Some (JArr [JNum 30.5%float; JNum 50.4%float])]
    /\ List.map (fun f => json_path f [str "properties"; str "text"])
                (gj_features doc)
       = [Some (JStr []); Some (JStr [])]
    /\ gj_total_messages doc = 3 /\ gj_geolocated_messages doc = 2
    /\ result = Returned (3, 2)
    /\ printed = ["Error parsing JSON"; "Converted"; "Total messages";
                  "Geolocated"; "Output"].
Proof. vm_compute. eexists. repeat split. Qed.

(** The same call raises when the reading of the input fails, when
    the name of the input file holds a surrogate, and when standard
    output refuses the check mark; on a file without a line that
    decodes it raises after dumping an empty collection. *)
Example jsonl_to_geojson_failures :
  jsonl_to_geojson (R := located_runtime) sample_format any_console
    (str "enhanced.jsonl") (str "out.geojson") (mkInfile [located_line] true)
  = (NotWritten, Raised UnicodeDecodeError, [])
  /\ (exists doc,
         jsonl_to_geojson (R := located_runtime) sample_format any_console
           [56320%N] (str "out.geojson") (readable [str "{}"])
         = (Truncated doc, Raised UnicodeEncodeError, []))
  /\ (exists doc,
         jsonl_to_geojson (R := located_runtime) sample_format (fun _ => false)
           (str "enhanced.jsonl") (str "out.geojson") (readable [str "{}"])
         = (Dumped doc, Raised UnicodeEncodeError, []))
  /\ (exists doc,
         jsonl_to_geojson (R := located_runtime) sample_format any_console
           (str "enhanced.jsonl") (str "out.geojson") (readable [str "not json"])
         = (Dumped doc, Raised ZeroDivisionError,
            ["Error parsing JSON"; "Converted"; "Total messages"])
         /\ gj_features doc = []).
Proof.
  split; [vm_compute; reflexivity|].
  split; [eexists; vm_compute; reflexivity|].
  split; [eexists; vm_compute; reflexivity|].
  eexists. split; vm_compute; reflexivity.
Qed.

(** C8 on a file of one line that is not JSON followed by a file of
    one well-formed line: the second file alone is processed and its
    line written, after the first it is never read. *)
Lemma malformed_lines_abort_the_batch_witness :
  process_file (R := quiet_runtime) (C := sample_countries)
               (readable [str "not json"]) (str "token") 0
  = (Raised ZeroDivisionError, 0,
     List.map (fun _ => LogWarning "Invalid JSON") [str "not json"])
  /\ (main (R := quiet_runtime) (C := sample_countries) (Some (str "token"))
            (readable [str "not json"] :: [readable [str "{}"]]) 0
      = main (R := quiet_runtime) (C := sample_countries) (Some (str "token"))
             [readable [str "not json"]] 0
      /\ exists e n' ev,
          main (R := quiet_runtime) (C := sample_countries) (Some (str "token"))
               (readable [str "not json"] :: [readable [str "{}"]]) 0
          = (Raised e, n', ev)).
Proof.
  pose proof (malformed_lines_abort_the_batch (R := quiet_runtime)
                (C := sample_countries) (str "token") 0) as (H1 & _ & H3).
  split.
  - apply H1. intros line [<-|[]]. vm_compute. reflexivity.
  - apply H3; [discriminate|]. left.
    intros line [<-|[]]. vm_compute. reflexivity.
Defined.

(** What the two files give, the second alone and after the first. *)
Example well_formed_file_after_malformed :
  written (events (main (R := quiet_runtime) (C := sample_countries)
                        (Some (str "token")) [readable [str "{}"]] 0))
  = [enhanced [] none_result (str "2025-01-01T00:00:00")]
  /\ main (R := quiet_runtime) (C := sample_countries) (Some (str "token"))
          [readable [str "not json"]; readable [str "{}"]] 0
     = (Raised ZeroDivisionError, 0,
        [LogInfo "Processing"; LogWarning "Invalid JSON"])
  /\ main (R := quiet_runtime) (C := sample_countries) (Some (str "token"))
          [mkInfile [str "{}"] true; readable [str "{}"]] 0
     = (Raised UnicodeDecodeError, 0,
        [LogInfo "Processing";
         Write (enhanced [] none_result (str "2025-01-01T00:00:00"))]).
Proof. repeat split; vm_compute; reflexivity. Qed.

(** A message whose text is a lone surrogate is processed, and its
    dump refused by the output file: nothing is written, an error is
    logged, and the file counts no message. *)
Example surrogate_line_is_not_written :
  process_message (R := surrogate_runtime) (C := sample_countries)
                  surrogate_message sample_llm 0
  = (Returned none_result, 0, [])
  /\ process_file (R := surrogate_runtime) (C := sample_countries)
                  (readable [surrogate_line]) (str "token") 0
     = (Raised ZeroDivisionError, 0, [LogError "Error processing message"])
  /\ process_file (R := surrogate_runtime) (C := sample_countries)
                  (readable [surrogate_line; str "{}"]) (str "token") 0
     = (Returned (1, 0), 0,
        [LogError "Error processing message";
         Write (enhanced [] none_result (str "2025-01-01T00:00:00"));
         LogInfo "Processed"]).
Proof. repeat split; vm_compute; reflexivity. Qed.

(** C10: [process_message] fails on a record that lacks the channel
    field.  The missing field is read as the empty string, but the
    text of this record holds degrees, minutes and seconds whose
    degrees do not fit a float, and the call raises OverflowError; it
    does so with or without a channel, for the exception comes from
    [extract_coordinates], whose branch for that notation hands a
    ValueError (degrees of more digits than [int] accepts) over to the
    next pattern and lets nothing but OverflowError out.  A record
    without channel also fails, with TypeError after a request, when
    the match of the endpoint carries a null relevance. *)
Theorem record_without_channel_raises :
  dict_get [(str "text", JStr huge_dms_text)] (str "channel") = None
  /\ message_get (JObj [(str "text", JStr huge_dms_text)]) (str "channel")
     = Returned (JStr [])
  /\ process_message (R := quiet_runtime) (C := sample_countries)
       (JObj [(str "text", JStr huge_dms_text)]) sample_llm 0
     = (Raised OverflowError, 0, [])
  /\ process_message (R := quiet_runtime) (C := sample_countries)
       (JObj [(str "channel", JStr (str "militarysummary"));
              (str "text", JStr huge_dms_text)]) sample_llm 0
     = (Raised OverflowError, 0, [])
  /\ (forall (R : PyRuntime) (C : CountryData) fields t llm n e,
         dict_get fields (str "text") = Some (JStr t) ->
         extract_coordinates t = Raised e ->
         e = OverflowError
         /\ process_message (JObj fields) llm n = (Raised OverflowError, n, []))
  /\ int_of_text (R := quiet_runtime) (repeat 57%N 4301) = Raised ValueError
  /\ (forall (R : PyRuntime) t g0 g1 g2 g3 g4 g5 g6 g7 rest ps,
         Re.findall 8 Patterns.dms t = [g0; g1; g2; g3; g4; g5; g6; g7] :: rest ->
         int_of_text g0 = Raised ValueError ->
         try_patterns ((8%nat, Patterns.dms) :: ps) t = try_patterns ps t)
  /\ process_message (R := null_relevance_runtime) (C := sample_countries)
       (JObj [(str "text", JStr kharkiv_text)]) sample_llm 0
     = (Raised TypeError, 1, [Request (str "Kharkiv, Ukraine")]).
Proof.
  split; [reflexivity|]. split; [reflexivity|].
  split; [vm_compute; reflexivity|]. split; [vm_compute; reflexivity|].
  split.
  { intros R C fields t llm n e Ht He.
    pose proof (try_patterns_raises _ _ He) as ->.
    split; [reflexivity|].
    unfold process_message, message_get. rewrite Ht.
    do 3 lift_step. rewrite He. reflexivity. }
  split; [vm_compute; reflexivity|].
  split; [|vm_compute; reflexivity].
  intros R t g0 g1 g2 g3 g4 g5 g6 g7 rest ps Hm Hi.
  cbn [try_patterns]. rewrite Hm. unfold parse_dms. rewrite Hi. reflexivity.
Qed.

(** When the matches carry a null relevance [geocode_locations] raises
    after the first request, and the candidates after it are never
    requested. *)
Example null_relevance_raises :
  List.length (extract_location_entities (R := null_relevance_runtime)
                                         kharkiv_text) = 4
  /\ geocode_locations (R := null_relevance_runtime) sample_llm
       (extract_location_entities (R := null_relevance_runtime) kharkiv_text) 0
     = (Raised TypeError, 1, [Request (str "Kharkiv, Ukraine")]).
Proof. split; vm_compute; reflexivity. Qed.
End MoreEvaluations.
